(** * The TraderMade clients (packages [tradermadews] and [tradermade]), embedded in Rocq

    The development follows the Go source of the WebSocket feed client:
    [Connect], [Disconnect], the receive loop [wsReadPump] and the retry loop
    [reconnect].  The client struct is a record, the effects of the package
    (dialling, writing, closing, printing, invoking a handler, starting a
    goroutine) are recorded in a trace, and a run ends by returning, by
    panicking, or by blocking for ever on the mutex.

    What lives outside the package is an explicit input of the function
    that depends on it: the answers of the transport, the decoder of
    [encoding/json] and the local time zone (record [libraries]), and the
    calls of [Disconnect] the foreground makes while the goroutine of the
    receive loop is blocked in a read or in a retry wait.  The packages
    [strconv], [time] and [encoding/json] of the Go library are given as
    far as the client uses them, after their documented behaviour; the
    facts on the receive loop hold for every decoder and every location.

    A handler installed by the caller is only known by its calls: what the
    handler does itself, for instance calling back into the client, is not
    part of the package.  [int] has 64 bits, as on amd64 and arm64.

    The request/response client of the package [tradermade] comes after
    the streaming client, in the module [rest]: a method makes at most one
    HTTP request, and what the network and the server answer is an input
    of the method. *)

From Stdlib Require Import ZArith List String Ascii Bool Lia.
Import ListNotations.

Local Open Scope Z_scope.
Local Open Scope list_scope.

Local Set Warnings "-register-all".

(** ** Characters and strings *)

Definition dquote : ascii := "034"%char.
Definition newline : ascii := "010"%char.

Definition dq : string := String dquote EmptyString.
Definition nl : string := String newline EmptyString.

Definition cat (ss : list string) : string :=
  fold_right String.append EmptyString ss.

(** Every character of [s] satisfies [p]. *)
Fixpoint all_chars (p : ascii -> bool) (s : string) : bool :=
  match s with
  | EmptyString => true
  | String ch rest => p ch && all_chars p rest
  end.

(** [strings.HasPrefix]. *)
Definition HasPrefix (s p : string) : bool := String.prefix p s.

(** ** Fixed-width integers *)

Module Int64.

Definition min_int : Z := - 2 ^ 63.
Definition max_int : Z := 2 ^ 63 - 1.

(** Two's complement wrap-around of an exact result into 64 bits. *)
Definition wrap (z : Z) : Z := (z + 2 ^ 63) mod 2 ^ 64 - 2 ^ 63.

Definition add (a b : Z) : Z := wrap (a + b).
Definition mul (a b : Z) : Z := wrap (a * b).

End Int64.

(** Go's [int] on the 64-bit targets: same width as [int64]. *)
Definition int_incr (n : Z) : Z := Int64.add n 1.

(** ** Errors *)

(** An [error] value.  Errors are produced by the libraries the package calls;
    the package itself only wraps one with [fmt.Errorf] and the [%w] verb.
    [ErrNum] is a [*strconv.NumError]; [range] tells [ErrRange] from
    [ErrSyntax]. *)
Inductive error : Type :=
| ErrLib (origin : string) (msg : string)
| ErrNum (func : string) (num : string) (range : bool)
| ErrWrap (format : string) (inner : error).

Definition Errorf (format : string) (inner : error) : error := ErrWrap format inner.

Definition Unwrap (e : error) : option error :=
  match e with
  | ErrWrap _ inner => Some inner
  | _ => None
  end.

Definition is_nil (e : option error) : bool :=
  match e with None => true | Some _ => false end.

(** ** Package [strconv] *)

Module strconv.

Definition digit_val (ch : ascii) : option Z :=
  let n := Z.of_nat (nat_of_ascii ch) in
  if (48 <=? n) && (n <=? 57) then Some (n - 48) else None.

Definition digit_char (d : Z) : ascii := ascii_of_nat (48 + Z.to_nat d).

(** The loop of [ParseUint(s, 10, 64)]: a byte that is no decimal digit is
    a syntax error, a value above [2^64 - 1] a range error; the first of
    the two met from the left is reported. *)
Fixpoint ParseUint_loop (s : string) (n : Z) : Z + bool :=
  match s with
  | EmptyString => inl n
  | String ch rest =>
      match digit_val ch with
      | None => inr false
      | Some d =>
          if 2 ^ 64 <=? n * 10 + d then inr true
          else ParseUint_loop rest (n * 10 + d)
      end
  end.

Definition ParseUint (s : string) : Z + bool :=
  match s with
  | EmptyString => inr false
  | _ => ParseUint_loop s 0
  end.

(** [ParseInt(s, 10, 64)]. *)
Definition ParseInt (s : string) : Z + error :=
  match s with
  | EmptyString => inr (ErrNum "ParseInt" s false)
  | String sign rest =>
      let neg := Ascii.eqb sign "-" in
      let body := if Ascii.eqb sign "+" || neg then rest else s in
      match ParseUint body with
      | inr false => inr (ErrNum "ParseInt" s false)
      | inr true => inr (ErrNum "ParseInt" s true)
      | inl un =>
          if negb neg && (2 ^ 63 <=? un) then inr (ErrNum "ParseInt" s true)
          else if neg && (2 ^ 63 <? un) then inr (ErrNum "ParseInt" s true)
          else inl (if neg then - un else un)
      end
  end.

End strconv.

(** ** Package [time] *)

Module time.

(** Decimal digits of [u >= 0], most significant first; the buffer of
    [appendInt] holds 20 digits, enough for 64 bits. *)
Fixpoint utoa_fuel (fuel : nat) (u : Z) : string :=
  match fuel with
  | O => EmptyString
  | S fuel' =>
      if u <? 10 then String (strconv.digit_char u) EmptyString
      else String.append (utoa_fuel fuel' (u / 10))
                         (String (strconv.digit_char (u mod 10)) EmptyString)
  end.

Definition utoa (u : Z) : string := utoa_fuel 20 u.

Fixpoint zeros (n : nat) : string :=
  match n with
  | O => EmptyString
  | S n' => String "0" (zeros n')
  end.

Definition pad (width : nat) (s : string) : string :=
  String.append (zeros (width - String.length s)) s.

(** [appendInt(b, x, width)]: a sign for a negative [x], then the decimal
    digits of its magnitude, zero-padded to [width]. *)
Definition appendInt (x : Z) (width : nat) : string :=
  String.append (if x <? 0 then "-" else EmptyString) (pad width (utoa (Z.abs x))).

(** A [Time] built by [Unix]: seconds since the epoch and the nanoseconds
    within the second. *)
Record Time : Type := mkTime { t_sec : Z; t_nsec : Z }.

(** [Unix(sec, nsec)]: [nsec] outside [0, 999999999] is carried into
    [sec]; the division truncates toward zero. *)
Definition Unix (sec nsec : Z) : Time :=
  if (nsec <? 0) || (1000000000 <=? nsec) then
    let n := Z.quot nsec 1000000000 in
    let sec1 := Int64.add sec n in
    let nsec1 := nsec - n * 1000000000 in
    if nsec1 <? 0 then mkTime (Int64.add sec1 (-1)) (nsec1 + 1000000000)
    else mkTime sec1 nsec1
  else mkTime sec nsec.

(** The civil date of a day count since 1970-01-01 (proleptic Gregorian
    calendar). *)
Definition civil_from_days (days : Z) : Z * Z * Z :=
  let z := days + 719468 in
  let era := z / 146097 in
  let doe := z - era * 146097 in
  let yoe := (doe - doe / 1460 + doe / 36524 - doe / 146096) / 365 in
  let doy := doe - (365 * yoe + yoe / 4 - yoe / 100) in
  let mp := (5 * doy + 2) / 153 in
  let d := doy - (153 * mp + 2) / 5 + 1 in
  let m := if mp <? 10 then mp + 3 else mp - 9 in
  let y := yoe + era * 400 + (if m <=? 2 then 1 else 0) in
  (y, m, d).

(** A location: the offset east of UTC, in seconds, in force at an
    instant given in seconds since the epoch. *)
Definition Location : Type := Z -> Z.

Definition UTC : Location := fun _ => 0.

(** [appendNano] for the layout element [.000]: the separator, then the
    first three of the nine digits of the nanoseconds. *)
Definition appendNano3 (nanosec : Z) : string :=
  String "." (String.substring 0 3 (appendInt nanosec 9)).

Definition date_clock (loc : Location) (t : Time) : string :=
  let abs := t_sec t + loc (t_sec t) in
  let '(year, month, day) := civil_from_days (abs / 86400) in
  let sod := abs mod 86400 in
  cat [appendInt year 4; "-"; appendInt month 2; "-"; appendInt day 2; " ";
       appendInt (sod / 3600) 2; ":"; appendInt (sod mod 3600 / 60) 2; ":";
       appendInt (sod mod 60) 2]%string.

(** [t.Format("2006-01-02 15:04:05.000")] for a time in location [loc]. *)
Definition Format (loc : Location) (t : Time) : string :=
  String.append (date_clock loc t) (appendNano3 (t_nsec t)).

End time.

(** ** Messages and events *)

(** A [float64] struct field holds the JSON number literal it was decoded
    from; rounding to binary64 is not modelled.  The zero value is [0]. *)
Inductive float64 : Type := Float64 (literal : string).

Definition float64_zero : float64 := Float64 "0".

Record QuoteMessage : Type := mkQuote {
  q_Symbol : string;
  Bid : float64;
  Ask : float64;
  Mid : float64;
  Ts : string
}.

Record ConnectedMessage : Type := mkConnected {
  Status : string;
  Message : string
}.

Definition QuoteMessage_zero : QuoteMessage :=
  mkQuote EmptyString float64_zero float64_zero float64_zero EmptyString.

Definition ConnectedMessage_zero : ConnectedMessage :=
  mkConnected EmptyString EmptyString.

(** A transport handle ([*websocket.Conn]); [None] is the nil pointer. *)
Definition conn : Type := nat.

Inductive arg : Type :=
| ArgString (s : string)
| ArgInt (n : Z)
| ArgError (e : error).

(** [websocket.TextMessage]. *)
Definition TextMessage : Z := 1.

Inductive event : Type :=
| EvPrintf (format : string) (args : list arg)
| EvPrintln (line : string)
| EvDial (url : string)
| EvGo_wsReadPump
| EvWriteMessage (h : conn) (messageType : Z) (data : string)
| EvClose (h : conn)
| EvConnectedHandler (m : ConnectedMessage)
| EvMessageHandler (q : QuoteMessage) (humanTimestamp : string)
| EvReconnectionHandler (attempt : Z).

Definition trace : Type := list event.

(** ** Package [encoding/json], as far as [Unmarshal] into the two message
    structs goes

    [Unmarshal] first checks the whole text against the JSON grammar and
    then fills the struct from the value: a member is stored in the field
    whose name equals its key, case folded; a member of the wrong kind is
    skipped and reported once the whole object has been read; [null] and
    unknown keys change nothing.  Bytes above 127 in a string are kept as
    they are, which is what the decoder does on well-formed UTF-8. *)

Module json.

Inductive value : Type :=
| Null
| Bool (b : bool)
| Number (literal : string)
| Str (s : string)
| Array (elems : list value)
| Object (members : list (string * value)).

Inductive token : Type :=
| TLBrace | TRBrace | TLBracket | TRBracket | TColon | TComma
| TScalar (v : value).

Definition code (ch : ascii) : Z := Z.of_nat (nat_of_ascii ch).
Definition byte (n : Z) : ascii := ascii_of_nat (Z.to_nat n).

Definition is_space (ch : ascii) : bool :=
  let n := code ch in (n =? 32) || (n =? 9) || (n =? 10) || (n =? 13).

Definition is_digit (ch : ascii) : bool :=
  let n := code ch in (48 <=? n) && (n <=? 57).

Definition hex_val (ch : ascii) : option Z :=
  let n := code ch in
  if (48 <=? n) && (n <=? 57) then Some (n - 48)
  else if (97 <=? n) && (n <=? 102) then Some (n - 87)
  else if (65 <=? n) && (n <=? 70) then Some (n - 55)
  else None.

(** [getu4] on the four characters after [\u]. *)
Definition getu4 (h1 h2 h3 h4 : ascii) : option Z :=
  match hex_val h1, hex_val h2, hex_val h3, hex_val h4 with
  | Some a, Some b, Some c, Some d => Some (((a * 16 + b) * 16 + c) * 16 + d)
  | _, _, _, _ => None
  end.

(** [utf8.EncodeRune] on a code point that is no surrogate. *)
Definition utf8 (r : Z) : string :=
  if r <? 128 then String (byte r) EmptyString
  else if r <? 2048 then
    String (byte (192 + r / 64)) (String (byte (128 + r mod 64)) EmptyString)
  else if r <? 65536 then
    String (byte (224 + r / 4096))
      (String (byte (128 + r / 64 mod 64))
         (String (byte (128 + r mod 64)) EmptyString))
  else
    String (byte (240 + r / 262144))
      (String (byte (128 + r / 4096 mod 64))
         (String (byte (128 + r / 64 mod 64))
            (String (byte (128 + r mod 64)) EmptyString))).

Definition ReplacementChar : Z := 65533.

Definition is_surrogate (r : Z) : bool := (55296 <=? r) && (r <? 57344).

(** [utf16.DecodeRune]. *)
Definition DecodeRune (r1 r2 : Z) : Z :=
  if (55296 <=? r1) && (r1 <? 56320) && (56320 <=? r2) && (r2 <? 57344)
  then (r1 - 55296) * 1024 + (r2 - 56320) + 65536
  else ReplacementChar.

Definition simple_escape (ch : ascii) : option ascii :=
  let n := code ch in
  if (n =? 34) || (n =? 92) || (n =? 47) then Some ch
  else if n =? 98 then Some (byte 8)
  else if n =? 102 then Some (byte 12)
  else if n =? 110 then Some (byte 10)
  else if n =? 114 then Some (byte 13)
  else if n =? 116 then Some (byte 9)
  else None.

Definition prepend (p : string) (r : option (string * string)) : option (string * string) :=
  match r with
  | Some (s, rest) => Some (String.append p s, rest)
  | None => None
  end.

(** The text of a string literal, read from just after its opening quote,
    and what follows the closing quote. *)
Fixpoint scan_string (s : string) : option (string * string) :=
  match s with
  | EmptyString => None
  | String ch rest =>
      if Ascii.eqb ch dquote then Some (EmptyString, rest)
      else if Ascii.eqb ch "\" then
        match rest with
        | EmptyString => None
        | String e rest1 =>
            match simple_escape e with
            | Some c => prepend (String c EmptyString) (scan_string rest1)
            | None =>
                if Ascii.eqb e "u" then
                  match rest1 with
                  | String h1 (String h2 (String h3 (String h4 rest2))) =>
                      match getu4 h1 h2 h3 h4 with
                      | None => None
                      | Some rr =>
                          if is_surrogate rr then
                            match rest2 with
                            | String b (String u (String k1 (String k2 (String k3 (String k4 rest3))))) =>
                                match (if Ascii.eqb b "\" && Ascii.eqb u "u"
                                       then getu4 k1 k2 k3 k4 else None) with
                                | Some rr1 =>
                                    if DecodeRune rr rr1 =? ReplacementChar
                                    then prepend (utf8 ReplacementChar) (scan_string rest2)
                                    else prepend (utf8 (DecodeRune rr rr1)) (scan_string rest3)
                                | None => prepend (utf8 ReplacementChar) (scan_string rest2)
                                end
                            | _ => prepend (utf8 ReplacementChar) (scan_string rest2)
                            end
                          else prepend (utf8 rr) (scan_string rest2)
                      end
                  | _ => None
                  end
                else None
            end
        end
      else if code ch <? 32 then None
      else prepend (String ch EmptyString) (scan_string rest)
  end.

(** The longest prefix of decimal digits, and the rest. *)
Fixpoint span_digits (s : string) : string * string :=
  match s with
  | String ch rest =>
      if is_digit ch then
        let (ds, r) := span_digits rest in (String ch ds, r)
      else (EmptyString, s)
  | EmptyString => (EmptyString, EmptyString)
  end.

(** A number literal at the head of [s]: an optional minus sign; an
    integer part, either a single zero or digits that start with a digit
    other than zero; an optional fraction, a point and at least one digit;
    an optional exponent, [e] or [E], an optional sign and at least one
    digit. *)
Definition scan_number (s : string) : option (string * string) :=
  let (sign, s1) := match s with
                    | String "-" r => ("-"%string, r)
                    | _ => (EmptyString, s)
                    end in
  let (ip, s2) := span_digits s1 in
  match ip with
  | EmptyString => None
  | String d more =>
      if Ascii.eqb d "0" && negb (String.eqb more EmptyString) then None
      else
        let frac :=
          match s2 with
          | String "." r =>
              let (fp, r') := span_digits r in
              if String.eqb fp EmptyString then None
              else Some (String "." fp, r')
          | _ => Some (EmptyString, s2)
          end in
        match frac with
        | None => None
        | Some (fp, s3) =>
            let expo :=
              match s3 with
              | String e r =>
                  if Ascii.eqb e "e" || Ascii.eqb e "E" then
                    let (sg, r1) :=
                      match r with
                      | String g r' =>
                          if Ascii.eqb g "+" || Ascii.eqb g "-"
                          then (String g EmptyString, r') else (EmptyString, r)
                      | EmptyString => (EmptyString, r)
                      end in
                    let (ds, r2) := span_digits r1 in
                    if String.eqb ds EmptyString then None
                    else Some (String e (String.append sg ds), r2)
                  else Some (EmptyString, s3)
              | EmptyString => Some (EmptyString, s3)
              end in
            match expo with
            | None => None
            | Some (ep, s4) => Some (cat [sign; ip; fp; ep], s4)
            end
        end
  end.

Fixpoint drop (n : nat) (s : string) : string :=
  match n, s with
  | S n', String _ rest => drop n' rest
  | _, _ => s
  end.

Definition push (t : token) (r : option (list token)) : option (list token) :=
  match r with
  | Some ts => Some (t :: ts)
  | None => None
  end.

Fixpoint tokenize (fuel : nat) (s : string) : option (list token) :=
  match fuel with
  | O => None
  | S fuel' =>
      match s with
      | EmptyString => Some []
      | String ch rest =>
          if is_space ch then tokenize fuel' rest
          else if Ascii.eqb ch "{" then push TLBrace (tokenize fuel' rest)
          else if Ascii.eqb ch "}" then push TRBrace (tokenize fuel' rest)
          else if Ascii.eqb ch "[" then push TLBracket (tokenize fuel' rest)
          else if Ascii.eqb ch "]" then push TRBracket (tokenize fuel' rest)
          else if Ascii.eqb ch ":" then push TColon (tokenize fuel' rest)
          else if Ascii.eqb ch "," then push TComma (tokenize fuel' rest)
          else if Ascii.eqb ch dquote then
            match scan_string rest with
            | Some (str, r) => push (TScalar (Str str)) (tokenize fuel' r)
            | None => None
            end
          else if String.prefix "true" s then
            push (TScalar (Bool true)) (tokenize fuel' (drop 4 s))
          else if String.prefix "false" s then
            push (TScalar (Bool false)) (tokenize fuel' (drop 5 s))
          else if String.prefix "null" s then
            push (TScalar Null) (tokenize fuel' (drop 4 s))
          else
            match scan_number s with
            | Some (lit, r) => push (TScalar (Number lit)) (tokenize fuel' r)
            | None => None
            end
      end
  end.

(** The scanner refuses a text nested deeper than this. *)
Definition maxNestingDepth : Z := 10000.

Fixpoint parse_value (fuel : nat) (depth : Z) (ts : list token)
  : option (value * list token) :=
  match fuel with
  | O => None
  | S fuel' =>
      match ts with
      | TScalar v :: r => Some (v, r)
      | TLBracket :: r =>
          if maxNestingDepth <=? depth then None
          else
            match r with
            | TRBracket :: r' => Some (Array [], r')
            | _ => parse_elements fuel' (depth + 1) r []
            end
      | TLBrace :: r =>
          if maxNestingDepth <=? depth then None
          else
            match r with
            | TRBrace :: r' => Some (Object [], r')
            | _ => parse_members fuel' (depth + 1) r []
            end
      | _ => None
      end
  end
with parse_elements (fuel : nat) (depth : Z) (ts : list token) (acc : list value)
  : option (value * list token) :=
  match fuel with
  | O => None
  | S fuel' =>
      match parse_value fuel' depth ts with
      | Some (v, TComma :: r) => parse_elements fuel' depth r (v :: acc)
      | Some (v, TRBracket :: r) => Some (Array (rev (v :: acc)), r)
      | _ => None
      end
  end
with parse_members (fuel : nat) (depth : Z) (ts : list token)
                   (acc : list (string * value))
  : option (value * list token) :=
  match fuel with
  | O => None
  | S fuel' =>
      match ts with
      | TScalar (Str k) :: TColon :: r =>
          match parse_value fuel' depth r with
          | Some (v, TComma :: r') => parse_members fuel' depth r' ((k, v) :: acc)
          | Some (v, TRBrace :: r') => Some (Object (rev ((k, v) :: acc)), r')
          | _ => None
          end
      | _ => None
      end
  end.

(** The value a whole text denotes, if the text is valid JSON. *)
Definition parse (data : string) : option value :=
  match tokenize (S (String.length data)) data with
  | None => None
  | Some ts =>
      match parse_value (2 * List.length ts + 2) 0 ts with
      | Some (v, []) => Some v
      | _ => None
      end
  end.

Definition upper (ch : ascii) : ascii :=
  let n := code ch in
  if (97 <=? n) && (n <=? 122) then byte (n - 32) else ch.

(** [foldName]: ASCII letters in upper case; the long s (U+017F) and the
    Kelvin sign (U+212A), given by their UTF-8 bytes, fold to [S] and [K]. *)
Fixpoint foldName (s : string) : string :=
  match s with
  | EmptyString => EmptyString
  | String c rest =>
      match rest with
      | String c1 rest1 =>
          if (code c =? 197) && (code c1 =? 191) then String "S" (foldName rest1)
          else
            match rest1 with
            | String c2 rest2 =>
                if (code c =? 226) && (code c1 =? 132) && (code c2 =? 170)
                then String "K" (foldName rest2)
                else String (upper c) (foldName rest)
            | EmptyString => String (upper c) (foldName rest)
            end
      | EmptyString => String (upper c) EmptyString
      end
  end.

Fixpoint digits_value (s : string) (acc : Z) : Z :=
  match s with
  | String ch rest => digits_value rest (acc * 10 + (code ch - 48))
  | EmptyString => acc
  end.

(** Whether [strconv.ParseFloat(literal, 64)] reports a range error: the
    magnitude is at least [2^1024 - 2^970], half way between the largest
    finite value and [2^1024]. *)
Definition float64_overflows (literal : string) : bool :=
  let s := match literal with String "-" r => r | _ => literal end in
  let (ip, r1) := span_digits s in
  let (fp, r2) := match r1 with
                  | String "." r => span_digits r
                  | _ => (EmptyString, r1)
                  end in
  let e := match r2 with
           | String _ (String "-" r) => - digits_value r 0
           | String _ (String "+" r) => digits_value r 0
           | String _ r => digits_value r 0
           | EmptyString => 0
           end in
  let m := digits_value (String.append ip fp) 0 in
  let e10 := e - Z.of_nat (String.length fp) in
  let bound := 2 ^ 1024 - 2 ^ 970 in
  if m =? 0 then false
  else if 400 <? e10 then true
  else if 0 <=? e10 then bound <=? m * 10 ^ e10
  else if Z.of_nat (String.length (String.append ip fp)) <=? - e10 then false
  else bound * 10 ^ (- e10) <=? m.

Definition UnmarshalTypeError (what field : string) : error :=
  ErrLib "encoding/json"
    (cat ["cannot unmarshal "; what; " into Go struct field "; field]%string).

Definition SyntaxError : error := ErrLib "encoding/json" "invalid JSON text".

Definition kind (v : value) : string :=
  match v with
  | Null => "null"
  | Bool _ => "bool"
  | Number _ => "number"
  | Str _ => "string"
  | Array _ => "array"
  | Object _ => "object"
  end.

(** Storing a value in a [string] field and in a [float64] field: the new
    content of the field and the error to report, if any. *)
Definition store_string (field : string) (v : value) (old : string)
  : string * option error :=
  match v with
  | Str s => (s, None)
  | Null => (old, None)
  | _ => (old, Some (UnmarshalTypeError (kind v) field))
  end.

Definition store_float64 (field : string) (v : value) (old : float64)
  : float64 * option error :=
  match v with
  | Number lit =>
      if float64_overflows lit then (old, Some (UnmarshalTypeError "number" field))
      else (Float64 lit, None)
  | Null => (old, None)
  | _ => (old, Some (UnmarshalTypeError (kind v) field))
  end.

(** [saveError]: only the first error is kept. *)
Definition saveError (saved new : option error) : option error :=
  match saved with
  | Some _ => saved
  | None => new
  end.

Fixpoint fill_ConnectedMessage (members : list (string * value))
                               (m : ConnectedMessage) (saved : option error)
  : ConnectedMessage * option error :=
  match members with
  | [] => (m, saved)
  | (k, v) :: rest =>
      let fk := foldName k in
      if String.eqb fk "STATUS" then
        let (s, e) := store_string "ConnectedMessage.status" v (Status m) in
        fill_ConnectedMessage rest (mkConnected s (Message m)) (saveError saved e)
      else if String.eqb fk "MESSAGE" then
        let (s, e) := store_string "ConnectedMessage.message" v (Message m) in
        fill_ConnectedMessage rest (mkConnected (Status m) s) (saveError saved e)
      else fill_ConnectedMessage rest m saved
  end.

Fixpoint fill_QuoteMessage (members : list (string * value))
                           (q : QuoteMessage) (saved : option error)
  : QuoteMessage * option error :=
  match members with
  | [] => (q, saved)
  | (k, v) :: rest =>
      let fk := foldName k in
      if String.eqb fk "SYMBOL" then
        let (s, e) := store_string "QuoteMessage.symbol" v (q_Symbol q) in
        fill_QuoteMessage rest (mkQuote s (Bid q) (Ask q) (Mid q) (Ts q)) (saveError saved e)
      else if String.eqb fk "BID" then
        let (f, e) := store_float64 "QuoteMessage.bid" v (Bid q) in
        fill_QuoteMessage rest (mkQuote (q_Symbol q) f (Ask q) (Mid q) (Ts q)) (saveError saved e)
      else if String.eqb fk "ASK" then
        let (f, e) := store_float64 "QuoteMessage.ask" v (Ask q) in
        fill_QuoteMessage rest (mkQuote (q_Symbol q) (Bid q) f (Mid q) (Ts q)) (saveError saved e)
      else if String.eqb fk "MID" then
        let (f, e) := store_float64 "QuoteMessage.mid" v (Mid q) in
        fill_QuoteMessage rest (mkQuote (q_Symbol q) (Bid q) (Ask q) f (Ts q)) (saveError saved e)
      else if String.eqb fk "TS" then
        let (s, e) := store_string "QuoteMessage.ts" v (Ts q) in
        fill_QuoteMessage rest (mkQuote (q_Symbol q) (Bid q) (Ask q) (Mid q) s) (saveError saved e)
      else fill_QuoteMessage rest q saved
  end.

(** [json.Unmarshal(data, &connectedMsg)] on a zero [ConnectedMessage]. *)
Definition Unmarshal_ConnectedMessage (data : string) : ConnectedMessage * option error :=
  match parse data with
  | None => (ConnectedMessage_zero, Some SyntaxError)
  | Some (Object members) => fill_ConnectedMessage members ConnectedMessage_zero None
  | Some Null => (ConnectedMessage_zero, None)
  | Some v => (ConnectedMessage_zero, Some (UnmarshalTypeError (kind v) "ConnectedMessage"))
  end.

(** [json.Unmarshal(message, &quote)] on a zero [QuoteMessage]. *)
Definition Unmarshal_QuoteMessage (data : string) : QuoteMessage * option error :=
  match parse data with
  | None => (QuoteMessage_zero, Some SyntaxError)
  | Some (Object members) => fill_QuoteMessage members QuoteMessage_zero None
  | Some Null => (QuoteMessage_zero, None)
  | Some v => (QuoteMessage_zero, Some (UnmarshalTypeError (kind v) "QuoteMessage"))
  end.

End json.

(** ** The client *)

(** A [chan struct{}] on which nothing is ever sent: all that matters is
    whether it is nil, open or closed. *)
Inductive chan : Type := ChanNil | ChanOpen | ChanClosed.

(** The handler fields record whether a handler is installed; the call of a
    handler is an event of the trace.  [ConnMutex] is [true] while locked.
    [RetryInterval] is a [time.Duration], a count of nanoseconds. *)
Record WebSocketClient : Type := mkClient {
  APIKey : string;
  Symbol : string;
  Conn : option conn;
  ConnMutex : bool;
  MessageHandler : bool;
  ConnectedHandler : bool;
  ReconnectionHandler : bool;
  MaxRetries : Z;
  RetryInterval : Z;
  AutoReconnect : bool;
  StopReconnect : chan
}.

Definition wsURL : string := "wss://marketdata.tradermade.com/feedadv".

Definition Second : Z := 1000000000.
Definition Millisecond : Z := 1000000.

Definition NewWebSocketClient (apiKey symbol : string) : WebSocketClient :=
  {| APIKey := apiKey;
     Symbol := symbol;
     Conn := None;
     ConnMutex := false;
     MessageHandler := false;
     ConnectedHandler := false;
     ReconnectionHandler := false;
     MaxRetries := 5;
     RetryInterval := 5 * Second;
     AutoReconnect := true;
     StopReconnect := ChanOpen |}.

Definition with_Conn (v : option conn) (c : WebSocketClient) : WebSocketClient :=
  {| APIKey := APIKey c; Symbol := Symbol c; Conn := v; ConnMutex := ConnMutex c;
     MessageHandler := MessageHandler c; ConnectedHandler := ConnectedHandler c;
     ReconnectionHandler := ReconnectionHandler c; MaxRetries := MaxRetries c;
     RetryInterval := RetryInterval c; AutoReconnect := AutoReconnect c;
     StopReconnect := StopReconnect c |}.

Definition with_ConnMutex (v : bool) (c : WebSocketClient) : WebSocketClient :=
  {| APIKey := APIKey c; Symbol := Symbol c; Conn := Conn c; ConnMutex := v;
     MessageHandler := MessageHandler c; ConnectedHandler := ConnectedHandler c;
     ReconnectionHandler := ReconnectionHandler c; MaxRetries := MaxRetries c;
     RetryInterval := RetryInterval c; AutoReconnect := AutoReconnect c;
     StopReconnect := StopReconnect c |}.

Definition with_StopReconnect (v : chan) (c : WebSocketClient) : WebSocketClient :=
  {| APIKey := APIKey c; Symbol := Symbol c; Conn := Conn c; ConnMutex := ConnMutex c;
     MessageHandler := MessageHandler c; ConnectedHandler := ConnectedHandler c;
     ReconnectionHandler := ReconnectionHandler c; MaxRetries := MaxRetries c;
     RetryInterval := RetryInterval c; AutoReconnect := AutoReconnect c;
     StopReconnect := v |}.

Definition with_MaxRetries (v : Z) (c : WebSocketClient) : WebSocketClient :=
  {| APIKey := APIKey c; Symbol := Symbol c; Conn := Conn c; ConnMutex := ConnMutex c;
     MessageHandler := MessageHandler c; ConnectedHandler := ConnectedHandler c;
     ReconnectionHandler := ReconnectionHandler c; MaxRetries := v;
     RetryInterval := RetryInterval c; AutoReconnect := AutoReconnect c;
     StopReconnect := StopReconnect c |}.

Definition SetSymbol (symbol : string) (c : WebSocketClient) : WebSocketClient :=
  {| APIKey := APIKey c; Symbol := symbol; Conn := Conn c; ConnMutex := ConnMutex c;
     MessageHandler := MessageHandler c; ConnectedHandler := ConnectedHandler c;
     ReconnectionHandler := ReconnectionHandler c; MaxRetries := MaxRetries c;
     RetryInterval := RetryInterval c; AutoReconnect := AutoReconnect c;
     StopReconnect := StopReconnect c |}.

Definition SetMessageHandler (c : WebSocketClient) : WebSocketClient :=
  {| APIKey := APIKey c; Symbol := Symbol c; Conn := Conn c; ConnMutex := ConnMutex c;
     MessageHandler := true; ConnectedHandler := ConnectedHandler c;
     ReconnectionHandler := ReconnectionHandler c; MaxRetries := MaxRetries c;
     RetryInterval := RetryInterval c; AutoReconnect := AutoReconnect c;
     StopReconnect := StopReconnect c |}.

Definition SetConnectedHandler (c : WebSocketClient) : WebSocketClient :=
  {| APIKey := APIKey c; Symbol := Symbol c; Conn := Conn c; ConnMutex := ConnMutex c;
     MessageHandler := MessageHandler c; ConnectedHandler := true;
     ReconnectionHandler := ReconnectionHandler c; MaxRetries := MaxRetries c;
     RetryInterval := RetryInterval c; AutoReconnect := AutoReconnect c;
     StopReconnect := StopReconnect c |}.

Definition SetReconnectionHandler (c : WebSocketClient) : WebSocketClient :=
  {| APIKey := APIKey c; Symbol := Symbol c; Conn := Conn c; ConnMutex := ConnMutex c;
     MessageHandler := MessageHandler c; ConnectedHandler := ConnectedHandler c;
     ReconnectionHandler := true; MaxRetries := MaxRetries c;
     RetryInterval := RetryInterval c; AutoReconnect := AutoReconnect c;
     StopReconnect := StopReconnect c |}.

Definition EnableAutoReconnect (enable : bool) (c : WebSocketClient) : WebSocketClient :=
  {| APIKey := APIKey c; Symbol := Symbol c; Conn := Conn c; ConnMutex := ConnMutex c;
     MessageHandler := MessageHandler c; ConnectedHandler := ConnectedHandler c;
     ReconnectionHandler := ReconnectionHandler c; MaxRetries := MaxRetries c;
     RetryInterval := RetryInterval c; AutoReconnect := enable;
     StopReconnect := StopReconnect c |}.

(** ** Runs of a method *)

Inductive panic : Type :=
| NilDereference           (* invalid memory address or nil pointer dereference *)
| CloseOfClosedChannel     (* close of closed channel *)
| CloseOfNilChannel        (* close of nil channel *)
| UnlockOfUnlockedMutex.   (* sync: unlock of unlocked mutex *)

(** How a run ends: it returns a value, it panics, it blocks for ever, or the
    fuel given to a loop was not enough to see its end. *)
Inductive result (A : Type) : Type :=
| Returned (a : A) (c : WebSocketClient) (tr : trace)
| Panicked (p : panic) (c : WebSocketClient) (tr : trace)
| Blocked (c : WebSocketClient) (tr : trace)
| OutOfFuel.

Arguments Returned {A} a c tr.
Arguments Panicked {A} p c tr.
Arguments Blocked {A} c tr.
Arguments OutOfFuel {A}.

Definition M (A : Type) : Type := WebSocketClient -> trace -> result A.

Definition ret {A : Type} (a : A) : M A := fun c tr => Returned a c tr.

Definition bind {A B : Type} (m : M A) (f : A -> M B) : M B :=
  fun c tr =>
    match m c tr with
    | Returned a c' tr' => f a c' tr'
    | Panicked p c' tr' => Panicked p c' tr'
    | Blocked c' tr' => Blocked c' tr'
    | OutOfFuel => OutOfFuel
    end.

Notation "x <- m ;; k" := (bind m (fun x => k))
  (at level 61, m at next level, right associativity).
Notation "m ;;; k" := (bind m (fun _ => k))
  (at level 61, right associativity).

Definition get : M WebSocketClient := fun c tr => Returned c c tr.
Definition modify (f : WebSocketClient -> WebSocketClient) : M unit :=
  fun c tr => Returned tt (f c) tr.
Definition emit (e : event) : M unit := fun c tr => Returned tt c (tr ++ [e]).
Definition throw {A : Type} (p : panic) : M A := fun c tr => Panicked p c tr.

(** [defer]: the deferred call runs when the body returns and also when it
    panics; a panic of the body goes on after the deferred call returned. *)
Definition defer {A : Type} (body : M A) (deferred : M unit) : M A :=
  fun c tr =>
    match body c tr with
    | Returned a c' tr' =>
        match deferred c' tr' with
        | Returned _ c'' tr'' => Returned a c'' tr''
        | Panicked p c'' tr'' => Panicked p c'' tr''
        | Blocked c'' tr'' => Blocked c'' tr''
        | OutOfFuel => OutOfFuel
        end
    | Panicked p c' tr' =>
        match deferred c' tr' with
        | Returned _ c'' tr'' => Panicked p c'' tr''
        | Panicked p' c'' tr'' => Panicked p' c'' tr''
        | Blocked c'' tr'' => Blocked c'' tr''
        | OutOfFuel => OutOfFuel
        end
    | Blocked c' tr' => Blocked c' tr'
    | OutOfFuel => OutOfFuel
    end.

(** [sync.Mutex]: no other goroutine runs inside a method of this model, so
    [Lock] on a locked mutex never gets it. *)
Definition Lock : M unit :=
  fun c tr => if ConnMutex c then Blocked c tr
              else Returned tt (with_ConnMutex true c) tr.

Definition Unlock : M unit :=
  fun c tr => if ConnMutex c then Returned tt (with_ConnMutex false c) tr
              else Panicked UnlockOfUnlockedMutex c tr.

(** The builtin [close] on [client.StopReconnect]. *)
Definition close_StopReconnect : M unit :=
  fun c tr =>
    match StopReconnect c with
    | ChanOpen => Returned tt (with_StopReconnect ChanClosed c) tr
    | ChanClosed => Panicked CloseOfClosedChannel c tr
    | ChanNil => Panicked CloseOfNilChannel c tr
    end.

(** ** [fmt.Sprintf] with [%s] verbs and string operands *)

Fixpoint Sprintf (format : string) (args : list string) : string :=
  match format with
  | String "%" (String "s" rest) =>
      match args with
      | a :: args' => String.append a (Sprintf rest args')
      | [] => String.append "%!s(MISSING)" (Sprintf rest [])
      end
  | String ch rest => String ch (Sprintf rest args)
  | EmptyString => EmptyString
  end.

(** The format of the authentication message, the raw string literal of
    [Connect]. *)
Definition cred_format : string :=
  cat ["{"; dq; "userKey"; dq; ":"; dq; "%s"; dq; ", ";
       dq; "symbol"; dq; ":"; dq; "%s"; dq; "}"]%string.

(** ** [Connect] and [Disconnect] *)

(** What the transport answers during one call of [Connect]: the result of
    [Dial] (a handle, or an error with a nil handle) and the result of
    [WriteMessage]. *)
Record connect_env : Type := mkConnectEnv {
  dial_result : conn + error;
  write_result : option error
}.

Definition Connect (e : connect_env) : M (option error) :=
  Lock ;;;
  defer
    (c <- get ;;
     match Conn c with
     | Some _ => ret None
     | None =>
         emit (EvDial wsURL) ;;;
         match dial_result e with
         | inr err =>
             modify (with_Conn None) ;;;
             emit (EvPrintf (String.append "WebSocket connection failed: %v" nl)
                            [ArgError err]) ;;;
             ret (Some err)
         | inl h =>
             modify (with_Conn (Some h)) ;;;
             emit EvGo_wsReadPump ;;;
             (let cred := Sprintf cred_format [APIKey c; Symbol c] in
              emit (EvWriteMessage h TextMessage cred) ;;;
              match write_result e with
              | Some err => ret (Some (Errorf "Failed to send credentials: %w" err))
              | None => ret None
              end)
         end
     end)
    Unlock.

(** [Disconnect]; [close_result] is what [Conn.Close] answers. *)
Definition Disconnect (close_result : option error) : M (option error) :=
  close_StopReconnect ;;;
  Lock ;;;
  defer
    (c <- get ;;
     match Conn c with
     | Some h =>
         emit (EvClose h) ;;;
         modify (with_Conn None) ;;;
         ret close_result
     | None => ret None
     end)
    Unlock.

(** ** The retry loop [reconnect] *)

(** What happens around the [select] of one retry wait.  The loop runs in
    the goroutine of the receive loop, so a [Disconnect] called by the
    foreground can run to its end while the wait is pending:
    [concurrent_Disconnect] holds the answer of its [Conn.Close] when there
    is one.  [timer_ready] tells whether the channel of [time.After] has
    delivered when [select] chooses, and [pick_timer] is the choice [select]
    makes when both channels are ready. *)
Record wait_env : Type := mkWaitEnv {
  concurrent_Disconnect : option (option error);
  timer_ready : bool;
  pick_timer : bool
}.

Record attempt_env : Type := mkAttemptEnv {
  att_connect : connect_env;
  att_wait : wait_env
}.

Inductive wake : Type := TimerFired | StopFired.

(** The case [select] takes.  A receive from a closed channel is ready at
    once, a receive from an open or nil channel on which nothing is sent
    never is; with the stop channel not ready, [select] sleeps until the
    timer delivers.  Time itself is not measured: how long
    [time.After(client.RetryInterval)] takes to deliver shows only in
    [timer_ready]. *)
Definition select_wake (w : wait_env) (stop : chan) : wake :=
  match stop with
  | ChanClosed =>
      if timer_ready w then (if pick_timer w then TimerFired else StopFired)
      else StopFired
  | _ => TimerFired
  end.

Definition retry_wait (w : wait_env) : M wake :=
  match concurrent_Disconnect w with
  | Some close_result => Disconnect close_result ;;; ret tt
  | None => ret tt
  end ;;;
  c <- get ;;
  ret (select_wake w (StopReconnect c)).

(** The [return] statement by which [reconnect] ends.  The first and the
    last are the state the specification calls Stopped, the second is its
    state Connected. *)
Inductive exit : Type :=
| MaxRetriesReached
| Reconnected
| Stopped.

(** The [for] loop of [reconnect]; [i] counts the iterations already done
    and selects what the environment answers in this one, [retries] is the
    local variable of the source. *)
Fixpoint reconnect_loop (fuel : nat) (env : nat -> attempt_env) (i : nat)
                        (retries : Z) : M exit :=
  match fuel with
  | O => fun _ _ => OutOfFuel
  | S fuel' =>
      let retries := int_incr retries in
      c <- get ;;
      if retries >? MaxRetries c then
        emit (EvPrintln "Max retries reached. Stopping reconnection attempts.") ;;;
        ret MaxRetriesReached
      else
        (if ReconnectionHandler c then emit (EvReconnectionHandler retries)
         else ret tt) ;;;
        emit (EvPrintf (String.append "Attempting to reconnect... (Attempt %d/%d)" nl)
                       [ArgInt retries; ArgInt (MaxRetries c)]) ;;;
        err <- Connect (att_connect (env i)) ;;
        match err with
        | None =>
            emit (EvPrintln "Successfully reconnected to WebSocket.") ;;;
            ret Reconnected
        | Some _ =>
            w <- retry_wait (att_wait (env i)) ;;
            match w with
            | StopFired =>
                emit (EvPrintln "Reconnect stopped.") ;;;
                ret Stopped
            | TimerFired => reconnect_loop fuel' env (S i) retries
            end
        end
  end.

Definition reconnect (fuel : nat) (env : nat -> attempt_env) : M exit :=
  reconnect_loop fuel env 0 0.

(** ** The receive loop [wsReadPump] *)

(** The libraries the receive loop calls: the two uses of [json.Unmarshal]
    and the location [time.Local] that [Format] prints in. *)
Record libraries : Type := mkLibraries {
  Unmarshal_ConnectedMessage : string -> ConnectedMessage * option error;
  Unmarshal_QuoteMessage : string -> QuoteMessage * option error;
  Local : time.Location
}.

Definition go_libraries (loc : time.Location) : libraries :=
  {| Unmarshal_ConnectedMessage := json.Unmarshal_ConnectedMessage;
     Unmarshal_QuoteMessage := json.Unmarshal_QuoteMessage;
     Local := loc |}.

(** The test on the first byte of a message. *)
Definition looks_like_json (msgStr : string) : bool :=
  HasPrefix msgStr "{" || HasPrefix msgStr "[".

(** The conversion of the timestamp of a quote. *)
Definition human_timestamp (lib : libraries) (tsInt : Z) : string :=
  time.Format (Local lib) (time.Unix 0 (Int64.mul tsInt Millisecond)).

(** The body of the [for] loop of [wsReadPump] after a successful read: the
    events one message gives rise to.  A handler is called in the goroutine
    of the loop; what the handler itself does is not part of the package. *)
Definition handle_message (lib : libraries) (c : WebSocketClient) (msgStr : string)
  : list event :=
  if looks_like_json msgStr then
    let (connectedMsg, err) := Unmarshal_ConnectedMessage lib msgStr in
    if is_nil err && String.eqb (Status connectedMsg) "connected" then
      if ConnectedHandler c then [EvConnectedHandler connectedMsg] else []
    else
      let (quote, err) := Unmarshal_QuoteMessage lib msgStr in
      match err with
      | Some e =>
          [EvPrintf (String.append "Failed to unmarshal quote message: %v" nl) [ArgError e]]
      | None =>
          match strconv.ParseInt (Ts quote) with
          | inr e =>
              [EvPrintf (String.append "Failed to parse timestamp: %v" nl) [ArgError e]]
          | inl tsInt =>
              if MessageHandler c then [EvMessageHandler quote (human_timestamp lib tsInt)]
              else []
          end
      end
  else [EvPrintf (String.append "Status: %s" nl) [ArgString msgStr]].

Definition emit_all (evs : list event) : M unit :=
  fun c tr => Returned tt c (tr ++ evs).

(** What the goroutine of [wsReadPump] meets: the messages read, in order,
    then the read that fails with [read_error].  The failing read may be
    the one a [Disconnect] of the foreground interrupts by closing the
    transport: [pump_Disconnect] then holds the answer of its [Conn.Close].
    [retry_fuel] and [retry_env] are for the call of [reconnect]. *)
Record pump_env : Type := mkPumpEnv {
  messages : list string;
  pump_Disconnect : option (option error);
  read_error : error;
  retry_fuel : nat;
  retry_env : nat -> attempt_env
}.

(** The [for] loop.  [client.Conn.ReadMessage()] on a nil handle reads a
    field through the nil pointer. *)
Fixpoint read_loop (lib : libraries) (msgs : list string)
                   (interrupt : option (option error)) (err : error) : M unit :=
  c <- get ;;
  match Conn c with
  | None => throw NilDereference
  | Some _ =>
      match msgs with
      | msgStr :: rest =>
          emit_all (handle_message lib c msgStr) ;;;
          read_loop lib rest interrupt err
      | [] =>
          match interrupt with
          | Some close_result => Disconnect close_result ;;; ret tt
          | None => ret tt
          end ;;;
          emit (EvPrintf (String.append "WebSocket read error: %v" nl) [ArgError err])
      end
  end.

(** The deferred function of [wsReadPump].  [client.Conn.Close()] reads a
    field of its receiver, so it panics on a nil handle; the error it
    returns is dropped. *)
Definition teardown (fuel : nat) (env : nat -> attempt_env) : M unit :=
  Lock ;;;
  c <- get ;;
  match Conn c with
  | None => throw NilDereference
  | Some h => emit (EvClose h)
  end ;;;
  modify (with_Conn None) ;;;
  Unlock ;;;
  c <- get ;;
  if AutoReconnect c then reconnect fuel env ;;; ret tt
  else ret tt.

Definition wsReadPump (lib : libraries) (e : pump_env) : M unit :=
  defer
    (read_loop lib (messages e) (pump_Disconnect e) (read_error e))
    (teardown (retry_fuel e) (retry_env e)).

(** ** What is observed on a trace *)

Definition is_callback (e : event) : bool :=
  match e with
  | EvConnectedHandler _ | EvMessageHandler _ _ | EvReconnectionHandler _ => true
  | _ => false
  end.

(** The calls of handlers, in order. *)
Definition callbacks (tr : trace) : trace := filter is_callback tr.

(** The payloads handed to [WriteMessage], in order. *)
Definition written (tr : trace) : list string :=
  flat_map (fun e => match e with
                     | EvWriteMessage _ _ data => [data]
                     | _ => []
                     end) tr.

(** The attempt numbers the reconnection handler was called with. *)
Definition handler_attempts (tr : trace) : list Z :=
  flat_map (fun e => match e with
                     | EvReconnectionHandler n => [n]
                     | _ => []
                     end) tr.

(** The number of calls of [Dial]. *)
Definition dial_count (tr : trace) : nat :=
  List.length (filter (fun e => match e with EvDial _ => true | _ => false end) tr).

(** The attempt numbers [a+1 .. a+k]. *)
Definition attempts_from (a k : nat) : list Z :=
  map (fun n => Z.of_nat (S n)) (seq a k).


(** What the loop adds to the trace before it calls [Connect] in attempt [n]. *)
Definition announce (c : WebSocketClient) (n : Z) : trace :=
  (if ReconnectionHandler c then [EvReconnectionHandler n] else [])
  ++ [EvPrintf (String.append "Attempting to reconnect... (Attempt %d/%d)" nl)
               [ArgInt n; ArgInt (MaxRetries c)]].

(** What [reconnect] does after a failed [Connect] in iteration [i]. *)
Definition after_failure (fuel : nat) (env : nat -> attempt_env) (i : nat)
                         (retries : Z) : M exit :=
  w <- retry_wait (att_wait (env i)) ;;
  match w with
  | StopFired => emit (EvPrintln "Reconnect stopped.") ;;; ret Stopped
  | TimerFired => reconnect_loop fuel env (S i) retries
  end.

(** ** The wording of the specification *)

(** The authentication frame as the specification writes it: no space
    anywhere. *)
Definition spec_auth_frame (K S : string) : string :=
  cat ["{"; dq; "userKey"; dq; ":"; dq; K; dq; ",";
       dq; "symbol"; dq; ":"; dq; S; dq; "}"]%string.

(** The text [Sprintf] makes of the format of [Connect], in closed form:
    one space follows the comma between the two members. *)
Definition auth_frame (K S : string) : string :=
  cat ["{"; dq; "userKey"; dq; ":"; dq; K; dq; ", ";
       dq; "symbol"; dq; ":"; dq; S; dq; "}"]%string.





(** The line printed for a message that is not structured. *)
Definition status_line (msgStr : string) : event :=
  EvPrintf (String.append "Status: %s" nl) [ArgString msgStr].

(** The message decodes as a status notice whose status is the connected
    sentinel: the test of the first [if] of the JSON branch. *)
Definition connected_notice (lib : libraries) (msgStr : string) : bool :=
  let (connectedMsg, err) := Unmarshal_ConnectedMessage lib msgStr in
  is_nil err && String.eqb (Status connectedMsg) "connected".

(** The message decodes as a quote whose [ts] text [ParseInt] accepts. *)
Definition quote_deliverable (lib : libraries) (msgStr : string) : bool :=
  let (quote, err) := Unmarshal_QuoteMessage lib msgStr in
  is_nil err && match strconv.ParseInt (Ts quote) with
                | inl _ => true
                | inr _ => false
                end.

(** The text after the first point of a string. *)
Fixpoint after_point (s : string) : option string :=
  match s with
  | EmptyString => None
  | String ch rest => if Ascii.eqb ch "." then Some rest else after_point rest
  end.

(** The fractional-second component of a human-readable timestamp, read
    as a decimal number. *)
Definition fraction (s : string) : option Z :=
  match after_point s with
  | Some f =>
      match strconv.ParseUint f with
      | inl n => Some n
      | inr _ => None
      end
  | None => None
  end.

(** The largest millisecond count whose nanosecond count fits 64 bits. *)
Definition max_millis : Z := 9223372036854.

Definition not_point (ch : ascii) : bool := negb (Ascii.eqb ch ".").

(** The three digits printed for [ms] milliseconds read back as [ms]. *)
Definition fraction_check (ms : Z) : bool :=
  match strconv.ParseUint (String.substring 0 3 (time.appendInt (ms * 1000000) 9)) with
  | inl n => n =? ms
  | inr _ => false
  end.

(** ** Sample inputs *)

Definition quoted (s : string) : string := cat [dq; s; dq].

Definition refused : error := ErrLib "net" "connection refused".
Definition broken_pipe : error := ErrLib "net" "broken pipe".

Definition sample_client : WebSocketClient :=
  SetReconnectionHandler
    (SetConnectedHandler
       (SetMessageHandler (NewWebSocketClient "k1" "EURUSD,GBPUSD"))).

Definition connected_client : WebSocketClient := with_Conn (Some 1%nat) sample_client.

(** A transport that refuses every connection, and nobody disconnects. *)
Definition always_refused : nat -> attempt_env :=
  fun _ => mkAttemptEnv (mkConnectEnv (inr refused) None) (mkWaitEnv None true true).

(** The same, with a [Disconnect] during the wait of iteration [j]. *)
Definition refused_then_cancelled (j : nat) : nat -> attempt_env :=
  fun i => mkAttemptEnv (mkConnectEnv (inr refused) None)
             (mkWaitEnv (if Nat.eqb i j then Some None else None) false true).

Definition quote_frame (ts : string) : string :=
  cat ["{"; quoted "symbol"; ":"; quoted "EURUSD"; ",";
       quoted "bid"; ":1.1,"; quoted "ask"; ":1.2,"; quoted "mid"; ":1.15,";
       quoted "ts"; ":"; quoted ts; "}"]%string.

Definition notice_frame (status message : string) : string :=
  cat ["{"; quoted "status"; ":"; quoted status; ",";
       quoted "message"; ":"; quoted message; "}"]%string.

(** A status notice that also carries a [ts] member. *)
Definition notice_with_ts (status ts : string) : string :=
  cat ["{"; quoted "status"; ":"; quoted status; ",";
       quoted "ts"; ":"; quoted ts; "}"]%string.

(** ** Further observations on the client *)

(** The fields no method of the client writes to. *)
Definition settings (c : WebSocketClient)
  : string * string * (bool * bool * bool) * (Z * Z * bool) :=
  (APIKey c, Symbol c,
   (MessageHandler c, ConnectedHandler c, ReconnectionHandler c),
   (MaxRetries c, RetryInterval c, AutoReconnect c)).

(** The client [c'] is what [k] failed calls of [Connect] in a row make of
    [c], the first of them in iteration [i]; nobody disconnects in
    between. *)
Fixpoint after_failures (k : nat) (env : nat -> attempt_env) (i : nat)
                        (c c' : WebSocketClient) : Prop :=
  match k with
  | O => c' = c
  | S k' =>
      exists err c1 tr1,
        Connect (att_connect (env i)) c [] = Returned (Some err) c1 tr1
        /\ after_failures k' env (S i) c1 c'
  end.

(** A property of the client and the trace a run ends with, however it
    ends; a run that ran out of fuel has none. *)
Definition ends_with {A : Type} (P : WebSocketClient -> trace -> Prop)
                     (r : result A) : Prop :=
  match r with
  | Returned _ c tr | Panicked _ c tr | Blocked c tr => P c tr
  | OutOfFuel => False
  end.

(** The number of calls of [Close] on a handle. *)
Definition close_count (tr : trace) : nat :=
  List.length (filter (fun e => match e with EvClose _ => true | _ => false end) tr).

(** A transport that refuses the first [k] connections and accepts the
    next one with the handle [h]; nobody disconnects. *)
Definition refused_then_accepted (k : nat) (h : conn) : nat -> attempt_env :=
  fun i => mkAttemptEnv
             (mkConnectEnv (if Nat.ltb i k then inr refused else inl h) None)
             (mkWaitEnv None true true).

(** The line the receive loop prints when a read fails. *)
Definition read_error_line (err : error) : event :=
  EvPrintf (String.append "WebSocket read error: %v" nl) [ArgError err].

(** A connected notice that also carries the members of a quote. *)
Definition connected_with_ts (ts : string) : string :=
  cat ["{"; quoted "status"; ":"; quoted "connected"; ",";
       quoted "symbol"; ":"; quoted "EURUSD"; ",";
       quoted "ts"; ":"; quoted ts; "}"]%string.

(** ** The request/response client (package [tradermade])

    A method of [RESTClient] makes at most one HTTP request.  What the
    server and the network answer is an input ([http]); the result of a
    method is the error or the decoded value it returns, together with the
    calls it made on the HTTP client and on the body of the response. *)

Module rest.

Definition baseURL : string := "https://marketdata.tradermade.com/api/v1".

(** [http.StatusOK]. *)
Definition StatusOK : Z := 200.

(** *** The structs of the responses.  A slice is a list; the nil slice
    and the empty slice are not told apart. *)

Record Quote : Type := mkQuote {
  Ask : float64;
  Bid : float64;
  Mid : float64;
  BaseCurrency : string;
  QuoteCurrency : string;
  Instrument : string
}.

Record LiveRate : Type := mkLiveRate {
  lr_Endpoint : string;
  lr_Quotes : list Quote;
  lr_RequestedTime : string;
  lr_Timestamp : Z
}.

Record HistoricalQuote : Type := mkHistoricalQuote {
  hq_BaseCurrency : string;
  hq_QuoteCurrency : string;
  hq_Open : float64;
  hq_High : float64;
  hq_Low : float64;
  hq_Close : float64
}.

Record HistoricalRate : Type := mkHistoricalRate {
  hr_Date : string;
  hr_Endpoint : string;
  hr_Quotes : list HistoricalQuote;
  hr_RequestTime : string
}.

Record ConvertResponse : Type := mkConvertResponse {
  cr_BaseCurrency : string;
  cr_QuoteCurrency : string;
  cr_Quote : float64;
  cr_Total : float64;
  cr_RequestedTime : string;
  cr_Timestamp : Z
}.

Record HistoricalData : Type := mkHistoricalData {
  hd_Endpoint : string;
  hd_Currency : string;
  hd_DateTime : string;
  hd_Open : float64;
  hd_High : float64;
  hd_Low : float64;
  hd_Close : float64;
  hd_RequestTime : string
}.

Record TimeSeriesQuote : Type := mkTimeSeriesQuote {
  tq_Date : string;
  tq_Open : float64;
  tq_High : float64;
  tq_Low : float64;
  tq_Close : float64
}.

Record TimeSeriesRate : Type := mkTimeSeriesRate {
  ts_BaseCurrency : string;
  ts_QuoteCurrency : string;
  ts_StartDate : string;
  ts_EndDate : string;
  ts_Endpoint : string;
  ts_Quotes : list TimeSeriesQuote;
  ts_RequestTime : string
}.

(** [ErrorResponseOK]: the error code of a reply with status 200. *)
Record ErrorResponseOK : Type := mkErrorResponseOK {
  Error : Z;
  eo_Message : string
}.

(** [ErrorResponse]; the map keeps its entries in a list, [None] is the
    nil map. *)
Record ErrorResponse : Type := mkErrorResponse {
  er_Message : string;
  Errors : option (list (string * json.value))
}.

(** What [GetHistoricalRates] returns behind its [interface{}]. *)
Inductive Historical : Type :=
| OfHistoricalData (d : HistoricalData)
| OfHistoricalRate (r : HistoricalRate).

(** *** Errors.  An error is one a library returned, or one made by
    [fmt.Errorf] from a format and its operands. *)

Inductive operand : Type :=
| OpString (s : string)
| OpInt (n : Z)
| OpError (e : error)
| OpErrors (m : option (list (string * json.value))).

Inductive rest_error : Type :=
| FromLibrary (e : error)
| Errorf (format : string) (args : list operand).

(** *** The HTTP client *)

(** A response: the status code and what [ioutil.ReadAll] makes of the
    body. *)
Record Response : Type := mkResponse {
  StatusCode : Z;
  Body : string + error
}.

(** The calls a method makes: [HTTPClient.Get] and [resp.Body.Close]. *)
Inductive call : Type :=
| Get (url : string)
| BodyClose.

Record outcome (V : Type) : Type := mkOutcome {
  calls : list call;
  returned : V + rest_error
}.

Arguments mkOutcome {V} calls returned.
Arguments calls {V} o.
Arguments returned {V} o.

(** The client and what surrounds it: the answers of the network, the
    decoders of [encoding/json] for the structs of the package, and the
    text [fmt] prints for a value behind [interface{}] with the verb
    [%v]. *)
Record RESTClient : Type := mkRESTClient {
  APIKey : string;
  Timeout : Z
}.

Definition NewRESTClient (apiKey : string) : RESTClient :=
  {| APIKey := apiKey; Timeout := Second * 10 |}.

Record world : Type := mkWorld {
  http : string -> Response + error;
  Unmarshal_ErrorResponse : string -> ErrorResponse * option error;
  Unmarshal_ErrorResponseOK : string -> ErrorResponseOK * option error;
  Unmarshal_LiveRate : string -> LiveRate * option error;
  Unmarshal_HistoricalData : string -> HistoricalData * option error;
  Unmarshal_HistoricalRate : string -> HistoricalRate * option error;
  Unmarshal_TimeSeriesRate : string -> TimeSeriesRate * option error;
  Unmarshal_ConvertResponse : string -> ConvertResponse * option error;
  Sprint_v : json.value -> string
}.

(** *** Helpers *)

(** The loop of [joinStrings]: [i] is the index of the next element. *)
Fixpoint joinStrings_loop (i : nat) (strs : list string) (result : string) : string :=
  match strs with
  | [] => result
  | s :: rest =>
      let result := if Nat.ltb 0 i then String.append result "," else result in
      joinStrings_loop (S i) rest (String.append result s)
  end.

Definition joinStrings (strs : list string) : string :=
  joinStrings_loop 0 strs EmptyString.

Definition isValidPeriodForHourly (period : Z) : bool :=
  existsb (Z.eqb period) [1; 2; 4; 6; 8; 24].

Definition isValidPeriodForMinute (period : Z) : bool :=
  existsb (Z.eqb period) [1; 5; 10; 15; 30].

(** [formatErrorMap]; the list gives the entries in the order the runtime
    iterates over the map. *)
Definition formatErrorMap (w : world) (errors : option (list (string * json.value)))
  : string :=
  match errors with
  | None => EmptyString
  | Some entries =>
      fold_left
        (fun formattedErrors kv =>
           String.append formattedErrors
             (cat [fst kv; ": "; Sprint_v w (snd kv); "; "]%string))
        entries EmptyString
  end.

(** [strings.ReplaceAll(s, old, new)] for an [old] of one byte. *)
Fixpoint ReplaceAll (s : string) (old : ascii) (new : string) : string :=
  match s with
  | EmptyString => EmptyString
  | String ch rest =>
      if Ascii.eqb ch old then String.append new (ReplaceAll rest old new)
      else String ch (ReplaceAll rest old new)
  end.

(** [strings.ToLower], as far as a comparison with a lower-case ASCII
    word sees it: the letters [A] to [Z] go to [a] to [z]; the two runes
    outside ASCII whose lower case is an ASCII letter, U+0130 and U+212A
    (given by their UTF-8 bytes), go to [i] and [k]; every other byte is
    kept. *)
Fixpoint ToLower (s : string) : string :=
  match s with
  | EmptyString => EmptyString
  | String c rest =>
      match rest with
      | String c1 rest1 =>
          if (json.code c =? 196) && (json.code c1 =? 176)
          then String "i" (ToLower rest1)
          else
            match rest1 with
            | String c2 rest2 =>
                if (json.code c =? 226) && (json.code c1 =? 132) && (json.code c2 =? 170)
                then String "k" (ToLower rest2)
                else String (if (65 <=? json.code c) && (json.code c <=? 90)
                             then json.byte (json.code c + 32) else c)
                            (ToLower rest)
            | EmptyString =>
                String (if (65 <=? json.code c) && (json.code c <=? 90)
                        then json.byte (json.code c + 32) else c)
                       (ToLower rest)
            end
      | EmptyString =>
          String (if (65 <=? json.code c) && (json.code c <=? 90)
                  then json.byte (json.code c + 32) else c)
                 EmptyString
      end
  end.

(** The text the verb [%d] prints for an [int]. *)
Definition Itoa (n : Z) : string := time.appendInt n 0.

(** [fmt.Sprintf] for the verbs [%s], [%d] and [%f]: each takes the next
    operand, given by the text the verb prints for it; [%%] prints a
    percent sign. *)
Fixpoint Sprintf (format : string) (args : list string) : string :=
  match format with
  | EmptyString => EmptyString
  | String ch rest =>
      if Ascii.eqb ch "%" then
        match rest with
        | String v rest' =>
            if Ascii.eqb v "s" || Ascii.eqb v "d" || Ascii.eqb v "f" then
              match args with
              | a :: args' => String.append a (Sprintf rest' args')
              | [] => String.append (String "%" (String "!" (String v "(MISSING)")))
                                    (Sprintf rest' [])
              end
            else if Ascii.eqb v "%" then String "%" (Sprintf rest' args)
            else String "%" (Sprintf rest args)
        | EmptyString => "%!(NOVERB)"
        end
      else String ch (Sprintf rest args)
  end.

(** *** The handling of a response *)

(** The error for a status other than 200, in [GetLiveRates]: the body is
    quoted when it does not decode as an [ErrorResponse]. *)
Definition status_error_live (w : world) (status : Z) (body : string) : rest_error :=
  let (errorResponse, err) := Unmarshal_ErrorResponse w body in
  match err with
  | Some _ =>
      Errorf "API request failed with status code %d: %s" [OpInt status; OpString body]
  | None =>
      Errorf "API request failed with status code %d: %v "
             [OpInt status; OpErrors (Errors errorResponse)]
  end.

(** The same in [sendHistoricalRequest] and [ConvertCurrency]: the body
    is quoted when it does decode. *)
Definition status_error (w : world) (format : string) (status : Z) (body : string)
  : rest_error :=
  let (errorResponse, err) := Unmarshal_ErrorResponse w body in
  match err with
  | None =>
      Errorf "API request failed with status code %d: %s" [OpInt status; OpString body]
  | Some _ => Errorf format [OpInt status; OpErrors (Errors errorResponse)]
  end.

(** The same in [GetTimeSeriesData], which formats the map first. *)
Definition status_error_series (w : world) (status : Z) (body : string) : rest_error :=
  let (errorResponse, err) := Unmarshal_ErrorResponse w body in
  match err with
  | None =>
      Errorf "API request failed with status code %d: %s" [OpInt status; OpString body]
  | Some _ =>
      Errorf "API request failed with status code %d: %v "
             [OpInt status; OpString (formatErrorMap w (Errors errorResponse))]
  end.

(** What every method does with a reply of status 200: the error code of
    the body is looked at first, then the body is decoded into the
    struct of the method. *)
Definition decode_ok {V : Type} (w : world) (decode : string -> V * option error)
                     (body : string) : V + rest_error :=
  let (errorResponse, err) := Unmarshal_ErrorResponseOK w body in
  if is_nil err && negb (Error errorResponse =? 0) then
    inr (Errorf "API error: %d - %s"
                [OpInt (Error errorResponse); OpString (eo_Message errorResponse)])
  else
    let (v, err) := decode body in
    match err with
    | Some e => inr (Errorf "failed to parse successful response: %v" [OpError e])
    | None => inl v
    end.

(** The request and the steps all four methods share; [on_status] makes
    the error for a status other than 200. *)
Definition request {V : Type} (w : world) (encodedURL : string)
                   (on_status : Z -> string -> rest_error)
                   (decode : string -> V * option error) : outcome V :=
  match http w encodedURL with
  | inr err => mkOutcome [Get encodedURL] (inr (FromLibrary err))
  | inl resp =>
      mkOutcome [Get encodedURL; BodyClose]
        match Body resp with
        | inr err => inr (Errorf "failed to read response body: %v" [OpError err])
        | inl body =>
            if negb (StatusCode resp =? StatusOK) then
              inr (on_status (StatusCode resp) body)
            else decode_ok w decode body
        end
  end.

(** *** The methods *)

Definition GetLiveRates (w : world) (c : RESTClient) (currencies : list string)
  : outcome LiveRate :=
  let URL := Sprintf "https://marketdata.tradermade.com/api/v1/live?currency=%s&api_key=%s"
                     [joinStrings currencies; APIKey c] in
  let encodedURL := ReplaceAll URL " " "%20" in
  request w encodedURL (status_error_live w) (Unmarshal_LiveRate w).

(** [sendHistoricalRequest]; [decode] stands for [json.Unmarshal] into
    the value [v] points to. *)
Definition sendHistoricalRequest {V : Type} (w : world)
                                 (decode : string -> V * option error)
                                 (URL : string) : outcome V :=
  let encodedURL := ReplaceAll URL " " "%20" in
  request w encodedURL
    (status_error w "not nil API request failed with status code %d: %v") decode.

Definition map_outcome {V U : Type} (f : V -> U) (o : outcome V) : outcome U :=
  mkOutcome (calls o)
    match returned o with
    | inl v => inl (f v)
    | inr e => inr e
    end.

Definition GetHistoricalRates (w : world) (c : RESTClient)
                              (currency dateTime interval : string)
  : outcome Historical :=
  if String.eqb interval "minute" then
    map_outcome OfHistoricalData
      (sendHistoricalRequest w (Unmarshal_HistoricalData w)
         (Sprintf "%s/minute_historical?currency=%s&date_time=%s&api_key=%s"
                  [baseURL; currency; dateTime; APIKey c]))
  else if String.eqb interval "hour" then
    map_outcome OfHistoricalData
      (sendHistoricalRequest w (Unmarshal_HistoricalData w)
         (Sprintf "%s/hour_historical?currency=%s&date_time=%s&api_key=%s"
                  [baseURL; currency; dateTime; APIKey c]))
  else if String.eqb interval "day" then
    map_outcome OfHistoricalRate
      (sendHistoricalRequest w (Unmarshal_HistoricalRate w)
         (Sprintf "%s/historical?currency=%s&date=%s&api_key=%s"
                  [baseURL; currency; dateTime; APIKey c]))
  else mkOutcome [] (inr (Errorf "invalid interval: %s" [OpString interval])).

(** The URL [GetTimeSeriesData] builds, or the error of its validation. *)
Definition timeseries_URL (c : RESTClient) (currency startDate endDate interval : string)
                          (period : list Z) : string + rest_error :=
  let baseURL :=
    Sprintf "%s/timeseries?currency=%s&start_date=%s&end_date=%s&format=records&api_key=%s"
            [baseURL; currency; startDate; endDate; APIKey c] in
  if String.eqb (ToLower interval) "daily" then
    inl (String.append baseURL "&interval=daily")
  else if String.eqb (ToLower interval) "hourly" || String.eqb (ToLower interval) "minute"
  then
    match period with
    | [] => inr (Errorf "period must be provided for %s interval" [OpString interval])
    | p :: _ =>
        if String.eqb (ToLower interval) "hourly" then
          if isValidPeriodForHourly p then
            inl (Sprintf "%s&interval=hourly&period=%d" [baseURL; Itoa p])
          else inr (Errorf "invalid period for hourly interval: %d" [OpInt p])
        else
          if isValidPeriodForMinute p then
            inl (Sprintf "%s&interval=minute&period=%d" [baseURL; Itoa p])
          else inr (Errorf "invalid period for minute interval: %d" [OpInt p])
    end
  else inr (Errorf "invalid interval: %s" [OpString interval]).

Definition GetTimeSeriesData (w : world) (c : RESTClient)
    (currency startDate endDate interval : string) (period : list Z)
  : outcome TimeSeriesRate :=
  match timeseries_URL c currency startDate endDate interval period with
  | inr e => mkOutcome [] (inr e)
  | inl URL =>
      let encodedURL := ReplaceAll URL " " "%20" in
      request w encodedURL (status_error_series w) (Unmarshal_TimeSeriesRate w)
  end.

(** [ConvertCurrency]; [amount] is the text the verb [%f] prints for the
    amount. *)
Definition ConvertCurrency (w : world) (c : RESTClient) (from to amount : string)
  : outcome ConvertResponse :=
  let URL :=
    Sprintf "https://marketdata.tradermade.com/api/v1/convert?from=%s&to=%s&amount=%f&api_key=%s"
            [from; to; amount; APIKey c] in
  let encodedURL := ReplaceAll URL " " EmptyString in
  request w encodedURL
    (status_error w "API request failed with status code %d: %v")
    (Unmarshal_ConvertResponse w).

(** *** [json.Unmarshal] into the structs of the package

    A struct is described by its fields: the name in the [json] tag and
    how a value is stored in the field.  A key selects the field whose
    name it equals, or else the first field whose name it equals up to
    case.  A value of the wrong kind is skipped and reported at the end;
    only the first such error is kept.  A key that comes twice stores
    twice; an element of a slice is then decoded over the element the
    first store left at its index. *)

Record field (S : Type) : Type := mkField {
  f_name : string;
  f_store : json.value -> S -> S * option error
}.

Arguments mkField {S} f_name f_store.
Arguments f_name {S} f.
Arguments f_store {S} f.

Fixpoint find_exact {S : Type} (key : string) (fs : list (field S)) : option (field S) :=
  match fs with
  | [] => None
  | f :: rest => if String.eqb key (f_name f) then Some f else find_exact key rest
  end.

Fixpoint find_fold {S : Type} (key : string) (fs : list (field S)) : option (field S) :=
  match fs with
  | [] => None
  | f :: rest =>
      if String.eqb (json.foldName key) (json.foldName (f_name f)) then Some f
      else find_fold key rest
  end.

Definition find_field {S : Type} (key : string) (fs : list (field S)) : option (field S) :=
  match find_exact key fs with
  | Some f => Some f
  | None => find_fold key fs
  end.

Fixpoint fill {S : Type} (fs : list (field S)) (members : list (string * json.value))
              (s : S) (saved : option error) : S * option error :=
  match members with
  | [] => (s, saved)
  | (k, v) :: rest =>
      match find_field k fs with
      | Some f =>
          let (s', e) := f_store f v s in
          fill fs rest s' (json.saveError saved e)
      | None => fill fs rest s saved
      end
  end.

(** A JSON value stored in a struct. *)
Definition store_struct {S : Type} (name : string) (fs : list (field S))
                        (v : json.value) (s : S) : S * option error :=
  match v with
  | json.Object members => fill fs members s None
  | json.Null => (s, None)
  | _ => (s, Some (json.UnmarshalTypeError (json.kind v) name))
  end.

(** A JSON number stored in an [int] or [int64] field: the literal has
    to be one [strconv.ParseInt] accepts. *)
Definition store_int (name : string) (v : json.value) (old : Z) : Z * option error :=
  match v with
  | json.Number lit =>
      match strconv.ParseInt lit with
      | inl n => (n, None)
      | inr _ => (old, Some (json.UnmarshalTypeError "number" name))
      end
  | json.Null => (old, None)
  | _ => (old, Some (json.UnmarshalTypeError (json.kind v) name))
  end.

Fixpoint store_elems {E : Type} (elem : json.value -> E -> E * option error) (zero : E)
                     (vs : list json.value) (old : list E) : list E * option error :=
  match vs with
  | [] => ([], None)
  | v :: vs' =>
      let (e, err) := elem v (hd zero old) in
      let (es, err') := store_elems elem zero vs' (tl old) in
      (e :: es, json.saveError err err')
  end.

(** A JSON array stored in a slice. *)
Definition store_slice {E : Type} (name : string)
                       (elem : json.value -> E -> E * option error) (zero : E)
                       (v : json.value) (old : list E) : list E * option error :=
  match v with
  | json.Array vs => store_elems elem zero vs old
  | json.Null => ([], None)
  | _ => (old, Some (json.UnmarshalTypeError (json.kind v) name))
  end.

Fixpoint put (k : string) (v : json.value) (m : list (string * json.value))
  : list (string * json.value) :=
  match m with
  | [] => [(k, v)]
  | (k', v') :: rest => if String.eqb k k' then (k, v) :: rest else (k', v') :: put k v rest
  end.

(** A JSON object stored in a [map[string]interface{}]. *)
Definition store_map (name : string) (v : json.value)
                     (old : option (list (string * json.value)))
  : option (list (string * json.value)) * option error :=
  match v with
  | json.Object members =>
      (Some (fold_left (fun m kv => put (fst kv) (snd kv) m) members
               (match old with Some m => m | None => [] end)), None)
  | json.Null => (None, None)
  | _ => (old, Some (json.UnmarshalTypeError (json.kind v) name))
  end.

(** The setter of a field from what is stored in it. *)
Definition on {S T : Type} (get : S -> T) (set : T -> S -> S)
              (store : json.value -> T -> T * option error)
  : json.value -> S -> S * option error :=
  fun v s => let (t, e) := store v (get s) in (set t s, e).

Definition Quote_zero : Quote :=
  mkQuote float64_zero float64_zero float64_zero EmptyString EmptyString EmptyString.

Definition Quote_fields : list (field Quote) :=
  [ mkField "ask" (on Ask (fun x q => mkQuote x (Bid q) (Mid q) (BaseCurrency q) (QuoteCurrency q) (Instrument q))
                      (json.store_float64 "Quote.ask"));
    mkField "bid" (on Bid (fun x q => mkQuote (Ask q) x (Mid q) (BaseCurrency q) (QuoteCurrency q) (Instrument q))
                      (json.store_float64 "Quote.bid"));
    mkField "mid" (on Mid (fun x q => mkQuote (Ask q) (Bid q) x (BaseCurrency q) (QuoteCurrency q) (Instrument q))
                      (json.store_float64 "Quote.mid"));
    mkField "base_currency"
      (on BaseCurrency (fun x q => mkQuote (Ask q) (Bid q) (Mid q) x (QuoteCurrency q) (Instrument q))
          (json.store_string "Quote.base_currency"));
    mkField "quote_currency"
      (on QuoteCurrency (fun x q => mkQuote (Ask q) (Bid q) (Mid q) (BaseCurrency q) x (Instrument q))
          (json.store_string "Quote.quote_currency"));
    mkField "instrument"
      (on Instrument (fun x q => mkQuote (Ask q) (Bid q) (Mid q) (BaseCurrency q) (QuoteCurrency q) x)
          (json.store_string "Quote.instrument")) ]%string.

Definition LiveRate_zero : LiveRate := mkLiveRate EmptyString [] EmptyString 0.

Definition LiveRate_fields : list (field LiveRate) :=
  [ mkField "endpoint"
      (on lr_Endpoint (fun x r => mkLiveRate x (lr_Quotes r) (lr_RequestedTime r) (lr_Timestamp r))
          (json.store_string "LiveRate.endpoint"));
    mkField "quotes"
      (on lr_Quotes (fun x r => mkLiveRate (lr_Endpoint r) x (lr_RequestedTime r) (lr_Timestamp r))
          (store_slice "LiveRate.quotes" (store_struct "Quote" Quote_fields) Quote_zero));
    mkField "requested_time"
      (on lr_RequestedTime (fun x r => mkLiveRate (lr_Endpoint r) (lr_Quotes r) x (lr_Timestamp r))
          (json.store_string "LiveRate.requested_time"));
    mkField "timestamp"
      (on lr_Timestamp (fun x r => mkLiveRate (lr_Endpoint r) (lr_Quotes r) (lr_RequestedTime r) x)
          (store_int "LiveRate.timestamp")) ]%string.

Definition HistoricalQuote_zero : HistoricalQuote :=
  mkHistoricalQuote EmptyString EmptyString float64_zero float64_zero float64_zero float64_zero.

Definition HistoricalQuote_fields : list (field HistoricalQuote) :=
  [ mkField "base_currency"
      (on hq_BaseCurrency
          (fun x q => mkHistoricalQuote x (hq_QuoteCurrency q) (hq_Open q) (hq_High q) (hq_Low q) (hq_Close q))
          (json.store_string "HistoricalQuote.base_currency"));
    mkField "quote_currency"
      (on hq_QuoteCurrency
          (fun x q => mkHistoricalQuote (hq_BaseCurrency q) x (hq_Open q) (hq_High q) (hq_Low q) (hq_Close q))
          (json.store_string "HistoricalQuote.quote_currency"));
    mkField "open"
      (on hq_Open
          (fun x q => mkHistoricalQuote (hq_BaseCurrency q) (hq_QuoteCurrency q) x (hq_High q) (hq_Low q) (hq_Close q))
          (json.store_float64 "HistoricalQuote.open"));
    mkField "high"
      (on hq_High
          (fun x q => mkHistoricalQuote (hq_BaseCurrency q) (hq_QuoteCurrency q) (hq_Open q) x (hq_Low q) (hq_Close q))
          (json.store_float64 "HistoricalQuote.high"));
    mkField "low"
      (on hq_Low
          (fun x q => mkHistoricalQuote (hq_BaseCurrency q) (hq_QuoteCurrency q) (hq_Open q) (hq_High q) x (hq_Close q))
          (json.store_float64 "HistoricalQuote.low"));
    mkField "close"
      (on hq_Close
          (fun x q => mkHistoricalQuote (hq_BaseCurrency q) (hq_QuoteCurrency q) (hq_Open q) (hq_High q) (hq_Low q) x)
          (json.store_float64 "HistoricalQuote.close")) ]%string.

Definition HistoricalRate_zero : HistoricalRate :=
  mkHistoricalRate EmptyString EmptyString [] EmptyString.

Definition HistoricalRate_fields : list (field HistoricalRate) :=
  [ mkField "date"
      (on hr_Date (fun x r => mkHistoricalRate x (hr_Endpoint r) (hr_Quotes r) (hr_RequestTime r))
          (json.store_string "HistoricalRate.date"));
    mkField "endpoint"
      (on hr_Endpoint (fun x r => mkHistoricalRate (hr_Date r) x (hr_Quotes r) (hr_RequestTime r))
          (json.store_string "HistoricalRate.endpoint"));
    mkField "quotes"
      (on hr_Quotes (fun x r => mkHistoricalRate (hr_Date r) (hr_Endpoint r) x (hr_RequestTime r))
          (store_slice "HistoricalRate.quotes"
             (store_struct "HistoricalQuote" HistoricalQuote_fields) HistoricalQuote_zero));
    mkField "request_time"
      (on hr_RequestTime (fun x r => mkHistoricalRate (hr_Date r) (hr_Endpoint r) (hr_Quotes r) x)
          (json.store_string "HistoricalRate.request_time")) ]%string.

Definition ConvertResponse_zero : ConvertResponse :=
  mkConvertResponse EmptyString EmptyString float64_zero float64_zero EmptyString 0.

Definition ConvertResponse_fields : list (field ConvertResponse) :=
  [ mkField "base_currency"
      (on cr_BaseCurrency
          (fun x r => mkConvertResponse x (cr_QuoteCurrency r) (cr_Quote r) (cr_Total r) (cr_RequestedTime r) (cr_Timestamp r))
          (json.store_string "ConvertResponse.base_currency"));
    mkField "quote_currency"
      (on cr_QuoteCurrency
          (fun x r => mkConvertResponse (cr_BaseCurrency r) x (cr_Quote r) (cr_Total r) (cr_RequestedTime r) (cr_Timestamp r))
          (json.store_string "ConvertResponse.quote_currency"));
    mkField "quote"
      (on cr_Quote
          (fun x r => mkConvertResponse (cr_BaseCurrency r) (cr_QuoteCurrency r) x (cr_Total r) (cr_RequestedTime r) (cr_Timestamp r))
          (json.store_float64 "ConvertResponse.quote"));
    mkField "total"
      (on cr_Total
          (fun x r => mkConvertResponse (cr_BaseCurrency r) (cr_QuoteCurrency r) (cr_Quote r) x (cr_RequestedTime r) (cr_Timestamp r))
          (json.store_float64 "ConvertResponse.total"));
    mkField "requested_time"
      (on cr_RequestedTime
          (fun x r => mkConvertResponse (cr_BaseCurrency r) (cr_QuoteCurrency r) (cr_Quote r) (cr_Total r) x (cr_Timestamp r))
          (json.store_string "ConvertResponse.requested_time"));
    mkField "timestamp"
      (on cr_Timestamp
          (fun x r => mkConvertResponse (cr_BaseCurrency r) (cr_QuoteCurrency r) (cr_Quote r) (cr_Total r) (cr_RequestedTime r) x)
          (store_int "ConvertResponse.timestamp")) ]%string.

Definition HistoricalData_zero : HistoricalData :=
  mkHistoricalData EmptyString EmptyString EmptyString
    float64_zero float64_zero float64_zero float64_zero EmptyString.

Definition HistoricalData_fields : list (field HistoricalData) :=
  [ mkField "endpoint"
      (on hd_Endpoint
          (fun x d => mkHistoricalData x (hd_Currency d) (hd_DateTime d) (hd_Open d) (hd_High d) (hd_Low d) (hd_Close d) (hd_RequestTime d))
          (json.store_string "HistoricalData.endpoint"));
    mkField "currency"
      (on hd_Currency
          (fun x d => mkHistoricalData (hd_Endpoint d) x (hd_DateTime d) (hd_Open d) (hd_High d) (hd_Low d) (hd_Close d) (hd_RequestTime d))
          (json.store_string "HistoricalData.currency"));
    mkField "date_time"
      (on hd_DateTime
          (fun x d => mkHistoricalData (hd_Endpoint d) (hd_Currency d) x (hd_Open d) (hd_High d) (hd_Low d) (hd_Close d) (hd_RequestTime d))
          (json.store_string "HistoricalData.date_time"));
    mkField "open"
      (on hd_Open
          (fun x d => mkHistoricalData (hd_Endpoint d) (hd_Currency d) (hd_DateTime d) x (hd_High d) (hd_Low d) (hd_Close d) (hd_RequestTime d))
          (json.store_float64 "HistoricalData.open"));
    mkField "high"
      (on hd_High
          (fun x d => mkHistoricalData (hd_Endpoint d) (hd_Currency d) (hd_DateTime d) (hd_Open d) x (hd_Low d) (hd_Close d) (hd_RequestTime d))
          (json.store_float64 "HistoricalData.high"));
    mkField "low"
      (on hd_Low
          (fun x d => mkHistoricalData (hd_Endpoint d) (hd_Currency d) (hd_DateTime d) (hd_Open d) (hd_High d) x (hd_Close d) (hd_RequestTime d))
          (json.store_float64 "HistoricalData.low"));
    mkField "close"
      (on hd_Close
          (fun x d => mkHistoricalData (hd_Endpoint d) (hd_Currency d) (hd_DateTime d) (hd_Open d) (hd_High d) (hd_Low d) x (hd_RequestTime d))
          (json.store_float64 "HistoricalData.close"));
    mkField "request_time"
      (on hd_RequestTime
          (fun x d => mkHistoricalData (hd_Endpoint d) (hd_Currency d) (hd_DateTime d) (hd_Open d) (hd_High d) (hd_Low d) (hd_Close d) x)
          (json.store_string "HistoricalData.request_time")) ]%string.

Definition TimeSeriesQuote_zero : TimeSeriesQuote :=
  mkTimeSeriesQuote EmptyString float64_zero float64_zero float64_zero float64_zero.

Definition TimeSeriesQuote_fields : list (field TimeSeriesQuote) :=
  [ mkField "date"
      (on tq_Date (fun x q => mkTimeSeriesQuote x (tq_Open q) (tq_High q) (tq_Low q) (tq_Close q))
          (json.store_string "TimeSeriesQuote.date"));
    mkField "open"
      (on tq_Open (fun x q => mkTimeSeriesQuote (tq_Date q) x (tq_High q) (tq_Low q) (tq_Close q))
          (json.store_float64 "TimeSeriesQuote.open"));
    mkField "high"
      (on tq_High (fun x q => mkTimeSeriesQuote (tq_Date q) (tq_Open q) x (tq_Low q) (tq_Close q))
          (json.store_float64 "TimeSeriesQuote.high"));
    mkField "low"
      (on tq_Low (fun x q => mkTimeSeriesQuote (tq_Date q) (tq_Open q) (tq_High q) x (tq_Close q))
          (json.store_float64 "TimeSeriesQuote.low"));
    mkField "close"
      (on tq_Close (fun x q => mkTimeSeriesQuote (tq_Date q) (tq_Open q) (tq_High q) (tq_Low q) x)
          (json.store_float64 "TimeSeriesQuote.close")) ]%string.

Definition TimeSeriesRate_zero : TimeSeriesRate :=
  mkTimeSeriesRate EmptyString EmptyString EmptyString EmptyString EmptyString [] EmptyString.

Definition TimeSeriesRate_fields : list (field TimeSeriesRate) :=
  [ mkField "base_currency"
      (on ts_BaseCurrency
          (fun x r => mkTimeSeriesRate x (ts_QuoteCurrency r) (ts_StartDate r) (ts_EndDate r) (ts_Endpoint r) (ts_Quotes r) (ts_RequestTime r))
          (json.store_string "TimeSeriesRate.base_currency"));
    mkField "quote_currency"
      (on ts_QuoteCurrency
          (fun x r => mkTimeSeriesRate (ts_BaseCurrency r) x (ts_StartDate r) (ts_EndDate r) (ts_Endpoint r) (ts_Quotes r) (ts_RequestTime r))
          (json.store_string "TimeSeriesRate.quote_currency"));
    mkField "start_date"
      (on ts_StartDate
          (fun x r => mkTimeSeriesRate (ts_BaseCurrency r) (ts_QuoteCurrency r) x (ts_EndDate r) (ts_Endpoint r) (ts_Quotes r) (ts_RequestTime r))
          (json.store_string "TimeSeriesRate.start_date"));
    mkField "end_date"
      (on ts_EndDate
          (fun x r => mkTimeSeriesRate (ts_BaseCurrency r) (ts_QuoteCurrency r) (ts_StartDate r) x (ts_Endpoint r) (ts_Quotes r) (ts_RequestTime r))
          (json.store_string "TimeSeriesRate.end_date"));
    mkField "endpoint"
      (on ts_Endpoint
          (fun x r => mkTimeSeriesRate (ts_BaseCurrency r) (ts_QuoteCurrency r) (ts_StartDate r) (ts_EndDate r) x (ts_Quotes r) (ts_RequestTime r))
          (json.store_string "TimeSeriesRate.endpoint"));
    mkField "quotes"
      (on ts_Quotes
          (fun x r => mkTimeSeriesRate (ts_BaseCurrency r) (ts_QuoteCurrency r) (ts_StartDate r) (ts_EndDate r) (ts_Endpoint r) x (ts_RequestTime r))
          (store_slice "TimeSeriesRate.quotes"
             (store_struct "TimeSeriesQuote" TimeSeriesQuote_fields) TimeSeriesQuote_zero));
    mkField "request_time"
      (on ts_RequestTime
          (fun x r => mkTimeSeriesRate (ts_BaseCurrency r) (ts_QuoteCurrency r) (ts_StartDate r) (ts_EndDate r) (ts_Endpoint r) (ts_Quotes r) x)
          (json.store_string "TimeSeriesRate.request_time")) ]%string.

Definition ErrorResponseOK_zero : ErrorResponseOK := mkErrorResponseOK 0 EmptyString.

Definition ErrorResponseOK_fields : list (field ErrorResponseOK) :=
  [ mkField "error"
      (on Error (fun x r => mkErrorResponseOK x (eo_Message r))
          (store_int "ErrorResponseOK.error"));
    mkField "message"
      (on eo_Message (fun x r => mkErrorResponseOK (Error r) x)
          (json.store_string "ErrorResponseOK.message")) ]%string.

Definition ErrorResponse_zero : ErrorResponse := mkErrorResponse EmptyString None.

Definition ErrorResponse_fields : list (field ErrorResponse) :=
  [ mkField "message"
      (on er_Message (fun x r => mkErrorResponse x (Errors r))
          (json.store_string "ErrorResponse.message"));
    mkField "errors"
      (on Errors (fun x r => mkErrorResponse (er_Message r) x)
          (store_map "ErrorResponse.errors")) ]%string.

(** [json.Unmarshal(body, &v)] for a zero [v] of a struct type. *)
Definition Unmarshal {S : Type} (name : string) (fs : list (field S)) (zero : S)
                     (data : string) : S * option error :=
  match json.parse data with
  | None => (zero, Some json.SyntaxError)
  | Some v => store_struct name fs v zero
  end.

(** The decoders of [encoding/json], for a network [net] and a printer
    [sprint] of the values of the error map. *)
Definition go_world (net : string -> Response + error) (sprint : json.value -> string)
  : world :=
  {| http := net;
     Unmarshal_ErrorResponse := Unmarshal "ErrorResponse" ErrorResponse_fields ErrorResponse_zero;
     Unmarshal_ErrorResponseOK :=
       Unmarshal "ErrorResponseOK" ErrorResponseOK_fields ErrorResponseOK_zero;
     Unmarshal_LiveRate := Unmarshal "LiveRate" LiveRate_fields LiveRate_zero;
     Unmarshal_HistoricalData :=
       Unmarshal "HistoricalData" HistoricalData_fields HistoricalData_zero;
     Unmarshal_HistoricalRate :=
       Unmarshal "HistoricalRate" HistoricalRate_fields HistoricalRate_zero;
     Unmarshal_TimeSeriesRate :=
       Unmarshal "TimeSeriesRate" TimeSeriesRate_fields TimeSeriesRate_zero;
     Unmarshal_ConvertResponse :=
       Unmarshal "ConvertResponse" ConvertResponse_fields ConvertResponse_zero;
     Sprint_v := sprint |}.

End rest.

(** ** Observations on the request/response client *)

(** A call of one of the four exported methods. *)
Inductive invocation : Type :=
| CallGetLiveRates (currencies : list string)
| CallGetHistoricalRates (currency dateTime interval : string)
| CallGetTimeSeriesData (currency startDate endDate interval : string) (period : list Z)
| CallConvertCurrency (from to amount : string).

(** What a call did and whether it returned a value or an error, without
    the value. *)
Definition invoke (w : rest.world) (c : rest.RESTClient) (i : invocation)
  : rest.outcome unit :=
  match i with
  | CallGetLiveRates currencies =>
      rest.map_outcome (fun _ => tt) (rest.GetLiveRates w c currencies)
  | CallGetHistoricalRates currency dateTime interval =>
      rest.map_outcome (fun _ => tt) (rest.GetHistoricalRates w c currency dateTime interval)
  | CallGetTimeSeriesData currency startDate endDate interval period =>
      rest.map_outcome (fun _ => tt)
        (rest.GetTimeSeriesData w c currency startDate endDate interval period)
  | CallConvertCurrency from to amount =>
      rest.map_outcome (fun _ => tt) (rest.ConvertCurrency w c from to amount)
  end.

Definition no_space (s : string) : bool :=
  all_chars (fun ch => negb (Ascii.eqb ch " ")) s.

(** The URLs a method asked for. *)
Definition requested (cs : list rest.call) : list string :=
  flat_map (fun k => match k with rest.Get url => [url] | rest.BodyClose => [] end) cs.

(** The text of a string without its spaces. *)
Definition without_spaces (s : string) : string := rest.ReplaceAll s " " EmptyString.

(** ** Sample replies *)

(** A server that answers every request with the same status and body. *)
Definition answers (status : Z) (body : string) : string -> rest.Response + error :=
  fun _ => inl (rest.mkResponse status (inl body)).

(** A printer for the values of the error map that prints strings and
    numbers as they are. *)
Definition sample_sprint (v : json.value) : string :=
  match v with
  | json.Str s => s
  | json.Number lit => lit
  | _ => json.kind v
  end.

Definition sample_world (status : Z) (body : string) : rest.world :=
  rest.go_world (answers status body) sample_sprint.

Definition unreachable_world : rest.world :=
  rest.go_world (fun _ => inr refused) sample_sprint.

Definition live_body : string :=
  cat ["{"; quoted "endpoint"; ":"; quoted "live"; ","; quoted "quotes"; ":[{";
       quoted "ask"; ":1.2,"; quoted "bid"; ":1.1,"; quoted "mid"; ":1.15,";
       quoted "base_currency"; ":"; quoted "EUR"; ",";
       quoted "quote_currency"; ":"; quoted "USD"; "}],";
       quoted "requested_time"; ":"; quoted "now"; ",";
       quoted "timestamp"; ":1700000000}"]%string.

Definition api_error_body : string :=
  cat ["{"; quoted "error"; ":401,"; quoted "message"; ":"; quoted "bad key"; "}"]%string.

Definition errors_body : string :=
  cat ["{"; quoted "message"; ":"; quoted "bad"; ","; quoted "errors"; ":{";
       quoted "currency"; ":"; quoted "unknown"; "}}"]%string.

(** The error quotes the body of the reply. *)
Definition quotes_body (e : rest.rest_error) (body : string) : bool :=
  match e with
  | rest.Errorf format [rest.OpInt _; rest.OpString s] =>
      String.eqb format "API request failed with status code %d: %s" && String.eqb s body
  | _ => false
  end.

Definition is_GetLiveRates (i : invocation) : bool :=
  match i with CallGetLiveRates _ => true | _ => false end.

Definition historical_body : string :=
  cat ["{"; quoted "date"; ":"; quoted "2024-10-01"; ","; quoted "endpoint"; ":";
       quoted "historical"; ","; quoted "quotes"; ":[{"; quoted "open"; ":1.1,";
       quoted "close"; ":1.2}]}"]%string.

(** * Facts *)

(** ** The client record and traces *)

Lemma unlock_after_lock (c : WebSocketClient) :
  ConnMutex c = false -> with_ConnMutex false (with_ConnMutex true c) = c.
Proof. destruct c; simpl; intros ->; reflexivity. Qed.

Lemma app_two {A : Type} (l : list A) (a b : A) : (l ++ [a]) ++ [b] = l ++ [a; b].
Proof. now rewrite <- app_assoc. Qed.

Lemma app_three {A : Type} (l : list A) (a b c : A) :
  ((l ++ [a]) ++ [b]) ++ [c] = l ++ [a; b; c].
Proof. now rewrite <- !app_assoc. Qed.

Ltac run_method :=
  unfold Connect, Disconnect, defer, bind, ret, get, modify, emit, throw,
         Lock, Unlock, close_StopReconnect; simpl.

(** ** [Connect] *)

Lemma Sprintf_cred (K S : string) : Sprintf cred_format [K; S] = auth_frame K S.
Proof.
  unfold cred_format, auth_frame, cat. simpl.
  repeat f_equal.
Qed.

Lemma Connect_installed (e : connect_env) (c : WebSocketClient) (tr : trace) (h : conn) :
  Conn c = Some h -> ConnMutex c = false -> Connect e c tr = Returned None c tr.
Proof.
  intros HC HM. run_method. rewrite HM. simpl. rewrite HC.
  simpl. now rewrite unlock_after_lock.
Qed.

Lemma Connect_refused (e : connect_env) (c : WebSocketClient) (tr : trace) (err : error) :
  Conn c = None -> ConnMutex c = false -> dial_result e = inr err ->
  Connect e c tr =
  Returned (Some err) c
    (tr ++ [EvDial wsURL;
            EvPrintf (String.append "WebSocket connection failed: %v" nl) [ArgError err]]).
Proof.
  intros HC HM HD. run_method. rewrite HM. simpl. rewrite HC, HD. simpl.
  rewrite app_two. f_equal.
  destruct c; simpl in *; subst; reflexivity.
Qed.

Lemma Connect_dialled (e : connect_env) (c : WebSocketClient) (tr : trace) (h : conn) :
  Conn c = None -> ConnMutex c = false -> dial_result e = inl h ->
  Connect e c tr =
  Returned (match write_result e with
            | Some err => Some (Errorf "Failed to send credentials: %w" err)
            | None => None
            end)
    (with_Conn (Some h) c)
    (tr ++ [EvDial wsURL; EvGo_wsReadPump;
            EvWriteMessage h TextMessage (auth_frame (APIKey c) (Symbol c))]).
Proof.
  intros HC HM HD. unfold auth_frame, cat. run_method.
  rewrite HM. simpl. rewrite HC, HD. simpl.
  destruct (write_result e); simpl; rewrite app_three; f_equal;
    destruct c; simpl in *; subst; reflexivity.
Qed.

(** C1, as amended.  When [Connect] opens the transport and the write
    succeeds, exactly one frame is written, right after the dial and the
    start of the receive loop, and it is the text
    [{"userKey":"K", "symbol":"S"}] for the key [K] and the symbol list [S]
    of the client: one space follows the comma between the two members, and
    nothing else is added. *)
Theorem Connect_sends_auth_frame
    (e : connect_env) (c : WebSocketClient) (tr : trace) (h : conn) (K S : string) :
  APIKey c = K -> Symbol c = S ->
  Conn c = None -> ConnMutex c = false ->
  dial_result e = inl h -> write_result e = None ->
  Connect e c tr =
    Returned None (with_Conn (Some h) c)
      (tr ++ [EvDial wsURL; EvGo_wsReadPump;
              EvWriteMessage h TextMessage
                (cat ["{"; dq; "userKey"; dq; ":"; dq; K; dq; ", ";
                      dq; "symbol"; dq; ":"; dq; S; dq; "}"]%string)]).
Proof.
  intros HK HS HC HM HD HW.
  rewrite (Connect_dialled e c tr h HC HM HD), HW, HK, HS. reflexivity.
Qed.

Lemma Connect_sends_auth_frame_witness :
  Connect (mkConnectEnv (inl 1%nat) None) sample_client [] =
    Returned None connected_client
      [EvDial wsURL; EvGo_wsReadPump;
       EvWriteMessage 1%nat TextMessage
         (cat ["{"; dq; "userKey"; dq; ":"; dq; "k1"; dq; ", ";
               dq; "symbol"; dq; ":"; dq; "EURUSD,GBPUSD"; dq; "}"]%string)].
Proof.
  apply (Connect_sends_auth_frame (mkConnectEnv (inl 1%nat) None) sample_client []
           1%nat "k1" "EURUSD,GBPUSD"); reflexivity.
Defined.

(** C1, as the specification states it, fails: for the key [k1] and the
    symbols [EURUSD,GBPUSD] the frame written by a successful [Connect] is
    not the frame without white space. *)
Lemma auth_frame_is_not_the_spec_frame :
  exists data,
    Connect (mkConnectEnv (inl 1%nat) None) sample_client [] =
      Returned None connected_client
        [EvDial wsURL; EvGo_wsReadPump; EvWriteMessage 1%nat TextMessage data]
    /\ data <> spec_auth_frame "k1" "EURUSD,GBPUSD".
Proof.
  eexists. split.
  - vm_compute. reflexivity.
  - vm_compute. discriminate.
Qed.

(** C4.  With a transport handle installed, [Connect] returns nil at
    once: the client is unchanged and nothing is added to the trace, so
    there is no dial, no second receive loop and no second authentication
    frame. *)
Theorem Connect_with_handle_is_noop
    (e : connect_env) (c : WebSocketClient) (tr : trace) (h : conn) :
  Conn c = Some h -> ConnMutex c = false ->
  Connect e c tr = Returned None c tr.
Proof. apply Connect_installed. Qed.

Lemma Connect_with_handle_is_noop_witness :
  Connect (mkConnectEnv (inl 2%nat) None) connected_client [EvGo_wsReadPump] =
  Returned None connected_client [EvGo_wsReadPump].
Proof.
  apply (Connect_with_handle_is_noop (mkConnectEnv (inl 2%nat) None) connected_client
           [EvGo_wsReadPump] 1%nat); reflexivity.
Defined.

(** [Connect] twice in a row, as in the specification: the second call
    adds nothing to what the first one did. *)
Example Connect_twice :
  (Connect (mkConnectEnv (inl 1%nat) None) ;;;
   Connect (mkConnectEnv (inl 2%nat) None)) sample_client [] =
  Connect (mkConnectEnv (inl 1%nat) None) sample_client [].
Proof. vm_compute. reflexivity. Qed.

(** C5.  The two ways [Connect] fails.  When the dial fails, its error is
    returned and the client is as before the call, without a handle; no
    receive loop is started and nothing is written.  When the dial
    succeeds and the write of the authentication frame fails, the error
    returned wraps the error of the write, and the handle stays
    installed. *)
Theorem Connect_failure_modes
    (c : WebSocketClient) (tr : trace) (h : conn) (dial_err write_err : error)
    (w : option error) :
  Conn c = None -> ConnMutex c = false ->
  Connect (mkConnectEnv (inr dial_err) w) c tr =
    Returned (Some dial_err) c
      (tr ++ [EvDial wsURL;
              EvPrintf (String.append "WebSocket connection failed: %v" nl)
                       [ArgError dial_err]])
  /\ Connect (mkConnectEnv (inl h) (Some write_err)) c tr =
       Returned (Some (Errorf "Failed to send credentials: %w" write_err))
         (with_Conn (Some h) c)
         (tr ++ [EvDial wsURL; EvGo_wsReadPump;
                 EvWriteMessage h TextMessage (auth_frame (APIKey c) (Symbol c))])
  /\ Unwrap (Errorf "Failed to send credentials: %w" write_err) = Some write_err
  /\ Conn (with_Conn (Some h) c) = Some h.
Proof.
  intros HC HM. split; [ | split; [ | split; reflexivity ] ].
  - apply Connect_refused; [ assumption | assumption | reflexivity ].
  - rewrite (Connect_dialled _ c tr h HC HM); reflexivity.
Qed.

Lemma Connect_failure_modes_witness :
  Connect (mkConnectEnv (inr refused) None) sample_client [] =
    Returned (Some refused) sample_client
      ([] ++ [EvDial wsURL;
              EvPrintf (String.append "WebSocket connection failed: %v" nl)
                       [ArgError refused]])
  /\ Connect (mkConnectEnv (inl 1%nat) (Some broken_pipe)) sample_client [] =
       Returned (Some (Errorf "Failed to send credentials: %w" broken_pipe))
         (with_Conn (Some 1%nat) sample_client)
         ([] ++ [EvDial wsURL; EvGo_wsReadPump;
                 EvWriteMessage 1%nat TextMessage
                   (auth_frame (APIKey sample_client) (Symbol sample_client))])
  /\ Unwrap (Errorf "Failed to send credentials: %w" broken_pipe) = Some broken_pipe
  /\ Conn (with_Conn (Some 1%nat) sample_client) = Some 1%nat.
Proof.
  apply (Connect_failure_modes sample_client [] 1%nat refused broken_pipe None);
    reflexivity.
Defined.

(** ** [Disconnect] *)

Lemma Disconnect_open (r : option error) (c : WebSocketClient) (tr : trace) :
  StopReconnect c = ChanOpen -> ConnMutex c = false ->
  Disconnect r c tr =
  Returned (match Conn c with Some _ => r | None => None end)
    (with_Conn None (with_StopReconnect ChanClosed c))
    (tr ++ match Conn c with Some h => [EvClose h] | None => [] end).
Proof.
  intros HS HM. run_method. rewrite HS. simpl. rewrite HM. simpl.
  destruct c as [k s [h|] m mh ch rh mr ri ar sr]; simpl in *; subst; simpl.
  - reflexivity.
  - now rewrite app_nil_r.
Qed.

Lemma Disconnect_closed (r : option error) (c : WebSocketClient) (tr : trace) :
  StopReconnect c = ChanClosed ->
  Disconnect r c tr = Panicked CloseOfClosedChannel c tr.
Proof. intros HS. run_method. now rewrite HS. Qed.

(** C9.  [Disconnect] is not idempotent.  On a client whose stop channel
    is open the first call returns and leaves the channel closed; a second
    call on that client panics with "close of closed channel". *)
Theorem Disconnect_twice_panics
    (r1 r2 : option error) (c : WebSocketClient) (tr : trace) :
  StopReconnect c = ChanOpen -> ConnMutex c = false ->
  exists res c' tr',
    Disconnect r1 c tr = Returned res c' tr'
    /\ StopReconnect c' = ChanClosed
    /\ Conn c' = None
    /\ Disconnect r2 c' tr' = Panicked CloseOfClosedChannel c' tr'.
Proof.
  intros HS HM. do 3 eexists.
  split; [ apply Disconnect_open; assumption | ].
  split; [ reflexivity | ].
  split; [ reflexivity | ].
  apply Disconnect_closed. reflexivity.
Qed.

Lemma Disconnect_twice_panics_witness :
  exists res c' tr',
    Disconnect None connected_client [] = Returned res c' tr'
    /\ StopReconnect c' = ChanClosed
    /\ Conn c' = None
    /\ Disconnect None c' tr' = Panicked CloseOfClosedChannel c' tr'.
Proof.
  apply (Disconnect_twice_panics None None connected_client []); reflexivity.
Defined.

(** ** The receive loop *)

Ltac run_pump :=
  unfold wsReadPump, teardown, defer, bind, ret, get, modify, emit, emit_all, throw,
         Lock, Unlock; simpl.

Lemma teardown_nil (fuel : nat) (env : nat -> attempt_env)
                   (c : WebSocketClient) (tr : trace) :
  Conn c = None -> ConnMutex c = false ->
  teardown fuel env c tr = Panicked NilDereference (with_ConnMutex true c) tr.
Proof. intros HC HM. run_pump. rewrite HM. simpl. now rewrite HC. Qed.

(** C10.  The deferred function of the receive loop calls [Close] on the
    stored handle without testing it.  When the handle is nil at that
    point, the call panics with a nil dereference: the handle is not
    closed, [reconnect] is not called, and the mutex taken just before
    stays locked. *)
Theorem teardown_panics_on_nil_handle
    (fuel : nat) (env : nat -> attempt_env) (c : WebSocketClient) (tr : trace) :
  Conn c = None -> ConnMutex c = false ->
  exists c',
    teardown fuel env c tr = Panicked NilDereference c' tr
    /\ ConnMutex c' = true.
Proof.
  intros HC HM. exists (with_ConnMutex true c).
  split; [ apply teardown_nil; assumption | reflexivity ].
Qed.

Lemma teardown_panics_on_nil_handle_witness :
  exists c',
    teardown 10 always_refused sample_client [] = Panicked NilDereference c' []
    /\ ConnMutex c' = true.
Proof.
  apply (teardown_panics_on_nil_handle 10 always_refused sample_client []); reflexivity.
Defined.

(** The race named in C10: a [Disconnect] of the foreground closes the
    transport under a blocked read; the read fails, and the deferred
    function finds the handle already cleared. *)
Lemma wsReadPump_interrupted_by_Disconnect
    (lib : libraries) (e : pump_env) (c : WebSocketClient) (tr : trace)
    (h : conn) (r : option error) :
  Conn c = Some h -> ConnMutex c = false -> StopReconnect c = ChanOpen ->
  messages e = [] -> pump_Disconnect e = Some r ->
  exists c' tr',
    wsReadPump lib e c tr = Panicked NilDereference c' tr' /\ ConnMutex c' = true.
Proof.
  intros HC HM HS Hm Hd. unfold wsReadPump, defer. rewrite Hm, Hd.
  unfold read_loop, bind at 1, get. rewrite HC.
  unfold bind at 1. unfold bind at 1.
  rewrite (Disconnect_open r c tr HS HM). unfold ret, emit.
  rewrite teardown_nil by (simpl; auto).
  do 2 eexists. split; reflexivity.
Qed.






(** ** Timestamps *)

Lemma Int64_wrap_small (z : Z) :
  Int64.min_int <= z <= Int64.max_int -> Int64.wrap z = z.
Proof.
  unfold Int64.wrap, Int64.min_int, Int64.max_int. intros H.
  rewrite Z.mod_small; lia.
Qed.

Lemma Unix_of_millis (T : Z) :
  0 <= T <= max_millis ->
  time.Unix 0 (Int64.mul T Millisecond) = time.mkTime (T / 1000) (T mod 1000 * 1000000).
Proof.
  unfold max_millis, Millisecond, Int64.mul. intros H.
  rewrite Int64_wrap_small by (unfold Int64.min_int, Int64.max_int; lia).
  unfold time.Unix.
  assert (Hq : T * 1000000 / 1000000000 = T / 1000).
  { change 1000000000 with (1000 * 1000000). now rewrite Z.div_mul_cancel_r by lia. }
  pose proof (Z.div_mod T 1000 ltac:(lia)) as Hdm.
  pose proof (Z.mod_pos_bound T 1000 ltac:(lia)) as Hb.
  assert (Hneg : (T * 1000000 <? 0) = false) by (apply Z.ltb_ge; lia).
  rewrite Hneg, orb_false_l.
  destruct (Z.leb_spec 1000000000 (T * 1000000)) as [Hge|Hlt].
  - cbv zeta. rewrite Z.quot_div_nonneg by lia. rewrite Hq.
    assert (Hadd : Int64.add 0 (T / 1000) = T / 1000).
    { unfold Int64.add. rewrite Z.add_0_l. apply Int64_wrap_small.
      unfold Int64.min_int, Int64.max_int. lia. }
    rewrite Hadd.
    assert (Hn : T * 1000000 - T / 1000 * 1000000000 = T mod 1000 * 1000000) by lia.
    rewrite Hn.
    assert (Hpos : (T mod 1000 * 1000000 <? 0) = false) by (apply Z.ltb_ge; lia).
    rewrite Hpos. reflexivity.
  - assert (Hs : T / 1000 = 0) by (apply Z.div_small; lia).
    rewrite Hs. f_equal. rewrite Z.mod_small; lia.
Qed.

Lemma all_chars_append (p : ascii -> bool) (a b : string) :
  all_chars p (String.append a b) = all_chars p a && all_chars p b.
Proof.
  induction a as [|ch a IH]; simpl; [ reflexivity | ].
  now rewrite IH, andb_assoc.
Qed.

Lemma digit_char_not_point (d : Z) : d < 10 -> not_point (strconv.digit_char d) = true.
Proof.
  intros H. unfold strconv.digit_char.
  assert (Hn : (Z.to_nat d < 10)%nat) by lia.
  remember (Z.to_nat d) as n eqn:E. clear E H.
  do 10 (destruct n as [|n]; [ reflexivity | ]). lia.
Qed.

Lemma utoa_fuel_no_point (fuel : nat) (u : Z) :
  all_chars not_point (time.utoa_fuel fuel u) = true.
Proof.
  revert u. induction fuel as [|fuel IH]; intros u; [ reflexivity | ].
  cbn [time.utoa_fuel].
  destruct (Z.ltb_spec u 10) as [Hlt|Hge].
  - cbn [all_chars]. now rewrite digit_char_not_point.
  - rewrite all_chars_append, IH. cbn [all_chars].
    rewrite digit_char_not_point; [ reflexivity | ].
    apply Z.mod_pos_bound. lia.
Qed.

Lemma zeros_no_point (n : nat) : all_chars not_point (time.zeros n) = true.
Proof. induction n; simpl; auto. Qed.

Lemma appendInt_no_point (x : Z) (width : nat) :
  all_chars not_point (time.appendInt x width) = true.
Proof.
  unfold time.appendInt, time.pad, time.utoa.
  rewrite !all_chars_append, zeros_no_point, utoa_fuel_no_point.
  now destruct (x <? 0).
Qed.

Lemma date_clock_no_point (loc : time.Location) (t : time.Time) :
  all_chars not_point (time.date_clock loc t) = true.
Proof.
  unfold time.date_clock.
  destruct (time.civil_from_days _) as [[year month] day].
  unfold cat, fold_right.
  rewrite !all_chars_append, !appendInt_no_point. reflexivity.
Qed.

Lemma after_point_append (a b : string) :
  all_chars not_point a = true ->
  after_point (String.append a (String "." b)) = Some b.
Proof.
  induction a as [|ch a IH]; simpl; [ reflexivity | ].
  intros H. apply andb_prop in H as [H1 H2].
  unfold not_point in H1. apply negb_true_iff in H1. rewrite H1. auto.
Qed.

Lemma fraction_check_all : forallb fraction_check (map Z.of_nat (seq 0 1000)) = true.
Proof. vm_compute. reflexivity. Qed.

Lemma fraction_digits (ms : Z) :
  0 <= ms < 1000 ->
  strconv.ParseUint (String.substring 0 3 (time.appendInt (ms * 1000000) 9)) = inl ms.
Proof.
  intros H.
  pose proof fraction_check_all as A. rewrite forallb_forall in A.
  specialize (A ms). unfold fraction_check in A.
  destruct (strconv.ParseUint _) as [n|b].
  - f_equal. apply Z.eqb_eq, A.
    apply in_map_iff. exists (Z.to_nat ms). split; [ lia | apply in_seq; lia ].
  - discriminate A.
    apply in_map_iff. exists (Z.to_nat ms). split; [ lia | apply in_seq; lia ].
Qed.

Lemma fraction_of_Format (loc : time.Location) (T : Z) :
  0 <= T <= max_millis ->
  fraction (time.Format loc (time.Unix 0 (Int64.mul T Millisecond))) = Some (T mod 1000).
Proof.
  intros H. rewrite Unix_of_millis by assumption.
  unfold fraction, time.Format, time.appendNano3. simpl time.t_nsec.
  rewrite after_point_append by apply date_clock_no_point.
  rewrite fraction_digits; [ reflexivity | apply Z.mod_pos_bound; lia ].
Qed.

(** ** Messages *)

Lemma handle_message_quote
    (lib : libraries) (c : WebSocketClient) (msgStr : string) (q : QuoteMessage) (T : Z) :
  looks_like_json msgStr = true ->
  connected_notice lib msgStr = false ->
  Unmarshal_QuoteMessage lib msgStr = (q, None) ->
  strconv.ParseInt (Ts q) = inl T ->
  handle_message lib c msgStr =
  if MessageHandler c then [EvMessageHandler q (human_timestamp lib T)] else [].
Proof.
  intros HJ HN HQ HT. unfold handle_message. rewrite HJ.
  unfold connected_notice in HN.
  destruct (Unmarshal_ConnectedMessage lib msgStr) as [cm err].
  rewrite HN, HQ, HT. reflexivity.
Qed.

(** C7, as amended.  For a message handled as a quote whose [ts] text is
    the decimal form of [T] with [0 <= T <= 9223372036854] (the
    millisecond counts whose nanosecond count fits 64 bits), the quote
    handler, when installed, is called once with the quote and the
    human-readable timestamp of [T], and the digits after the point of
    that timestamp read back as [T mod 1000]. *)
Theorem quote_timestamp_fraction
    (lib : libraries) (c : WebSocketClient) (msgStr : string) (q : QuoteMessage) (T : Z) :
  looks_like_json msgStr = true ->
  connected_notice lib msgStr = false ->
  Unmarshal_QuoteMessage lib msgStr = (q, None) ->
  strconv.ParseInt (Ts q) = inl T ->
  0 <= T <= max_millis ->
  handle_message lib c msgStr =
    (if MessageHandler c then [EvMessageHandler q (human_timestamp lib T)] else [])
  /\ fraction (human_timestamp lib T) = Some (T mod 1000).
Proof.
  intros HJ HN HQ HT HR. split.
  - apply handle_message_quote; assumption.
  - apply fraction_of_Format. assumption.
Qed.

Lemma quote_timestamp_fraction_witness :
  handle_message (go_libraries time.UTC) sample_client (quote_frame "1700000000123") =
    (if MessageHandler sample_client
     then [EvMessageHandler
             (mkQuote "EURUSD" (Float64 "1.1") (Float64 "1.2") (Float64 "1.15")
                      "1700000000123")
             (human_timestamp (go_libraries time.UTC) 1700000000123)]
     else [])
  /\ fraction (human_timestamp (go_libraries time.UTC) 1700000000123)
     = Some (1700000000123 mod 1000).
Proof.
  apply (quote_timestamp_fraction (go_libraries time.UTC) sample_client
           (quote_frame "1700000000123")
           (mkQuote "EURUSD" (Float64 "1.1") (Float64 "1.2") (Float64 "1.15")
                    "1700000000123")
           1700000000123);
    [ vm_compute; reflexivity | vm_compute; reflexivity | vm_compute; reflexivity
    | vm_compute; reflexivity | unfold max_millis; lia ].
Defined.

(** C7, as the specification states it, fails: the [ts] text
    [9223372036855] is a well-formed millisecond count, the quote handler
    is called, and the fraction of the timestamp it receives reads 145,
    not 855. *)
Lemma fraction_wrong_when_nanoseconds_overflow :
  exists q ts,
    handle_message (go_libraries time.UTC) sample_client (quote_frame "9223372036855")
    = [EvMessageHandler q ts]
    /\ strconv.ParseInt (Ts q) = inl 9223372036855
    /\ fraction ts = Some 145
    /\ fraction ts <> Some (9223372036855 mod 1000).
Proof.
  do 2 eexists. split; [ vm_compute; reflexivity | ].
  split; [ vm_compute; reflexivity | ].
  split; [ vm_compute; reflexivity | vm_compute; discriminate ].
Qed.

(** C3, as amended.  For a message that decodes as a status notice whose
    status is not [connected], the connected handler is not called, and
    the quote handler is not called either unless the message also decodes
    as a quote whose [ts] text [ParseInt] accepts; a notice without a [ts]
    member never does. *)
Theorem notice_not_connected
    (lib : libraries) (c : WebSocketClient) (msgStr : string) (cm : ConnectedMessage) :
  Unmarshal_ConnectedMessage lib msgStr = (cm, None) ->
  Status cm <> "connected"%string ->
  (forall m, ~ In (EvConnectedHandler m) (handle_message lib c msgStr))
  /\ (quote_deliverable lib msgStr = false ->
        callbacks (handle_message lib c msgStr) = []).
Proof.
  intros HU HS.
  apply String.eqb_neq in HS.
  unfold handle_message, quote_deliverable.
  destruct (looks_like_json msgStr).
  - rewrite HU, HS, andb_false_r.
    destruct (Unmarshal_QuoteMessage lib msgStr) as [q [e|]]; simpl.
    + split; [ intros m [H|[]]; discriminate H | reflexivity ].
    + destruct (strconv.ParseInt (Ts q)) as [T|e].
      * split.
        -- intros m. destruct (MessageHandler c); simpl; [ intros [H|[]]; discriminate H | tauto ].
        -- discriminate.
      * split; [ intros m [H|[]]; discriminate H | reflexivity ].
  - split; [ intros m [H|[]]; discriminate H | reflexivity ].
Qed.

Lemma notice_not_connected_witness :
  (forall m, ~ In (EvConnectedHandler m)
               (handle_message (go_libraries time.UTC) sample_client
                  (notice_frame "error" "bad key")))
  /\ callbacks (handle_message (go_libraries time.UTC) sample_client
                  (notice_frame "error" "bad key")) = [].
Proof.
  destruct (notice_not_connected (go_libraries time.UTC) sample_client
              (notice_frame "error" "bad key") (mkConnected "error" "bad key"))
    as [H1 H2]; [ vm_compute; reflexivity | discriminate | ].
  split; [ exact H1 | apply H2; vm_compute; reflexivity ].
Defined.

(** With the decoder of [encoding/json], an object none of whose keys
    folds to [TS] leaves the [ts] field empty, and [ParseInt] refuses the
    empty text. *)
Lemma fill_QuoteMessage_keeps_Ts (members : list (string * json.value)) :
  forall (q : QuoteMessage) (saved : option error),
    (forall k v, In (k, v) members -> String.eqb (json.foldName k) "TS" = false) ->
    Ts (fst (json.fill_QuoteMessage members q saved)) = Ts q.
Proof.
  induction members as [|[k v] rest IH]; intros q saved H; [ reflexivity | ].
  cbn [json.fill_QuoteMessage].
  assert (Hk : String.eqb (json.foldName k) "TS" = false) by (apply (H k v); now left).
  assert (Hrest : forall k' v', In (k', v') rest ->
                                String.eqb (json.foldName k') "TS" = false)
    by (intros k' v' Hin; apply (H k' v'); now right).
  rewrite Hk.
  repeat match goal with
         | |- context [if ?b then _ else _] => destruct b
         | |- context [let (_, _) := ?x in _] => destruct x
         end;
    now rewrite IH.
Qed.

Lemma no_ts_member_is_not_deliverable
    (loc : time.Location) (data : string) (members : list (string * json.value)) :
  json.parse data = Some (json.Object members) ->
  (forall k v, In (k, v) members -> String.eqb (json.foldName k) "TS" = false) ->
  quote_deliverable (go_libraries loc) data = false.
Proof.
  intros HP HK. unfold quote_deliverable, go_libraries. cbn [Unmarshal_QuoteMessage].
  unfold json.Unmarshal_QuoteMessage. rewrite HP.
  pose proof (fill_QuoteMessage_keeps_Ts members QuoteMessage_zero None HK) as E.
  destruct (json.fill_QuoteMessage members QuoteMessage_zero None) as [q err].
  cbn [fst] in E. rewrite E. cbn. apply andb_false_r.
Qed.

(** C3, as the specification states it, fails: a notice with the status
    [error] that also has a [ts] member is delivered to the quote handler
    as a quote whose other fields are zero. *)
Lemma notice_with_ts_is_delivered_as_quote :
  Unmarshal_ConnectedMessage (go_libraries time.UTC)
    (notice_with_ts "error" "1700000000123") = (mkConnected "error" EmptyString, None)
  /\ handle_message (go_libraries time.UTC) sample_client
       (notice_with_ts "error" "1700000000123")
     = [EvMessageHandler
          (mkQuote EmptyString float64_zero float64_zero float64_zero "1700000000123")
          "2023-11-14 22:13:20.123"].
Proof. split; vm_compute; reflexivity. Qed.

(** The scenarios of the specification for single messages, with the
    decoder of [encoding/json] and the location UTC. *)
Example scenario_quote :
  handle_message (go_libraries time.UTC) sample_client (quote_frame "1700000000123")
  = [EvMessageHandler
       (mkQuote "EURUSD" (Float64 "1.1") (Float64 "1.2") (Float64 "1.15") "1700000000123")
       "2023-11-14 22:13:20.123"].
Proof. vm_compute. reflexivity. Qed.

Example scenario_connected :
  handle_message (go_libraries time.UTC) sample_client (notice_frame "connected" "ok")
  = [EvConnectedHandler (mkConnected "connected" "ok")].
Proof. vm_compute. reflexivity. Qed.

Example scenario_pong :
  handle_message (go_libraries time.UTC) sample_client "PONG" = [status_line "PONG"].
Proof. vm_compute. reflexivity. Qed.

(** ** The retry loop *)

Lemma int_incr_small (n : Z) :
  Int64.min_int <= n < Int64.max_int -> int_incr n = n + 1.
Proof.
  intros H. unfold int_incr, Int64.add. apply Int64_wrap_small.
  unfold Int64.min_int, Int64.max_int in *. lia.
Qed.


Lemma int_incr_of_nat (i : nat) (m : Z) :
  Z.of_nat (S i) <= m -> m <= Int64.max_int -> int_incr (Z.of_nat i) = Z.of_nat (S i).
Proof.
  intros H1 H2. rewrite int_incr_small; [ lia | ].
  unfold Int64.min_int, Int64.max_int in *. lia.
Qed.

Lemma handler_attempts_app (a b : trace) :
  handler_attempts (a ++ b) = handler_attempts a ++ handler_attempts b.
Proof. unfold handler_attempts. apply flat_map_app. Qed.

Lemma dial_count_app (a b : trace) : dial_count (a ++ b) = (dial_count a + dial_count b)%nat.
Proof. unfold dial_count. now rewrite filter_app, length_app. Qed.

Lemma attempts_from_cons (a k : nat) :
  attempts_from a (S k) = Z.of_nat (S a) :: attempts_from (S a) k.
Proof. reflexivity. Qed.

Lemma attempts_from_snoc (a k : nat) :
  attempts_from a (S k) = attempts_from a k ++ [Z.of_nat (S (a + k))].
Proof. unfold attempts_from. now rewrite seq_S, map_app. Qed.

Lemma handler_attempts_announce (c : WebSocketClient) (n : Z) :
  handler_attempts (announce c n) = if ReconnectionHandler c then [n] else [].
Proof. unfold announce. now destruct (ReconnectionHandler c). Qed.

Lemma dial_count_announce (c : WebSocketClient) (n : Z) : dial_count (announce c n) = 0%nat.
Proof. unfold announce. now destruct (ReconnectionHandler c). Qed.

Lemma retry_wait_elapses (w : wait_env) (c : WebSocketClient) (tr : trace) :
  concurrent_Disconnect w = None -> StopReconnect c <> ChanClosed ->
  retry_wait w c tr = Returned TimerFired c tr.
Proof.
  intros HD HS. unfold retry_wait, bind, ret, get. rewrite HD.
  unfold select_wake. destruct (StopReconnect c); congruence.
Qed.


(** A failed [Connect] on an unlocked client: the client had no handle,
    the call dialled once and called no handler, and it only touched the
    handle. *)
Lemma Connect_failure_inv
    (e : connect_env) (c c' : WebSocketClient) (err : error) (tr1 : trace) :
  ConnMutex c = false ->
  Connect e c [] = Returned (Some err) c' tr1 ->
  (forall tr, Connect e c tr = Returned (Some err) c' (tr ++ tr1))
  /\ dial_count tr1 = 1%nat
  /\ handler_attempts tr1 = []
  /\ ConnMutex c' = false
  /\ MaxRetries c' = MaxRetries c
  /\ StopReconnect c' = StopReconnect c
  /\ ReconnectionHandler c' = ReconnectionHandler c.
Proof.
  intros HM H.
  destruct (Conn c) as [h|] eqn:HC.
  - rewrite (Connect_installed e c [] h HC HM) in H. discriminate.
  - destruct (dial_result e) as [h|derr] eqn:HD.
    + rewrite (Connect_dialled e c [] h HC HM HD) in H.
      destruct (write_result e) as [werr|] eqn:HW; [ | discriminate ].
      injection H as <- <- <-.
      split; [ | repeat split; simpl; auto ].
      intros tr. rewrite (Connect_dialled e c tr h HC HM HD), HW. reflexivity.
    + rewrite (Connect_refused e c [] derr HC HM HD) in H.
      injection H as <- <- <-.
      split; [ | repeat split; assumption ].
      intros tr. apply Connect_refused; assumption.
Qed.

(** One iteration whose [Connect] fails, up to the wait. *)
Lemma reconnect_loop_failure_step
    (fuel : nat) (env : nat -> attempt_env) (i : nat) (retries : Z)
    (c c' : WebSocketClient) (err : error) (tr tr1 : trace) :
  ConnMutex c = false ->
  Connect (att_connect (env i)) c [] = Returned (Some err) c' tr1 ->
  int_incr retries <= MaxRetries c ->
  reconnect_loop (S fuel) env i retries c tr =
  after_failure fuel env i (int_incr retries) c'
    (tr ++ announce c (int_incr retries) ++ tr1).
Proof.
  intros HM HF HR.
  destruct (Connect_failure_inv _ _ _ _ _ HM HF) as [Hany _].
  cbn [reconnect_loop]. unfold bind at 1, get.
  destruct (Z.gtb_spec (int_incr retries) (MaxRetries c)) as [?|_]; [ lia | ].
  unfold bind at 1. unfold bind at 1. unfold announce.
  destruct (ReconnectionHandler c).
  - unfold emit at 1. unfold emit at 1. unfold bind at 1.
    rewrite Hany. rewrite <- !app_assoc. reflexivity.
  - unfold ret at 1. unfold emit at 1. unfold bind at 1.
    rewrite Hany. rewrite <- !app_assoc. reflexivity.
Qed.








(** * Further facts *)

(** ** [Connect] and [Disconnect] again *)

(** X1.  On a client whose mutex is free [Connect] always returns, with
    the mutex free again.  It changes no setting of the client and not
    the stop channel, dials at most once and calls no handler.  When it
    returns nil the client holds a handle; it returns an error only when
    the client held none. *)
Theorem Connect_returns_and_keeps_settings
    (e : connect_env) (c : WebSocketClient) (tr : trace) :
  ConnMutex c = false ->
  exists r c' added,
    Connect e c tr = Returned r c' (tr ++ added)
    /\ ConnMutex c' = false
    /\ settings c' = settings c
    /\ StopReconnect c' = StopReconnect c
    /\ (r = None -> Conn c' <> None)
    /\ (r <> None -> Conn c = None)
    /\ (dial_count added <= 1)%nat
    /\ callbacks added = [].
Proof.
  intros HM.
  destruct (Conn c) as [h|] eqn:HC.
  - exists None, c, []. rewrite app_nil_r, (Connect_installed e c tr h HC HM).
    repeat split; auto; try congruence.
  - destruct (dial_result e) as [h|derr] eqn:HD.
    + do 3 eexists. rewrite (Connect_dialled e c tr h HC HM HD).
      repeat split; simpl; auto. discriminate.
    + do 3 eexists. rewrite (Connect_refused e c tr derr HC HM HD).
      repeat split; simpl; auto. discriminate.
Qed.

Lemma Connect_returns_and_keeps_settings_witness :
  exists r c' added,
    Connect (mkConnectEnv (inl 1%nat) (Some broken_pipe)) sample_client [EvGo_wsReadPump]
    = Returned r c' ([EvGo_wsReadPump] ++ added)
    /\ ConnMutex c' = false
    /\ settings c' = settings sample_client
    /\ StopReconnect c' = StopReconnect sample_client
    /\ (r = None -> Conn c' <> None)
    /\ (r <> None -> Conn sample_client = None)
    /\ (dial_count added <= 1)%nat
    /\ callbacks added = [].
Proof.
  apply (Connect_returns_and_keeps_settings
           (mkConnectEnv (inl 1%nat) (Some broken_pipe)) sample_client [EvGo_wsReadPump]).
  reflexivity.
Defined.

(** X2.  On a client whose stop channel is open [Disconnect] closes the
    channel, closes the handle when there is one and returns what closing
    it returned, nil when there is none; the client is left without a
    handle, its mutex free and its settings as they were. *)
Theorem Disconnect_closes_and_clears
    (r : option error) (c : WebSocketClient) (tr : trace) :
  StopReconnect c = ChanOpen -> ConnMutex c = false ->
  exists c',
    Disconnect r c tr =
      Returned (match Conn c with Some _ => r | None => None end) c'
        (tr ++ match Conn c with Some h => [EvClose h] | None => [] end)
    /\ Conn c' = None
    /\ ConnMutex c' = false
    /\ StopReconnect c' = ChanClosed
    /\ settings c' = settings c.
Proof.
  intros HS HM. eexists. rewrite (Disconnect_open r c tr HS HM).
  repeat split. exact HM.
Qed.

Lemma Disconnect_closes_and_clears_witness :
  exists c',
    Disconnect (Some broken_pipe) connected_client [] =
      Returned (match Conn connected_client with
                | Some _ => Some broken_pipe
                | None => None
                end) c'
        ([] ++ match Conn connected_client with Some h => [EvClose h] | None => [] end)
    /\ Conn c' = None
    /\ ConnMutex c' = false
    /\ StopReconnect c' = ChanClosed
    /\ settings c' = settings connected_client.
Proof.
  apply (Disconnect_closes_and_clears (Some broken_pipe) connected_client []); reflexivity.
Defined.

(** X3.  [Disconnect] closes the stop channel before anything else: on a
    client whose channel is not open (closed already, or nil) it panics
    at once, so the handle is neither closed nor cleared. *)
Theorem Disconnect_without_open_channel_closes_nothing
    (r : option error) (c : WebSocketClient) (tr : trace) :
  StopReconnect c <> ChanOpen ->
  exists p, Disconnect r c tr = Panicked p c tr.
Proof.
  intros HS. unfold Disconnect, bind, close_StopReconnect.
  destruct (StopReconnect c); [ eexists; reflexivity | congruence | eexists; reflexivity ].
Qed.

Lemma Disconnect_without_open_channel_closes_nothing_witness :
  exists p,
    Disconnect None (with_StopReconnect ChanClosed connected_client) []
    = Panicked p (with_StopReconnect ChanClosed connected_client) [].
Proof.
  apply (Disconnect_without_open_channel_closes_nothing None
           (with_StopReconnect ChanClosed connected_client) []).
  discriminate.
Defined.



(** ** The retry loop again *)

(** What [Connect] does does not depend on the trace it starts from. *)
Lemma Connect_run (e : connect_env) (c : WebSocketClient) :
  ConnMutex c = false ->
  exists r c' added,
    (forall tr, Connect e c tr = Returned r c' (tr ++ added))
    /\ ConnMutex c' = false
    /\ settings c' = settings c
    /\ StopReconnect c' = StopReconnect c
    /\ (r = None -> Conn c' <> None)
    /\ (dial_count added <= 1)%nat
    /\ handler_attempts added = [].
Proof.
  intros HM.
  destruct (Conn c) as [h|] eqn:HC.
  - exists None, c, []. repeat split; auto; try congruence.
    intros tr. now rewrite app_nil_r, (Connect_installed e c tr h HC HM).
  - destruct (dial_result e) as [h|derr] eqn:HD.
    + do 3 eexists. split.
      * intros tr. apply (Connect_dialled e c tr h HC HM HD).
      * repeat split; simpl; auto. discriminate.
    + do 3 eexists. split.
      * intros tr. apply (Connect_refused e c tr derr HC HM HD).
      * repeat split; simpl; auto. discriminate.
Qed.

Lemma Connect_locked (e : connect_env) (c : WebSocketClient) (tr : trace) :
  ConnMutex c = true -> Connect e c tr = Blocked c tr.
Proof. intros HM. unfold Connect, bind, Lock. now rewrite HM. Qed.

Lemma settings_MaxRetries (c c' : WebSocketClient) :
  settings c' = settings c -> MaxRetries c' = MaxRetries c.
Proof. unfold settings. congruence. Qed.

Lemma settings_ReconnectionHandler (c c' : WebSocketClient) :
  settings c' = settings c -> ReconnectionHandler c' = ReconnectionHandler c.
Proof. unfold settings. congruence. Qed.

(** One iteration of the loop, up to the answer of [Connect]. *)
Lemma reconnect_loop_attempt
    (fuel : nat) (env : nat -> attempt_env) (i : nat) (retries : Z)
    (c : WebSocketClient) (tr : trace) :
  int_incr retries <= MaxRetries c ->
  reconnect_loop (S fuel) env i retries c tr =
  match Connect (att_connect (env i)) c (tr ++ announce c (int_incr retries)) with
  | Returned None c' tr' =>
      Returned Reconnected c' (tr' ++ [EvPrintln "Successfully reconnected to WebSocket."])
  | Returned (Some _) c' tr' => after_failure fuel env i (int_incr retries) c' tr'
  | Panicked p c' tr' => Panicked p c' tr'
  | Blocked c' tr' => Blocked c' tr'
  | OutOfFuel => OutOfFuel
  end.
Proof.
  intros HR. cbn [reconnect_loop]. unfold bind at 1, get.
  destruct (Z.gtb_spec (int_incr retries) (MaxRetries c)) as [?|_]; [ lia | ].
  unfold bind at 1. unfold bind at 1. unfold announce.
  destruct (ReconnectionHandler c).
  - unfold emit at 1. unfold emit at 1. unfold bind at 1.
    rewrite <- app_assoc. cbn [app].
    destruct (Connect _ _ _) as [[e'|] c' tr'| | |]; reflexivity.
  - unfold ret at 1. unfold emit at 1. unfold bind at 1. cbn [app].
    destruct (Connect _ _ _) as [[e'|] c' tr'| | |]; reflexivity.
Qed.

Lemma reconnect_loop_exhausted
    (fuel : nat) (env : nat -> attempt_env) (i : nat) (retries : Z)
    (c : WebSocketClient) (tr : trace) :
  MaxRetries c < int_incr retries ->
  reconnect_loop (S fuel) env i retries c tr =
  Returned MaxRetriesReached c
    (tr ++ [EvPrintln "Max retries reached. Stopping reconnection attempts."]).
Proof.
  intros HR. cbn [reconnect_loop]. unfold bind at 1, get.
  destruct (Z.gtb_spec (int_incr retries) (MaxRetries c)) as [_|?]; [ | lia ].
  reflexivity.
Qed.

Lemma int_incr_0 : int_incr 0 = 1.
Proof. reflexivity. Qed.

(** X5.  With [MaxRetries] zero or negative [reconnect] gives up at once:
    it prints that the maximum is reached and neither calls the handler
    nor dials. *)
Theorem reconnect_with_no_retries_allowed
    (env : nat -> attempt_env) (c : WebSocketClient) (tr : trace) (fuel : nat) :
  MaxRetries c <= 0 ->
  reconnect (S fuel) env c tr =
  Returned MaxRetriesReached c
    (tr ++ [EvPrintln "Max retries reached. Stopping reconnection attempts."]).
Proof.
  intros H. unfold reconnect. apply reconnect_loop_exhausted. rewrite int_incr_0. lia.
Qed.

Lemma reconnect_with_no_retries_allowed_witness :
  reconnect 1 always_refused (with_MaxRetries (-3) sample_client) [] =
  Returned MaxRetriesReached (with_MaxRetries (-3) sample_client)
    ([] ++ [EvPrintln "Max retries reached. Stopping reconnection attempts."]).
Proof.
  apply (reconnect_with_no_retries_allowed always_refused
           (with_MaxRetries (-3) sample_client) [] 0).
  simpl. lia.
Defined.

(** X6.  On a client whose stop channel is closed already, [reconnect]
    still makes its first attempt: it announces attempt 1 and dials once,
    and stops only in the wait after the failure (the timer not having
    fired). *)
Theorem reconnect_once_when_already_stopped
    (env : nat -> attempt_env) (c c1 : WebSocketClient) (tr tr1 : trace) (fuel : nat)
    (err : error) :
  StopReconnect c = ChanClosed -> ConnMutex c = false ->
  1 <= MaxRetries c ->
  Connect (att_connect (env 0%nat)) c [] = Returned (Some err) c1 tr1 ->
  concurrent_Disconnect (att_wait (env 0%nat)) = None ->
  timer_ready (att_wait (env 0%nat)) = false ->
  reconnect (S fuel) env c tr =
    Returned Stopped c1 (tr ++ announce c 1 ++ tr1 ++ [EvPrintln "Reconnect stopped."])
  /\ handler_attempts (announce c 1 ++ tr1 ++ [EvPrintln "Reconnect stopped."])
     = (if ReconnectionHandler c then [1] else [])
  /\ dial_count (announce c 1 ++ tr1 ++ [EvPrintln "Reconnect stopped."]) = 1%nat.
Proof.
  intros HS HM HR HF Hw Ht.
  destruct (Connect_failure_inv _ _ _ _ _ HM HF) as (Hany & Hd & Hh & HM1 & _ & HS1 & _).
  split; [ | split ].
  - unfold reconnect.
    rewrite reconnect_loop_attempt by (rewrite int_incr_0; lia).
    rewrite int_incr_0, Hany.
    unfold after_failure, bind at 1, retry_wait, bind at 1. rewrite Hw.
    unfold ret, bind, get, select_wake, emit. rewrite HS1, HS, Ht.
    now rewrite <- !app_assoc.
  - rewrite !handler_attempts_app, handler_attempts_announce, Hh. cbn.
    now rewrite app_nil_r.
  - rewrite !dial_count_app, dial_count_announce, Hd. reflexivity.
Qed.

Lemma reconnect_once_when_already_stopped_witness :
  reconnect 1 (refused_then_cancelled 7) (with_StopReconnect ChanClosed sample_client) [] =
    Returned Stopped (with_StopReconnect ChanClosed sample_client)
      ([] ++ announce (with_StopReconnect ChanClosed sample_client) 1
          ++ [EvDial wsURL;
              EvPrintf (String.append "WebSocket connection failed: %v" nl)
                       [ArgError refused]]
          ++ [EvPrintln "Reconnect stopped."])
  /\ handler_attempts
       (announce (with_StopReconnect ChanClosed sample_client) 1
        ++ [EvDial wsURL;
            EvPrintf (String.append "WebSocket connection failed: %v" nl)
                     [ArgError refused]]
        ++ [EvPrintln "Reconnect stopped."])
     = (if ReconnectionHandler (with_StopReconnect ChanClosed sample_client)
        then [1] else [])
  /\ dial_count
       (announce (with_StopReconnect ChanClosed sample_client) 1
        ++ [EvDial wsURL;
            EvPrintf (String.append "WebSocket connection failed: %v" nl)
                     [ArgError refused]]
        ++ [EvPrintln "Reconnect stopped."]) = 1%nat.
Proof.
  apply (reconnect_once_when_already_stopped (refused_then_cancelled 7)
           (with_StopReconnect ChanClosed sample_client)
           (with_StopReconnect ChanClosed sample_client) [] _ 0 refused);
    try reflexivity.
  simpl. lia.
Defined.

(** [k] failed iterations whose waits elapse, with the client they lead to. *)
Lemma reconnect_loop_after_failures (env : nat -> attempt_env) (k : nat) :
  forall (i fuel : nat) (c ck : WebSocketClient) (tr : trace),
    ConnMutex c = false -> StopReconnect c <> ChanClosed ->
    MaxRetries c <= Int64.max_int ->
    Z.of_nat (i + k) <= MaxRetries c ->
    after_failures k env i c ck ->
    (forall n, (i <= n < i + k)%nat -> concurrent_Disconnect (att_wait (env n)) = None) ->
    exists added,
      reconnect_loop (k + fuel) env i (Z.of_nat i) c tr =
        reconnect_loop fuel env (i + k) (Z.of_nat (i + k)) ck (tr ++ added)
      /\ ConnMutex ck = false
      /\ MaxRetries ck = MaxRetries c
      /\ StopReconnect ck = StopReconnect c
      /\ ReconnectionHandler ck = ReconnectionHandler c
      /\ handler_attempts added = (if ReconnectionHandler c then attempts_from i k else [])
      /\ dial_count added = k.
Proof.
  induction k as [|k IH]; intros i fuel c ck tr HM HS Hmax Hle Hfail Hwait.
  - cbn in Hfail. subst ck. exists []. rewrite Nat.add_0_r, app_nil_r. cbn.
    repeat split; try assumption. now destruct (ReconnectionHandler c).
  - destruct Hfail as (err & c1 & tr1 & HF & Hrest).
    destruct (Connect_failure_inv _ _ _ _ _ HM HF)
      as (_ & Hd & Hh & HM1 & HR1 & HS1 & HH1).
    pose proof (int_incr_of_nat i (MaxRetries c) ltac:(lia) Hmax) as Hinc.
    destruct (IH (S i) fuel c1 ck (tr ++ announce c (Z.of_nat (S i)) ++ tr1))
      as (added & Hrun & HM' & HR' & HS' & HH' & Hh' & Hd');
      try assumption; try congruence.
    { rewrite HR1. lia. }
    { intros n Hn. apply Hwait. lia. }
    exists (announce c (Z.of_nat (S i)) ++ tr1 ++ added).
    replace (i + S k)%nat with (S i + k)%nat by lia.
    repeat split; try assumption; try congruence.
    + change (S k + fuel)%nat with (S (k + fuel)).
      rewrite (reconnect_loop_failure_step _ env i _ c c1 err tr tr1 HM HF)
        by (rewrite Hinc; lia).
      unfold after_failure, bind.
      rewrite retry_wait_elapses by (try congruence; apply Hwait; lia).
      rewrite Hinc, Hrun. now rewrite <- !app_assoc.
    + rewrite !handler_attempts_app, handler_attempts_announce, Hh, Hh', HH1.
      rewrite attempts_from_cons. now destruct (ReconnectionHandler c).
    + rewrite !dial_count_app, dial_count_announce, Hd, Hd'. reflexivity.
Qed.

(** X7.  When the first [k] calls of [Connect] fail and the next one
    succeeds, with [k + 1] attempts allowed and nobody disconnecting,
    [reconnect] returns after that call with the client connected; the
    handler, when set, was called with 1, 2, ..., [k + 1] in this
    order. *)
Theorem reconnect_succeeds_after_failures
    (env : nat -> attempt_env) (c ck c' : WebSocketClient) (tr tr1 : trace)
    (fuel k : nat) :
  ConnMutex c = false -> StopReconnect c <> ChanClosed ->
  Z.of_nat (S k) <= MaxRetries c <= Int64.max_int ->
  after_failures k env 0 c ck ->
  Connect (att_connect (env k)) ck [] = Returned None c' tr1 ->
  (forall i, (i < k)%nat -> concurrent_Disconnect (att_wait (env i)) = None) ->
  (k < fuel)%nat ->
  exists added,
    reconnect fuel env c tr = Returned Reconnected c' (tr ++ added)
    /\ Conn c' <> None
    /\ handler_attempts added =
       (if ReconnectionHandler c then attempts_from 0 (S k) else [])
    /\ dial_count added = (k + dial_count tr1)%nat
    /\ (dial_count tr1 <= 1)%nat.
Proof.
  intros HM HS [HR1 HR2] Hfail Hok Hwait Hfuel.
  destruct (reconnect_loop_after_failures env k 0 (S (fuel - k - 1)) c ck tr)
    as (added & Hrun & HMk & HRk & HSk & HHk & Hh & Hd);
    try assumption; try lia.
  { intros n Hn. apply Hwait. lia. }
  cbn [Nat.add] in Hrun.
  destruct (Connect_run (att_connect (env k)) ck HMk)
    as (r & c2 & added1 & Hany & _ & _ & _ & Hconn & Hdial & Hhand).
  rewrite Hany in Hok. cbn [app] in Hok. injection Hok as Hr Hc Ht. subst r. subst c2. subst tr1.
  pose proof (int_incr_of_nat k (MaxRetries c) HR1 HR2) as Hinc.
  exists (added ++ announce ck (Z.of_nat (S k)) ++ added1
          ++ [EvPrintln "Successfully reconnected to WebSocket."]).
  split; [ | split; [ auto | split; [ | split ] ] ].
  - unfold reconnect.
    replace fuel with (k + S (fuel - k - 1))%nat by lia.
    change 0 with (Z.of_nat 0). rewrite Hrun.
    rewrite reconnect_loop_attempt by (rewrite Hinc, HRk; lia).
    rewrite Hinc, Hany. now rewrite <- !app_assoc.
  - rewrite !handler_attempts_app, handler_attempts_announce, Hh, Hhand, HHk.
    rewrite attempts_from_snoc. cbn [Nat.add].
    destruct (ReconnectionHandler c); cbn; now rewrite ?app_nil_r.
  - rewrite !dial_count_app, dial_count_announce, Hd. cbn. lia.
  - assumption.
Qed.

Lemma reconnect_succeeds_after_failures_witness :
  exists added,
    reconnect 3 (refused_then_accepted 1 2%nat) sample_client [] =
      Returned Reconnected (with_Conn (Some 2%nat) sample_client) ([] ++ added)
    /\ Conn (with_Conn (Some 2%nat) sample_client) <> None
    /\ handler_attempts added =
       (if ReconnectionHandler sample_client then attempts_from 0 2 else [])
    /\ dial_count added =
       (1 + dial_count [EvDial wsURL; EvGo_wsReadPump;
                        EvWriteMessage 2%nat TextMessage
                          (auth_frame "k1" "EURUSD,GBPUSD")])%nat
    /\ (dial_count [EvDial wsURL; EvGo_wsReadPump;
                    EvWriteMessage 2%nat TextMessage
                      (auth_frame "k1" "EURUSD,GBPUSD")] <= 1)%nat.
Proof.
  apply (reconnect_succeeds_after_failures (refused_then_accepted 1 2%nat)
           sample_client sample_client (with_Conn (Some 2%nat) sample_client) [] _ 3 1).
  - reflexivity.
  - discriminate.
  - unfold Int64.max_int. simpl. lia.
  - simpl. do 3 eexists. split; reflexivity.
  - reflexivity.
  - intros i Hi. reflexivity.
  - lia.
Defined.

Lemma retry_wait_cases (w : wait_env) (c : WebSocketClient) (tr : trace) :
  ConnMutex c = false ->
  (exists p, retry_wait w c tr = Panicked p c tr)
  \/ (exists wk c' added,
        retry_wait w c tr = Returned wk c' (tr ++ added)
        /\ ConnMutex c' = false
        /\ settings c' = settings c
        /\ handler_attempts added = []
        /\ dial_count added = 0%nat).
Proof.
  intros HM. unfold retry_wait.
  destruct (concurrent_Disconnect w) as [r|].
  - destruct (StopReconnect c) eqn:HS.
    + left. eexists. unfold bind, Disconnect, bind, close_StopReconnect.
      rewrite HS. reflexivity.
    + right. unfold bind at 1. unfold bind at 1.
      rewrite (Disconnect_open r c tr HS HM). unfold ret, bind, get.
      do 3 eexists. split; [ reflexivity | ].
      repeat split; try assumption; now destruct (Conn c).
    + left. eexists. unfold bind, Disconnect, bind, close_StopReconnect.
      rewrite HS. reflexivity.
  - right. exists (select_wake w (StopReconnect c)), c, [].
    rewrite app_nil_r. repeat split; assumption.
Qed.

Lemma reconnect_loop_bounded (env : nat -> attempt_env) (m : nat) :
  forall (i fuel : nat) (c : WebSocketClient) (tr : trace),
    MaxRetries c < Int64.max_int ->
    Z.of_nat i <= Z.max 0 (MaxRetries c) ->
    Z.max 0 (MaxRetries c) - Z.of_nat i = Z.of_nat m ->
    (m < fuel)%nat ->
    ends_with
      (fun c' tr' =>
         exists added k,
           tr' = tr ++ added
           /\ Z.of_nat (i + k) <= Z.max 0 (MaxRetries c)
           /\ handler_attempts added =
              (if ReconnectionHandler c then attempts_from i k else [])
           /\ (dial_count added <= k)%nat
           /\ settings c' = settings c)
      (reconnect_loop fuel env i (Z.of_nat i) c tr).
Proof.
  induction m as [|m IH]; intros i fuel c tr Hmax Hi Hm Hfuel;
    (destruct fuel as [|fuel]; [ lia | ]);
    assert (Hinc : int_incr (Z.of_nat i) = Z.of_nat (S i))
      by (rewrite int_incr_small; [ lia | unfold Int64.min_int, Int64.max_int in *; lia ]).
  - rewrite reconnect_loop_exhausted by (rewrite Hinc; lia).
    cbn. exists [EvPrintln "Max retries reached. Stopping reconnection attempts."], 0%nat.
    rewrite Nat.add_0_r.
    split; [ reflexivity | split; [ lia | split; [ | split; [ cbn; lia | reflexivity ] ] ] ].
    now destruct (ReconnectionHandler c).
  - rewrite reconnect_loop_attempt by (rewrite Hinc; lia). rewrite Hinc.
    assert (Hone : handler_attempts (announce c (Z.of_nat (S i))) =
                   (if ReconnectionHandler c then attempts_from i 1 else []))
      by (rewrite handler_attempts_announce; reflexivity).
    destruct (ConnMutex c) eqn:HM.
    + rewrite Connect_locked by assumption. cbn.
      exists (announce c (Z.of_nat (S i))), 1%nat.
      repeat split; try lia; try assumption.
      rewrite dial_count_announce. lia.
    + destruct (Connect_run (att_connect (env i)) c HM)
        as (r & c1 & added1 & Hany & HM1 & Hset1 & _ & _ & Hd1 & Hh1).
      rewrite Hany.
      destruct r as [err|].
      * unfold after_failure, bind.
        destruct (retry_wait_cases (att_wait (env i)) c1
                    ((tr ++ announce c (Z.of_nat (S i))) ++ added1) HM1)
          as [[p Hp]|(wk & c2 & added2 & Hw & HM2 & Hset2 & Hh2 & Hd2)].
        -- rewrite Hp. cbn.
           exists (announce c (Z.of_nat (S i)) ++ added1), 1%nat.
           rewrite <- app_assoc. repeat split; try lia; try assumption.
           ++ rewrite handler_attempts_app, Hone, Hh1. now rewrite app_nil_r.
           ++ rewrite dial_count_app, dial_count_announce. lia.
        -- rewrite Hw. destruct wk.
           ++ assert (Hs : settings c2 = settings c) by congruence.
              pose proof (settings_MaxRetries _ _ Hs) as HR2.
              pose proof (settings_ReconnectionHandler _ _ Hs) as HH2.
              specialize (IH (S i) fuel c2
                            (((tr ++ announce c (Z.of_nat (S i))) ++ added1) ++ added2)).
              rewrite HR2, HH2 in IH.
              specialize (IH Hmax ltac:(lia) ltac:(lia) ltac:(lia)).
              destruct (reconnect_loop fuel env (S i) (Z.of_nat (S i)) c2 _)
                as [x c3 tr3|p c3 tr3|c3 tr3|]; cbn in IH |- *; try contradiction;
                destruct IH as (added3 & k & Htr & Hk & Hh3 & Hd3 & Hs3);
                exists (announce c (Z.of_nat (S i)) ++ added1 ++ added2 ++ added3), (S k);
                (repeat split;
                 [ rewrite Htr; now rewrite <- !app_assoc
                 | lia
                 | rewrite !handler_attempts_app, Hone, Hh1, Hh2, Hh3, attempts_from_cons;
                   now destruct (ReconnectionHandler c)
                 | rewrite !dial_count_app, dial_count_announce, Hd2; lia
                 | congruence ]).
           ++ cbn.
              exists (announce c (Z.of_nat (S i)) ++ added1 ++ added2
                      ++ [EvPrintln "Reconnect stopped."]), 1%nat.
              repeat split; try lia.
              ** now rewrite <- !app_assoc.
              ** rewrite !handler_attempts_app, Hone, Hh1, Hh2. cbn.
                 now rewrite !app_nil_r.
              ** rewrite !dial_count_app, dial_count_announce, Hd2. cbn. lia.
              ** congruence.
      * cbn.
        exists (announce c (Z.of_nat (S i)) ++ added1
                ++ [EvPrintln "Successfully reconnected to WebSocket."]), 1%nat.
        repeat split; try lia; try assumption.
        -- now rewrite <- !app_assoc.
        -- rewrite !handler_attempts_app, Hone, Hh1. cbn. now rewrite !app_nil_r.
        -- rewrite !dial_count_app, dial_count_announce. cbn. lia.
Qed.

(** X8.  Whatever the network does and whenever somebody disconnects,
    [reconnect] with [MaxRetries] below the largest [int] ends, and by
    then it has announced the attempts 1, ..., [k] in this order for some
    [k] not above [MaxRetries], has dialled at most [k] times and has
    changed no setting of the client. *)
Theorem reconnect_never_exceeds_MaxRetries
    (env : nat -> attempt_env) (c : WebSocketClient) (tr : trace) (fuel : nat) :
  MaxRetries c < Int64.max_int ->
  (Z.to_nat (MaxRetries c) < fuel)%nat ->
  ends_with
    (fun c' tr' =>
       exists added k,
         tr' = tr ++ added
         /\ Z.of_nat k <= Z.max 0 (MaxRetries c)
         /\ handler_attempts added =
            (if ReconnectionHandler c then attempts_from 0 k else [])
         /\ (dial_count added <= k)%nat
         /\ settings c' = settings c)
    (reconnect fuel env c tr).
Proof.
  intros Hmax Hfuel. unfold reconnect. change 0 with (Z.of_nat 0).
  apply (reconnect_loop_bounded env (Z.to_nat (MaxRetries c))); try assumption; lia.
Qed.

Lemma reconnect_never_exceeds_MaxRetries_witness :
  ends_with
    (fun c' tr' =>
       exists added k,
         tr' = [] ++ added
         /\ Z.of_nat k <= Z.max 0 (MaxRetries sample_client)
         /\ handler_attempts added =
            (if ReconnectionHandler sample_client then attempts_from 0 k else [])
         /\ (dial_count added <= k)%nat
         /\ settings c' = settings sample_client)
    (reconnect 6 (refused_then_cancelled 2) sample_client []).
Proof.
  apply (reconnect_never_exceeds_MaxRetries (refused_then_cancelled 2) sample_client [] 6).
  - unfold Int64.max_int. simpl. lia.
  - simpl. lia.
Defined.

(** ** The receive loop again *)

Lemma read_loop_run (lib : libraries) (err : error) (msgs : list string) :
  forall (c : WebSocketClient) (tr : trace) (h : conn),
    Conn c = Some h ->
    read_loop lib msgs None err c tr =
    Returned tt c (tr ++ flat_map (handle_message lib c) msgs ++ [read_error_line err]).
Proof.
  induction msgs as [|msgStr rest IH]; intros c tr h HC.
  - cbn [read_loop flat_map app]. unfold bind, get, ret, emit. now rewrite HC.
  - cbn [read_loop flat_map]. unfold bind at 1, get. rewrite HC.
    unfold bind, emit_all. rewrite (IH c _ h HC). now rewrite <- !app_assoc.
Qed.

Lemma callbacks_app (a b : trace) : callbacks (a ++ b) = callbacks a ++ callbacks b.
Proof. unfold callbacks. apply filter_app. Qed.

Lemma callbacks_flat_map (f : string -> trace) (msgs : list string) :
  callbacks (flat_map f msgs) = flat_map (fun m => callbacks (f m)) msgs.
Proof.
  induction msgs as [|m rest IH]; [ reflexivity | ].
  cbn [flat_map]. now rewrite callbacks_app, IH.
Qed.

(** X9.  The receive loop handles the messages in the order they arrive,
    each one completely before the next, and ends at the first read
    error, which it prints; the handlers are called for the messages
    only. *)
Theorem read_loop_handles_messages_in_order
    (lib : libraries) (err : error) (msgs : list string)
    (c : WebSocketClient) (tr : trace) (h : conn) :
  Conn c = Some h ->
  exists added,
    read_loop lib msgs None err c tr = Returned tt c (tr ++ added)
    /\ added = flat_map (handle_message lib c) msgs ++ [read_error_line err]
    /\ callbacks added = flat_map (fun m => callbacks (handle_message lib c m)) msgs.
Proof.
  intros HC. eexists. split; [ apply (read_loop_run lib err msgs c tr h HC) | ].
  split; [ reflexivity | ].
  rewrite callbacks_app, callbacks_flat_map. cbn. now rewrite app_nil_r.
Qed.

Lemma read_loop_handles_messages_in_order_witness :
  exists added,
    read_loop (go_libraries time.UTC)
      [notice_frame "connected" "ok"; "PONG"%string; quote_frame "1700000000123"]
      None broken_pipe connected_client [] = Returned tt connected_client ([] ++ added)
    /\ added = flat_map (handle_message (go_libraries time.UTC) connected_client)
                 [notice_frame "connected" "ok"; "PONG"%string; quote_frame "1700000000123"]
               ++ [read_error_line broken_pipe]
    /\ callbacks added =
       flat_map (fun m => callbacks (handle_message (go_libraries time.UTC)
                                       connected_client m))
         [notice_frame "connected" "ok"; "PONG"%string; quote_frame "1700000000123"].
Proof.
  apply (read_loop_handles_messages_in_order (go_libraries time.UTC) broken_pipe
           [notice_frame "connected" "ok"; "PONG"%string; quote_frame "1700000000123"]
           connected_client [] 1%nat).
  reflexivity.
Defined.

(** X10.  With [AutoReconnect] off the receive loop ends for good at
    the read error: it closes the handle once, clears it, and never
    dials. *)
Theorem wsReadPump_without_AutoReconnect
    (lib : libraries) (e : pump_env) (c : WebSocketClient) (tr : trace) (h : conn) :
  Conn c = Some h -> ConnMutex c = false -> AutoReconnect c = false ->
  pump_Disconnect e = None ->
  wsReadPump lib e c tr =
    Returned tt (with_Conn None c)
      (tr ++ flat_map (handle_message lib c) (messages e)
          ++ [read_error_line (read_error e); EvClose h])
  /\ dial_count (flat_map (handle_message lib c) (messages e)
                 ++ [read_error_line (read_error e); EvClose h]) = 0%nat
  /\ close_count [read_error_line (read_error e); EvClose h] = 1%nat.
Proof.
  intros HC HM HA HD. split; [ | split; [ | reflexivity ] ].
  - unfold wsReadPump, defer. rewrite HD, (read_loop_run lib _ _ c tr h HC).
    unfold teardown, bind, Lock, get, emit, modify, Unlock, ret. rewrite HM.
    cbn. rewrite HC. cbn. rewrite HA.
    rewrite <- !app_assoc. cbn. f_equal.
    destruct c; cbn in *; subst; reflexivity.
  - rewrite dial_count_app. cbn. rewrite Nat.add_0_r.
    induction (messages e) as [|m rest IH]; [ reflexivity | ].
    cbn [flat_map]. rewrite dial_count_app, IH, Nat.add_0_r.
    unfold handle_message.
    repeat match goal with
           | |- context [if ?b then _ else _] => destruct b
           | |- context [let (_, _) := ?x in _] => destruct x
           | |- context [match ?x with inl _ => _ | inr _ => _ end] => destruct x
           | |- context [match ?x with Some _ => _ | None => _ end] => destruct x
           end; reflexivity.
Qed.

Lemma wsReadPump_without_AutoReconnect_witness :
  wsReadPump (go_libraries time.UTC)
    (mkPumpEnv ["PONG"%string] None broken_pipe 0 always_refused)
    (EnableAutoReconnect false connected_client) [] =
    Returned tt (with_Conn None (EnableAutoReconnect false connected_client))
      ([] ++ flat_map (handle_message (go_libraries time.UTC)
                         (EnableAutoReconnect false connected_client))
               (messages (mkPumpEnv ["PONG"%string] None broken_pipe 0 always_refused))
          ++ [read_error_line
                (read_error (mkPumpEnv ["PONG"%string] None broken_pipe 0 always_refused));
              EvClose 1%nat])
  /\ dial_count
       (flat_map (handle_message (go_libraries time.UTC)
                    (EnableAutoReconnect false connected_client))
          (messages (mkPumpEnv ["PONG"%string] None broken_pipe 0 always_refused))
        ++ [read_error_line
              (read_error (mkPumpEnv ["PONG"%string] None broken_pipe 0 always_refused));
            EvClose 1%nat]) = 0%nat
  /\ close_count
       [read_error_line
          (read_error (mkPumpEnv ["PONG"%string] None broken_pipe 0 always_refused));
        EvClose 1%nat] = 1%nat.
Proof.
  apply (wsReadPump_without_AutoReconnect (go_libraries time.UTC)
           (mkPumpEnv ["PONG"%string] None broken_pipe 0 always_refused)
           (EnableAutoReconnect false connected_client) [] 1%nat); reflexivity.
Defined.

(** X11.  With [AutoReconnect] on, after the read error the receive loop
    closes the old handle and reconnects; when the first dial succeeds the
    authentication frame is written again to the new handle, after one
    announced attempt. *)
Theorem wsReadPump_reconnects_and_resends
    (lib : libraries) (e : pump_env) (c : WebSocketClient) (tr : trace)
    (h h' : conn) (fuel : nat) :
  Conn c = Some h -> ConnMutex c = false -> AutoReconnect c = true ->
  pump_Disconnect e = None -> retry_fuel e = S fuel ->
  1 <= MaxRetries c ->
  dial_result (att_connect (retry_env e 0%nat)) = inl h' ->
  write_result (att_connect (retry_env e 0%nat)) = None ->
  wsReadPump lib e c tr =
  Returned tt (with_Conn (Some h') c)
    (tr ++ flat_map (handle_message lib c) (messages e)
        ++ [read_error_line (read_error e); EvClose h]
        ++ announce c 1
        ++ [EvDial wsURL; EvGo_wsReadPump;
            EvWriteMessage h' TextMessage (auth_frame (APIKey c) (Symbol c));
            EvPrintln "Successfully reconnected to WebSocket."]).
Proof.
  intros HC HM HA HD HF HR Hdial Hwrite.
  unfold wsReadPump, defer. rewrite HD, HF, (read_loop_run lib _ _ c tr h HC).
  unfold teardown. unfold bind at 1. unfold Lock. rewrite HM.
  unfold bind at 1. unfold bind at 1. unfold get at 1. cbn [Conn with_ConnMutex].
  rewrite HC. unfold emit at 1. unfold bind at 1. unfold modify. unfold bind at 1.
  unfold Unlock. cbn [ConnMutex with_Conn with_ConnMutex].
  unfold bind at 1. unfold get. cbn [AutoReconnect with_ConnMutex with_Conn].
  rewrite HA. unfold bind, reconnect.
  rewrite reconnect_loop_attempt by (rewrite int_incr_0; exact HR).
  rewrite int_incr_0.
  rewrite (Connect_dialled _ _ _ h') by (try reflexivity; exact Hdial).
  rewrite Hwrite. unfold ret. cbn [APIKey Symbol with_ConnMutex with_Conn].
  f_equal.
  - destruct c; cbn in *; subst; reflexivity.
  - unfold announce. cbn [ReconnectionHandler MaxRetries with_ConnMutex with_Conn].
    rewrite <- !app_assoc. reflexivity.
Qed.

Lemma wsReadPump_reconnects_and_resends_witness :
  wsReadPump (go_libraries time.UTC)
    (mkPumpEnv [] None broken_pipe 1 (refused_then_accepted 0 2%nat))
    connected_client [] =
  Returned tt (with_Conn (Some 2%nat) connected_client)
    ([] ++ flat_map (handle_message (go_libraries time.UTC) connected_client)
             (messages (mkPumpEnv [] None broken_pipe 1 (refused_then_accepted 0 2%nat)))
        ++ [read_error_line
              (read_error (mkPumpEnv [] None broken_pipe 1 (refused_then_accepted 0 2%nat)));
            EvClose 1%nat]
        ++ announce connected_client 1
        ++ [EvDial wsURL; EvGo_wsReadPump;
            EvWriteMessage 2%nat TextMessage
              (auth_frame (APIKey connected_client) (Symbol connected_client));
            EvPrintln "Successfully reconnected to WebSocket."]).
Proof.
  apply (wsReadPump_reconnects_and_resends (go_libraries time.UTC)
           (mkPumpEnv [] None broken_pipe 1 (refused_then_accepted 0 2%nat))
           connected_client [] 1%nat 2%nat 0); try reflexivity.
  simpl. lia.
Defined.

(** ** One message *)

(** X12.  Handling a message never dials, writes, closes a handle or
    calls the reconnection handler; it calls at most one handler, and
    none when neither the connected handler nor the message handler is
    set. *)
Theorem handle_message_effects
    (lib : libraries) (c : WebSocketClient) (msgStr : string) :
  dial_count (handle_message lib c msgStr) = 0%nat
  /\ written (handle_message lib c msgStr) = []
  /\ close_count (handle_message lib c msgStr) = 0%nat
  /\ handler_attempts (handle_message lib c msgStr) = []
  /\ (List.length (callbacks (handle_message lib c msgStr)) <= 1)%nat
  /\ (ConnectedHandler c = false -> MessageHandler c = false ->
      callbacks (handle_message lib c msgStr) = []).
Proof.
  unfold handle_message.
  repeat match goal with
         | |- context [if ?b then _ else _] => destruct b
         | |- context [let (_, _) := ?x in _] => destruct x
         | |- context [match ?x with inl _ => _ | inr _ => _ end] => destruct x
         | |- context [match ?x with Some _ => _ | None => _ end] => destruct x
         end;
    cbn; repeat split; auto; try discriminate.
Qed.

(** X13.  A structured message that decodes as a connected notice goes
    to the connected handler only: the message handler is not called for
    it, also when the message carries the members of a quote. *)
Theorem connected_notice_is_never_a_quote
    (lib : libraries) (c : WebSocketClient) (msgStr : string) :
  looks_like_json msgStr = true ->
  connected_notice lib msgStr = true ->
  handle_message lib c msgStr =
    (if ConnectedHandler c
     then [EvConnectedHandler (fst (Unmarshal_ConnectedMessage lib msgStr))]
     else [])
  /\ (forall q ts, ~ In (EvMessageHandler q ts) (handle_message lib c msgStr)).
Proof.
  intros HJ HN. unfold handle_message. rewrite HJ.
  unfold connected_notice in HN.
  destruct (Unmarshal_ConnectedMessage lib msgStr) as [cm err].
  rewrite HN. cbn [fst]. split; [ reflexivity | ].
  intros q ts. destruct (ConnectedHandler c); cbn; [ intros [H|[]]; discriminate | tauto ].
Qed.

Lemma connected_notice_is_never_a_quote_witness :
  handle_message (go_libraries time.UTC) sample_client (connected_with_ts "1700000000123") =
    (if ConnectedHandler sample_client
     then [EvConnectedHandler
             (fst (Unmarshal_ConnectedMessage (go_libraries time.UTC)
                     (connected_with_ts "1700000000123")))]
     else [])
  /\ (forall q ts,
        ~ In (EvMessageHandler q ts)
             (handle_message (go_libraries time.UTC) sample_client
                (connected_with_ts "1700000000123"))).
Proof.
  apply (connected_notice_is_never_a_quote (go_libraries time.UTC) sample_client
           (connected_with_ts "1700000000123")); vm_compute; reflexivity.
Defined.

(** ** Timestamps before the epoch *)

Lemma Unix_of_negative_millis (T : Z) :
  - max_millis <= T < 0 ->
  time.Unix 0 (Int64.mul T Millisecond) = time.mkTime (T / 1000) (T mod 1000 * 1000000).
Proof.
  unfold max_millis, Millisecond, Int64.mul. intros H.
  rewrite Int64_wrap_small by (unfold Int64.min_int, Int64.max_int; lia).
  unfold time.Unix.
  assert (Hneg : (T * 1000000 <? 0) = true) by (apply Z.ltb_lt; lia).
  rewrite Hneg, orb_true_l. cbv zeta.
  pose proof (Z.quot_rem' (T * 1000000) 1000000000) as Hqr.
  pose proof (Z.rem_bound_pos_neg (T * 1000000) 1000000000 ltac:(lia) ltac:(lia)) as Hrb.
  pose proof (Z.div_mod T 1000 ltac:(lia)) as Hdm.
  pose proof (Z.mod_pos_bound T 1000 ltac:(lia)) as Hb.
  set (q := Z.quot (T * 1000000) 1000000000) in *.
  set (r := Z.rem (T * 1000000) 1000000000) in *.
  assert (Hn : T * 1000000 - q * 1000000000 = r) by lia.
  rewrite Hn.
  assert (Hq : Int64.add 0 q = q).
  { unfold Int64.add. rewrite Z.add_0_l. apply Int64_wrap_small.
    unfold Int64.min_int, Int64.max_int. lia. }
  rewrite Hq.
  destruct (Z.ltb_spec r 0) as [Hr|Hr].
  - assert (Hq1 : Int64.add q (-1) = q - 1).
    { unfold Int64.add. apply Int64_wrap_small.
      unfold Int64.min_int, Int64.max_int. lia. }
    rewrite Hq1. f_equal; lia.
  - f_equal; lia.
Qed.

Lemma fraction_of_Format_negative (loc : time.Location) (T : Z) :
  - max_millis <= T < 0 ->
  fraction (time.Format loc (time.Unix 0 (Int64.mul T Millisecond))) = Some (T mod 1000).
Proof.
  intros H. rewrite Unix_of_negative_millis by assumption.
  unfold fraction, time.Format, time.appendNano3. simpl time.t_nsec.
  rewrite after_point_append by apply date_clock_no_point.
  rewrite fraction_digits; [ reflexivity | apply Z.mod_pos_bound; lia ].
Qed.

(** X14.  For a quote whose timestamp is a negative number of
    milliseconds (down to the bound of the nanosecond range) the handler
    gets the time before 1970 with the fraction [T mod 1000], between 0
    and 999: one millisecond before the epoch reads [.999]. *)
Theorem quote_timestamp_before_epoch
    (lib : libraries) (c : WebSocketClient) (msgStr : string) (q : QuoteMessage) (T : Z) :
  looks_like_json msgStr = true ->
  connected_notice lib msgStr = false ->
  Unmarshal_QuoteMessage lib msgStr = (q, None) ->
  strconv.ParseInt (Ts q) = inl T ->
  - max_millis <= T < 0 ->
  handle_message lib c msgStr =
    (if MessageHandler c then [EvMessageHandler q (human_timestamp lib T)] else [])
  /\ fraction (human_timestamp lib T) = Some (T mod 1000)
  /\ 0 <= T mod 1000 < 1000.
Proof.
  intros HJ HN HQ HT HR. split; [ | split ].
  - apply handle_message_quote; assumption.
  - apply fraction_of_Format_negative. assumption.
  - apply Z.mod_pos_bound. lia.
Qed.

Lemma quote_timestamp_before_epoch_witness :
  handle_message (go_libraries time.UTC) sample_client (quote_frame "-1") =
    (if MessageHandler sample_client
     then [EvMessageHandler
             (mkQuote "EURUSD" (Float64 "1.1") (Float64 "1.2") (Float64 "1.15") "-1")
             (human_timestamp (go_libraries time.UTC) (-1))]
     else [])
  /\ fraction (human_timestamp (go_libraries time.UTC) (-1)) = Some (-1 mod 1000)
  /\ 0 <= -1 mod 1000 < 1000.
Proof.
  apply (quote_timestamp_before_epoch (go_libraries time.UTC) sample_client
           (quote_frame "-1")
           (mkQuote "EURUSD" (Float64 "1.1") (Float64 "1.2") (Float64 "1.15") "-1")
           (-1));
    [ vm_compute; reflexivity | vm_compute; reflexivity | vm_compute; reflexivity
    | vm_compute; reflexivity | unfold max_millis; lia ].
Defined.

Example timestamp_one_millisecond_before_epoch :
  human_timestamp (go_libraries time.UTC) (-1) = "1969-12-31 23:59:59.999"%string.
Proof. vm_compute. reflexivity. Qed.

(** ** The constructor and the setters *)

(** X29.  [SetSymbol] only stores the symbol: the server hears of it at
    the next dial.  A [Connect] after it writes nothing when the client
    holds a handle or the dial fails, and writes the frame with the key
    and the new symbol when it dials. *)
Theorem SetSymbol_is_sent_at_the_next_dial
    (e : connect_env) (c : WebSocketClient) (tr : trace) (symbol : string) :
  ConnMutex c = false ->
  exists r c' added,
    Connect e (SetSymbol symbol c) tr = Returned r c' (tr ++ added)
    /\ written added =
       match Conn c, dial_result e with
       | None, inl _ => [auth_frame (APIKey c) symbol]
       | _, _ => []
       end
    /\ Symbol c' = symbol.
Proof.
  intros HM.
  destruct (Conn c) as [h|] eqn:HC.
  - exists None, (SetSymbol symbol c), [].
    rewrite app_nil_r, (Connect_installed e (SetSymbol symbol c) tr h HC HM).
    repeat split.
  - destruct (dial_result e) as [h|derr] eqn:HD.
    + do 3 eexists. rewrite (Connect_dialled e (SetSymbol symbol c) tr h HC HM HD).
      repeat split.
    + do 3 eexists. rewrite (Connect_refused e (SetSymbol symbol c) tr derr HC HM HD).
      repeat split.
Qed.

Lemma SetSymbol_is_sent_at_the_next_dial_witness :
  exists r c' added,
    Connect (mkConnectEnv (inl 1%nat) None) (SetSymbol "XAUUSD" sample_client) []
    = Returned r c' ([] ++ added)
    /\ written added =
       match Conn sample_client, dial_result (mkConnectEnv (inl 1%nat) None) with
       | None, inl _ => [auth_frame (APIKey sample_client) "XAUUSD"]
       | _, _ => []
       end
    /\ Symbol c' = "XAUUSD"%string.
Proof.
  apply (SetSymbol_is_sent_at_the_next_dial
           (mkConnectEnv (inl 1%nat) None) sample_client [] "XAUUSD").
  reflexivity.
Defined.



(** ** The request/response client: facts *)

Lemma string_append_assoc (a b c : string) :
  String.append (String.append a b) c = String.append a (String.append b c).
Proof. induction a as [|ch a IH]; simpl; [ reflexivity | now rewrite IH ]. Qed.

Lemma string_append_nil_r (a : string) : String.append a EmptyString = a.
Proof. induction a as [|ch a IH]; simpl; [ reflexivity | now rewrite IH ]. Qed.

Lemma joinStrings_loop_concat (strs : list string) :
  forall (i : nat) (result : string),
    rest.joinStrings_loop i strs result =
    String.append result
      match strs with
      | [] => EmptyString
      | _ :: _ => String.append (if Nat.ltb 0 i then "," else EmptyString)
                                (String.concat "," strs)
      end.
Proof.
  induction strs as [|s strs IH]; intros i result.
  - simpl. now rewrite string_append_nil_r.
  - cbn [rest.joinStrings_loop]. rewrite IH.
    change (Nat.ltb 0 (S i)) with true.
    destruct strs as [|s' strs].
    + cbn [String.concat]. rewrite string_append_nil_r.
      destruct (Nat.ltb 0 i); [ | reflexivity ].
      now rewrite !string_append_assoc.
    + change (String.concat "," (s :: s' :: strs))
        with (String.append s (String.append "," (String.concat "," (s' :: strs)))).
      destruct (Nat.ltb 0 i); now rewrite !string_append_assoc.
Qed.

Lemma joinStrings_concat (strs : list string) :
  rest.joinStrings strs = String.concat "," strs.
Proof.
  unfold rest.joinStrings. rewrite joinStrings_loop_concat.
  destruct strs; reflexivity.
Qed.

(** X15.  [joinStrings] gives the elements of the list in their order
    with one comma between two neighbours, none before the first and none
    after the last; the empty list gives the empty string. *)
Theorem joinStrings_is_concat (strs : list string) :
  rest.joinStrings strs = String.concat "," strs.
Proof.
  unfold rest.joinStrings. rewrite joinStrings_loop_concat.
  destruct strs as [|s strs]; [ reflexivity | ].
  change (Nat.ltb 0 0) with false. reflexivity.
Qed.

Lemma formatErrorMap_fold (w : rest.world) (entries : list (string * json.value)) :
  forall acc : string,
    fold_left
      (fun formattedErrors kv =>
         String.append formattedErrors
           (cat [fst kv; ": "; rest.Sprint_v w (snd kv); "; "]%string))
      entries acc =
    String.append acc
      (cat (map (fun kv => cat [fst kv; ": "; rest.Sprint_v w (snd kv); "; "]%string)
                entries)).
Proof.
  induction entries as [|kv entries IH]; intros acc.
  - simpl. now rewrite string_append_nil_r.
  - cbn [fold_left map]. rewrite IH.
    change (cat (?x :: ?l)) with (String.append x (cat l)).
    now rewrite string_append_assoc.
Qed.

(** X16.  [formatErrorMap] prints the entries one after the other, each
    as key, colon, space, value, semicolon, space: the last entry too is
    followed by a semicolon and a space.  The nil map gives the empty
    string. *)
Theorem formatErrorMap_entries (w : rest.world) (entries : list (string * json.value)) :
  rest.formatErrorMap w None = EmptyString
  /\ rest.formatErrorMap w (Some entries) =
     cat (map (fun kv => cat [fst kv; ": "; rest.Sprint_v w (snd kv); "; "]%string)
              entries).
Proof.
  split; [ reflexivity | ].
  unfold rest.formatErrorMap. now rewrite formatErrorMap_fold.
Qed.

(** *** Spaces in a URL *)

Lemma ReplaceAll_append (a b : string) (old : ascii) (new : string) :
  rest.ReplaceAll (String.append a b) old new =
  String.append (rest.ReplaceAll a old new) (rest.ReplaceAll b old new).
Proof.
  induction a as [|ch a IH]; [ reflexivity | ].
  cbn [String.append rest.ReplaceAll]. rewrite IH.
  destruct (Ascii.eqb ch old); [ | reflexivity ].
  now rewrite string_append_assoc.
Qed.

Lemma ReplaceAll_no_space (s new : string) :
  no_space new = true -> no_space (rest.ReplaceAll s " " new) = true.
Proof.
  intros Hnew. unfold no_space in *.
  induction s as [|ch s IH]; [ reflexivity | ].
  cbn [rest.ReplaceAll].
  destruct (Ascii.eqb ch " ") eqn:E.
  - now rewrite all_chars_append, Hnew, IH.
  - cbn [all_chars]. now rewrite E, IH.
Qed.

(** *** The steps the four methods share *)

Lemma map_outcome_request {V U : Type} (f : V -> U) (w : rest.world) (url : string)
      (on_status : Z -> string -> rest.rest_error)
      (decode : string -> V * option error) :
  rest.map_outcome f (rest.request w url on_status decode) =
  rest.request w url on_status (fun body => (f (fst (decode body)), snd (decode body))).
Proof.
  unfold rest.request, rest.map_outcome.
  destruct (rest.http w url) as [resp|err]; [ | reflexivity ].
  cbn [rest.calls rest.returned]. f_equal.
  destruct (rest.Body resp) as [body|err]; [ | reflexivity ].
  destruct (negb (rest.StatusCode resp =? rest.StatusOK)); [ reflexivity | ].
  unfold rest.decode_ok.
  destruct (rest.Unmarshal_ErrorResponseOK w body) as [eo err].
  destruct (is_nil err && negb (rest.Error eo =? 0)); [ reflexivity | ].
  destruct (decode body) as [v [e|]]; reflexivity.
Qed.

Lemma request_calls {V : Type} (w : rest.world) (url : string)
      (on_status : Z -> string -> rest.rest_error)
      (decode : string -> V * option error) :
  rest.calls (rest.request w url on_status decode) =
  match rest.http w url with
  | inl _ => [rest.Get url; rest.BodyClose]
  | inr _ => [rest.Get url]
  end.
Proof. unfold rest.request. now destruct (rest.http w url). Qed.

Lemma request_returned {V : Type} (w : rest.world) (url : string)
      (on_status : Z -> string -> rest.rest_error)
      (decode : string -> V * option error) :
  rest.returned (rest.request w url on_status decode) =
  match rest.http w url with
  | inr err => inr (rest.FromLibrary err)
  | inl resp =>
      match rest.Body resp with
      | inr err => inr (rest.Errorf "failed to read response body: %v" [rest.OpError err])
      | inl body =>
          if negb (rest.StatusCode resp =? rest.StatusOK)
          then inr (on_status (rest.StatusCode resp) body)
          else rest.decode_ok w decode body
      end
  end.
Proof. unfold rest.request. now destruct (rest.http w url). Qed.

(** What a call is: a validation error without a request, or the shared
    steps for one URL without a space. *)
Lemma invoke_cases (w : rest.world) (c : rest.RESTClient) (i : invocation) :
  (exists format args,
      invoke w c i = rest.mkOutcome [] (inr (rest.Errorf format args)))
  \/ (exists url on_status decode,
         no_space url = true
         /\ invoke w c i = rest.request (V:=unit) w url on_status decode).
Proof.
  destruct i as [currencies | currency dateTime interval
                 | currency startDate endDate interval period | from to amount];
    cbn [invoke].
  - right. unfold rest.GetLiveRates. cbv zeta. rewrite map_outcome_request.
    eexists _, _, _. split; [ | reflexivity ]. now apply ReplaceAll_no_space.
  - unfold rest.GetHistoricalRates, rest.sendHistoricalRequest. cbv zeta.
    destruct (String.eqb interval "minute");
      [ | destruct (String.eqb interval "hour");
          [ | destruct (String.eqb interval "day") ] ].
    4: { left. eexists _, _. reflexivity. }
    all: right; rewrite !map_outcome_request;
      eexists _, _, _; (split; [ | reflexivity ]); now apply ReplaceAll_no_space.
  - unfold rest.GetTimeSeriesData.
    destruct (rest.timeseries_URL c currency startDate endDate interval period)
      as [URL|[e|format args]] eqn:E.
    + right. cbv zeta. rewrite map_outcome_request.
      eexists _, _, _. split; [ | reflexivity ]. now apply ReplaceAll_no_space.
    + exfalso. unfold rest.timeseries_URL in E. cbv zeta in E.
      repeat match type of E with
             | (if ?b then _ else _) = _ => destruct b
             | match ?p with [] => _ | _ :: _ => _ end = _ => destruct p
             end; discriminate E.
    + left. eexists _, _. reflexivity.
  - right. unfold rest.ConvertCurrency. cbv zeta. rewrite map_outcome_request.
    eexists _, _, _. split; [ | reflexivity ]. now apply ReplaceAll_no_space.
Qed.

(** X17.  No method ever asks for a URL with a space in it, whatever the
    arguments and the key are. *)
Theorem requested_URLs_have_no_space
    (w : rest.world) (c : rest.RESTClient) (i : invocation) :
  forallb no_space (requested (rest.calls (invoke w c i))) = true.
Proof.
  destruct (invoke_cases w c i) as [(format & args & E)|(url & os & dec & Hurl & E)];
    rewrite E; [ reflexivity | ].
  rewrite request_calls.
  destruct (rest.http w url); cbn [requested flat_map app forallb]; now rewrite Hurl.
Qed.

(** X18.  A method makes at most one request.  When it makes none it
    returns an error of its own.  When the request fails, the error of
    the HTTP client is returned as it is and nothing is closed.  When
    there is a response, its body is closed exactly once, after the
    request, whatever the method returns. *)
Theorem at_most_one_request_and_body_closed
    (w : rest.world) (c : rest.RESTClient) (i : invocation) :
  (rest.calls (invoke w c i) = []
   /\ exists format args, rest.returned (invoke w c i) = inr (rest.Errorf format args))
  \/ (exists url err,
         rest.http w url = inr err
         /\ rest.calls (invoke w c i) = [rest.Get url]
         /\ rest.returned (invoke w c i) = inr (rest.FromLibrary err))
  \/ (exists url resp,
         rest.http w url = inl resp
         /\ rest.calls (invoke w c i) = [rest.Get url; rest.BodyClose]).
Proof.
  destruct (invoke_cases w c i) as [(format & args & E)|(url & os & dec & Hurl & E)];
    rewrite E.
  - left. split; [ reflexivity | ]. now exists format, args.
  - right. rewrite request_calls, request_returned.
    destruct (rest.http w url) as [resp|err] eqn:H.
    + right. now exists url, resp.
    + left. now exists url, err.
Qed.

(** X19.  A method returns a value only after a response with status 200
    whose body could be read, and only when the body does not decode as
    an error response with an error code other than zero. *)
Theorem value_needs_status_200
    (w : rest.world) (c : rest.RESTClient) (i : invocation)
    (H : rest.returned (invoke w c i) = inl tt) :
  exists url resp body,
    rest.calls (invoke w c i) = [rest.Get url; rest.BodyClose]
    /\ rest.http w url = inl resp
    /\ rest.StatusCode resp = 200
    /\ rest.Body resp = inl body
    /\ (snd (rest.Unmarshal_ErrorResponseOK w body) = None ->
        rest.Error (fst (rest.Unmarshal_ErrorResponseOK w body)) = 0).
Proof.
  destruct (invoke_cases w c i) as [(format & args & E)|(url & os & dec & Hurl & E)];
    rewrite E in *; [ discriminate H | ].
  rewrite request_calls. rewrite request_returned in H.
  destruct (rest.http w url) as [resp|err] eqn:Hh; [ | discriminate H ].
  destruct (rest.Body resp) as [body|err] eqn:Hb; [ | discriminate H ].
  destruct (rest.StatusCode resp =? rest.StatusOK) eqn:Hs; [ | discriminate H ].
  apply Z.eqb_eq in Hs. cbn [negb] in H.
  exists url, resp, body. repeat split; auto.
  intros Hnil. unfold rest.decode_ok in H.
  destruct (rest.Unmarshal_ErrorResponseOK w body) as [eo err]. cbn [fst snd] in *.
  subst err. cbn [is_nil andb] in H.
  destruct (rest.Error eo =? 0) eqn:He; [ now apply Z.eqb_eq in He | discriminate H ].
Qed.

Lemma value_needs_status_200_witness :
  exists url resp body,
    rest.calls (invoke (sample_world 200 live_body) (rest.NewRESTClient "key")
                       (CallGetLiveRates ["EURUSD"%string]))
    = [rest.Get url; rest.BodyClose]
    /\ rest.http (sample_world 200 live_body) url = inl resp
    /\ rest.StatusCode resp = 200
    /\ rest.Body resp = inl body
    /\ (snd (rest.Unmarshal_ErrorResponseOK (sample_world 200 live_body) body) = None ->
        rest.Error (fst (rest.Unmarshal_ErrorResponseOK (sample_world 200 live_body) body))
        = 0).
Proof.
  apply (value_needs_status_200 (sample_world 200 live_body) (rest.NewRESTClient "key")
                                (CallGetLiveRates ["EURUSD"%string])).
  vm_compute. reflexivity.
Defined.

Lemma invoke_answered (w : rest.world) (c : rest.RESTClient) (i : invocation)
      (url : string) (resp : rest.Response) :
  rest.calls (invoke w c i) = [rest.Get url; rest.BodyClose] ->
  rest.http w url = inl resp ->
  exists on_status decode,
    invoke w c i = rest.request (V:=unit) w url on_status decode.
Proof.
  intros Hc Hh.
  destruct (invoke_cases w c i) as [(format & args & E)|(url' & os & dec & _ & E)];
    rewrite E in Hc; [ discriminate Hc | ].
  rewrite request_calls in Hc.
  assert (url' = url) by (destruct (rest.http w url'); now injection Hc).
  subst url'. now exists os, dec.
Qed.

(** X20.  In a reply with status 200 the error code of the body comes
    first: when the body decodes as an error response with a code other
    than zero, the method returns the error made of that code and its
    message, also when the body would decode as the value asked for. *)
Theorem API_error_code_comes_first
    (w : rest.world) (c : rest.RESTClient) (i : invocation)
    (url : string) (resp : rest.Response) (body : string) (eo : rest.ErrorResponseOK)
    (Hcalls : rest.calls (invoke w c i) = [rest.Get url; rest.BodyClose])
    (Hreply : rest.http w url = inl resp)
    (Hstatus : rest.StatusCode resp = 200)
    (Hbody : rest.Body resp = inl body)
    (Hdecode : rest.Unmarshal_ErrorResponseOK w body = (eo, None))
    (Hcode : rest.Error eo <> 0) :
  rest.returned (invoke w c i) =
  inr (rest.Errorf "API error: %d - %s"
                   [rest.OpInt (rest.Error eo); rest.OpString (rest.eo_Message eo)]).
Proof.
  destruct (invoke_answered w c i url resp Hcalls Hreply) as (os & dec & E).
  rewrite E, request_returned, Hreply, Hbody, Hstatus.
  change (negb (200 =? rest.StatusOK)) with false. cbv iota.
  unfold rest.decode_ok. rewrite Hdecode. cbn [is_nil andb].
  apply Z.eqb_neq in Hcode. now rewrite Hcode.
Qed.

Lemma API_error_code_comes_first_witness :
  rest.returned (invoke (sample_world 200 api_error_body) (rest.NewRESTClient "key")
                        (CallConvertCurrency "EUR" "GBP" "1000.000000")) =
  inr (rest.Errorf "API error: %d - %s" [rest.OpInt 401; rest.OpString "bad key"]).
Proof.
  apply (API_error_code_comes_first
           (sample_world 200 api_error_body) (rest.NewRESTClient "key")
           (CallConvertCurrency "EUR" "GBP" "1000.000000")
           "https://marketdata.tradermade.com/api/v1/convert?from=EUR&to=GBP&amount=1000.000000&api_key=key"
           (rest.mkResponse 200 (inl api_error_body)) api_error_body
           (rest.mkErrorResponseOK 401 "bad key")).
  - vm_compute. reflexivity.
  - reflexivity.
  - reflexivity.
  - reflexivity.
  - vm_compute. reflexivity.
  - simpl. lia.
Defined.

(** The URL of the request is the one the calls show. *)
Ltac requested_url Hcalls :=
  match type of Hcalls with
  | match rest.http _ ?u with _ => _ end = [rest.Get ?url; rest.BodyClose] =>
      let H := fresh "H" in
      assert (H : u = url) by (destruct (rest.http _ u); now injection Hcalls);
      rewrite H in *; clear H
  end.

(** X21.  For a reply with a status other than 200 every method returns
    an error.  [GetLiveRates] quotes the body in it when the body does
    not decode as an error response; the other three methods quote the
    body when it does decode, and leave it out when it does not. *)
Theorem body_quoted_for_other_status
    (w : rest.world) (c : rest.RESTClient) (i : invocation)
    (url : string) (resp : rest.Response) (body : string)
    (Hcalls : rest.calls (invoke w c i) = [rest.Get url; rest.BodyClose])
    (Hreply : rest.http w url = inl resp)
    (Hstatus : rest.StatusCode resp <> 200)
    (Hbody : rest.Body resp = inl body) :
  exists e,
    rest.returned (invoke w c i) = inr e
    /\ quotes_body e body =
       if is_GetLiveRates i
       then negb (is_nil (snd (rest.Unmarshal_ErrorResponse w body)))
       else is_nil (snd (rest.Unmarshal_ErrorResponse w body)).
Proof.
  assert (Hs : negb (rest.StatusCode resp =? rest.StatusOK) = true)
    by (apply negb_true_iff, Z.eqb_neq; exact Hstatus).
  assert (Hrefl : forall s, String.eqb s s = true) by (intros s; apply String.eqb_refl).
  destruct i as [currencies | currency dateTime interval
                 | currency startDate endDate interval period | from to amount];
    cbn [invoke is_GetLiveRates] in *.
  - unfold rest.GetLiveRates in *. cbv zeta in *.
    rewrite map_outcome_request in *. rewrite request_calls in Hcalls.
    requested_url Hcalls.
    rewrite request_returned, Hreply, Hbody, Hs.
    eexists. split; [ reflexivity | ].
    unfold rest.status_error_live.
    destruct (rest.Unmarshal_ErrorResponse w body) as [er [err|]]; cbn [snd is_nil negb].
    + cbn [quotes_body]. rewrite ?Hrefl; reflexivity.
    + reflexivity.
  - unfold rest.GetHistoricalRates, rest.sendHistoricalRequest in *. cbv zeta in *.
    destruct (String.eqb interval "minute");
      [ | destruct (String.eqb interval "hour");
          [ | destruct (String.eqb interval "day"); [ | discriminate Hcalls ] ] ].
    all: rewrite !map_outcome_request in *; rewrite request_calls in Hcalls;
      requested_url Hcalls;
      rewrite request_returned, Hreply, Hbody, Hs;
      eexists; (split; [ reflexivity | ]);
      unfold rest.status_error;
      destruct (rest.Unmarshal_ErrorResponse w body) as [er [err|]]; cbn [snd is_nil];
      [ reflexivity | cbn [quotes_body]; rewrite ?Hrefl; reflexivity ].
  - unfold rest.GetTimeSeriesData in *.
    destruct (rest.timeseries_URL c currency startDate endDate interval period)
      as [URL|e]; [ | discriminate Hcalls ].
    cbv zeta in *. rewrite map_outcome_request in *. rewrite request_calls in Hcalls.
    requested_url Hcalls.
    rewrite request_returned, Hreply, Hbody, Hs.
    eexists. split; [ reflexivity | ].
    unfold rest.status_error_series.
    destruct (rest.Unmarshal_ErrorResponse w body) as [er [err|]]; cbn [snd is_nil].
    + reflexivity.
    + cbn [quotes_body]. rewrite ?Hrefl; reflexivity.
  - unfold rest.ConvertCurrency in *. cbv zeta in *.
    rewrite map_outcome_request in *. rewrite request_calls in Hcalls.
    requested_url Hcalls.
    rewrite request_returned, Hreply, Hbody, Hs.
    eexists. split; [ reflexivity | ].
    unfold rest.status_error.
    destruct (rest.Unmarshal_ErrorResponse w body) as [er [err|]]; cbn [snd is_nil].
    + reflexivity.
    + cbn [quotes_body]. rewrite ?Hrefl; reflexivity.
Qed.

Lemma body_quoted_for_other_status_witness :
  exists e,
    rest.returned (invoke (sample_world 403 errors_body) (rest.NewRESTClient "key")
                          (CallGetLiveRates ["EURUSD"%string])) = inr e
    /\ quotes_body e errors_body =
       if is_GetLiveRates (CallGetLiveRates ["EURUSD"%string])
       then negb (is_nil (snd (rest.Unmarshal_ErrorResponse
                                 (sample_world 403 errors_body) errors_body)))
       else is_nil (snd (rest.Unmarshal_ErrorResponse
                           (sample_world 403 errors_body) errors_body)).
Proof.
  apply (body_quoted_for_other_status
           (sample_world 403 errors_body) (rest.NewRESTClient "key")
           (CallGetLiveRates ["EURUSD"%string])
           "https://marketdata.tradermade.com/api/v1/live?currency=EURUSD&api_key=key"
           (rest.mkResponse 403 (inl errors_body)) errors_body).
  - vm_compute. reflexivity.
  - reflexivity.
  - simpl. lia.
  - reflexivity.
Defined.

(** *** The validation of [GetTimeSeriesData] *)

Lemma isValidPeriodForHourly_In (p : Z) :
  rest.isValidPeriodForHourly p = true <-> In p [1; 2; 4; 6; 8; 24].
Proof.
  unfold rest.isValidPeriodForHourly. rewrite existsb_exists. split.
  - intros (x & Hin & Heq). apply Z.eqb_eq in Heq. now subst x.
  - intros Hin. exists p. split; [ exact Hin | apply Z.eqb_refl ].
Qed.

Lemma isValidPeriodForMinute_In (p : Z) :
  rest.isValidPeriodForMinute p = true <-> In p [1; 5; 10; 15; 30].
Proof.
  unfold rest.isValidPeriodForMinute. rewrite existsb_exists. split.
  - intros (x & Hin & Heq). apply Z.eqb_eq in Heq. now subst x.
  - intros Hin. exists p. split; [ exact Hin | apply Z.eqb_refl ].
Qed.

Lemma timeseries_URL_valid (c : rest.RESTClient)
      (currency startDate endDate interval : string) (period : list Z) :
  (exists URL, rest.timeseries_URL c currency startDate endDate interval period = inl URL)
  <-> (rest.ToLower interval = "daily"%string
       \/ (rest.ToLower interval = "hourly"%string
           /\ exists p ps, period = p :: ps /\ In p [1; 2; 4; 6; 8; 24])
       \/ (rest.ToLower interval = "minute"%string
           /\ exists p ps, period = p :: ps /\ In p [1; 5; 10; 15; 30])).
Proof.
  unfold rest.timeseries_URL. cbv zeta.
  destruct (String.eqb_spec (rest.ToLower interval) "daily") as [Hd|Hd].
  { split; [ now left | intros _; eexists; reflexivity ]. }
  destruct (String.eqb_spec (rest.ToLower interval) "hourly") as [Hh|Hh].
  { cbn [orb]. destruct period as [|p ps].
    - split; [ intros (URL & E); discriminate E | ].
      intros [H|[(_ & p & ps & E & _)|(_ & p & ps & E & _)]];
        [ contradiction | discriminate E | discriminate E ].
    - destruct (rest.isValidPeriodForHourly p) eqn:Hv.
      + split; [ | intros _; eexists; reflexivity ].
        intros _. right. left. split; [ exact Hh | ].
        exists p, ps. split; [ reflexivity | now apply isValidPeriodForHourly_In ].
      + split; [ intros (URL & E); discriminate E | ].
        intros [H|[(_ & p' & ps' & E & Hin)|(Hm & _)]].
        * contradiction.
        * injection E as <- <-. apply isValidPeriodForHourly_In in Hin. congruence.
        * rewrite Hh in Hm. discriminate Hm. }
  destruct (String.eqb_spec (rest.ToLower interval) "minute") as [Hm|Hm].
  { cbn [orb]. destruct period as [|p ps].
    - split; [ intros (URL & E); discriminate E | ].
      intros [H|[(_ & p & ps & E & _)|(_ & p & ps & E & _)]];
        [ contradiction | discriminate E | discriminate E ].
    - destruct (rest.isValidPeriodForMinute p) eqn:Hv.
      + split; [ | intros _; eexists; reflexivity ].
        intros _. right. right. split; [ exact Hm | ].
        exists p, ps. split; [ reflexivity | now apply isValidPeriodForMinute_In ].
      + split; [ intros (URL & E); discriminate E | ].
        intros [H|[(Hh' & _)|(_ & p' & ps' & E & Hin)]].
        * contradiction.
        * contradiction.
        * injection E as <- <-. apply isValidPeriodForMinute_In in Hin. congruence. }
  cbn [orb]. split; [ intros (URL & E); discriminate E | ].
  intros [H|[(H & _)|(H & _)]]; contradiction.
Qed.

Lemma GetTimeSeriesData_calls (w : rest.world) (c : rest.RESTClient)
      (currency startDate endDate interval : string) (period : list Z) :
  rest.calls (rest.GetTimeSeriesData w c currency startDate endDate interval period) <> []
  <-> exists URL,
        rest.timeseries_URL c currency startDate endDate interval period = inl URL.
Proof.
  unfold rest.GetTimeSeriesData.
  destruct (rest.timeseries_URL c currency startDate endDate interval period) as [URL|e].
  - cbv zeta. rewrite request_calls. split; [ intros _; now exists URL | ].
    intros _. destruct (rest.http w _); discriminate.
  - cbn [rest.calls]. split; [ congruence | intros (URL & E); discriminate E ].
Qed.

(** X22.  [GetTimeSeriesData] sends a request exactly when the interval
    is, up to the case of its letters, [daily], or [hourly] with a first
    period among 1, 2, 4, 6, 8 and 24, or [minute] with a first period
    among 1, 5, 10, 15 and 30.  In every other case it returns an error
    without a request. *)
Theorem GetTimeSeriesData_sends_iff_valid
    (w : rest.world) (c : rest.RESTClient)
    (currency startDate endDate interval : string) (period : list Z) :
  (rest.calls (rest.GetTimeSeriesData w c currency startDate endDate interval period) <> []
   <-> (rest.ToLower interval = "daily"%string
        \/ (rest.ToLower interval = "hourly"%string
            /\ exists p ps, period = p :: ps /\ In p [1; 2; 4; 6; 8; 24])
        \/ (rest.ToLower interval = "minute"%string
            /\ exists p ps, period = p :: ps /\ In p [1; 5; 10; 15; 30])))
  /\ (rest.calls (rest.GetTimeSeriesData w c currency startDate endDate interval period) = []
      -> exists e,
          rest.returned
            (rest.GetTimeSeriesData w c currency startDate endDate interval period) = inr e).
Proof.
  split.
  - rewrite GetTimeSeriesData_calls. apply timeseries_URL_valid.
  - unfold rest.GetTimeSeriesData.
    destruct (rest.timeseries_URL c currency startDate endDate interval period) as [URL|e].
    + cbv zeta. rewrite request_calls. destruct (rest.http w _); discriminate.
    + intros _. now exists e.
Qed.

(** X23.  [GetTimeSeriesData] looks at the interval up to the case of its
    letters, and of the periods at the first one only; for the daily
    interval it looks at no period at all.  Two calls that agree on this
    and on the other arguments do the same, when the first of them sends
    a request. *)
Theorem GetTimeSeriesData_reads_case_folded_interval_and_first_period
    (w : rest.world) (c : rest.RESTClient)
    (currency startDate endDate interval interval' : string) (period period' : list Z)
    (Hinterval : rest.ToLower interval = rest.ToLower interval')
    (Hperiod : rest.ToLower interval = "daily"%string \/ hd_error period = hd_error period')
    (Hsent : rest.calls
               (rest.GetTimeSeriesData w c currency startDate endDate interval period)
             <> []) :
  rest.GetTimeSeriesData w c currency startDate endDate interval' period'
  = rest.GetTimeSeriesData w c currency startDate endDate interval period.
Proof.
  apply GetTimeSeriesData_calls in Hsent. destruct Hsent as (URL & E).
  unfold rest.GetTimeSeriesData. rewrite E.
  enough (E' : rest.timeseries_URL c currency startDate endDate interval' period'
               = inl URL) by now rewrite E'.
  revert E. unfold rest.timeseries_URL. cbv zeta. rewrite <- Hinterval.
  destruct (String.eqb_spec (rest.ToLower interval) "daily") as [Hd|Hd]; [ auto | ].
  destruct Hperiod as [Hp|Hp]; [ contradiction | ].
  destruct (String.eqb (rest.ToLower interval) "hourly"
            || String.eqb (rest.ToLower interval) "minute");
    [ | intros E; discriminate E ].
  destruct period as [|p ps]; [ intros E; discriminate E | ].
  destruct period' as [|p' ps']; [ discriminate Hp | ].
  injection Hp as <-. auto.
Qed.

Lemma GetTimeSeriesData_reads_case_folded_interval_and_first_period_witness :
  rest.GetTimeSeriesData (sample_world 200 live_body) (rest.NewRESTClient "key")
                         "EURUSD" "2024-10-01 10:00" "2024-10-02-11:00" "hourly" [4]
  = rest.GetTimeSeriesData (sample_world 200 live_body) (rest.NewRESTClient "key")
                           "EURUSD" "2024-10-01 10:00" "2024-10-02-11:00" "Hourly" [4; 7].
Proof.
  apply (GetTimeSeriesData_reads_case_folded_interval_and_first_period
           (sample_world 200 live_body) (rest.NewRESTClient "key")
           "EURUSD" "2024-10-01 10:00" "2024-10-02-11:00" "Hourly" "hourly" [4; 7] [4]).
  - reflexivity.
  - right. reflexivity.
  - vm_compute. discriminate.
Defined.

(** *** The intervals of [GetHistoricalRates] *)

Lemma GetHistoricalRates_calls (w : rest.world) (c : rest.RESTClient)
      (currency dateTime interval : string) :
  rest.calls (rest.GetHistoricalRates w c currency dateTime interval) <> []
  <-> interval = "minute"%string \/ interval = "hour"%string \/ interval = "day"%string.
Proof.
  unfold rest.GetHistoricalRates, rest.sendHistoricalRequest. cbv zeta.
  destruct (String.eqb_spec interval "minute") as [Hm|Hm].
  { cbn [rest.map_outcome rest.calls]. rewrite request_calls.
    split; [ now left | intros _; destruct (rest.http w _); discriminate ]. }
  destruct (String.eqb_spec interval "hour") as [Hh|Hh].
  { cbn [rest.map_outcome rest.calls]. rewrite request_calls.
    split; [ now right; left | intros _; destruct (rest.http w _); discriminate ]. }
  destruct (String.eqb_spec interval "day") as [Hd|Hd].
  { cbn [rest.map_outcome rest.calls]. rewrite request_calls.
    split; [ now right; right | intros _; destruct (rest.http w _); discriminate ]. }
  cbn [rest.calls]. split; [ congruence | ].
  intros [H|[H|H]]; contradiction.
Qed.

(** X24.  [GetHistoricalRates] compares the interval as it is typed, and
    [GetTimeSeriesData] knows other words than [GetHistoricalRates]: the
    only interval for which both send a request is [minute], in lower
    case. *)
Theorem minute_is_the_only_interval_of_both_methods
    (w : rest.world) (c : rest.RESTClient)
    (currency dateTime startDate endDate interval : string) (period : list Z)
    (Hhistorical :
       rest.calls (rest.GetHistoricalRates w c currency dateTime interval) <> [])
    (Hseries :
       rest.calls (rest.GetTimeSeriesData w c currency startDate endDate interval period)
       <> []) :
  interval = "minute"%string.
Proof.
  apply GetHistoricalRates_calls in Hhistorical.
  apply GetTimeSeriesData_calls, timeseries_URL_valid in Hseries.
  destruct Hhistorical as [H|[H|H]]; [ exact H | | ]; subst interval; exfalso;
    destruct Hseries as [H|[(H & _)|(H & _)]]; vm_compute in H; discriminate H.
Qed.

Lemma minute_is_the_only_interval_of_both_methods_witness :
  rest.calls (rest.GetHistoricalRates (sample_world 200 live_body)
                (rest.NewRESTClient "key") "EURUSD" "2024-10-02-10:15" "minute") <> []
  /\ rest.calls (rest.GetTimeSeriesData (sample_world 200 live_body)
                   (rest.NewRESTClient "key")
                   "EURUSD" "2024-10-02" "2024-10-02-23:59" "minute" [15]) <> []
  /\ "minute"%string = "minute"%string.
Proof.
  assert (H1 : rest.calls (rest.GetHistoricalRates (sample_world 200 live_body)
                 (rest.NewRESTClient "key") "EURUSD" "2024-10-02-10:15" "minute") <> [])
    by (vm_compute; discriminate).
  assert (H2 : rest.calls (rest.GetTimeSeriesData (sample_world 200 live_body)
                 (rest.NewRESTClient "key")
                 "EURUSD" "2024-10-02" "2024-10-02-23:59" "minute" [15]) <> [])
    by (vm_compute; discriminate).
  split; [ exact H1 | split; [ exact H2 | ] ].
  exact (minute_is_the_only_interval_of_both_methods
           (sample_world 200 live_body) (rest.NewRESTClient "key")
           "EURUSD" "2024-10-02-10:15" "2024-10-02" "2024-10-02-23:59" "minute" [15]
           H1 H2).
Defined.

(** X25.  What [GetHistoricalRates] returns behind its [interface{}]
    follows the interval: a [HistoricalRate] for [day], a
    [HistoricalData] for [minute] and for [hour], and never a value for
    another interval. *)
Theorem GetHistoricalRates_kind_of_value
    (w : rest.world) (c : rest.RESTClient) (currency dateTime interval : string)
    (v : rest.Historical)
    (H : rest.returned (rest.GetHistoricalRates w c currency dateTime interval) = inl v) :
  match v with
  | rest.OfHistoricalRate _ => interval = "day"%string
  | rest.OfHistoricalData _ => interval = "minute"%string \/ interval = "hour"%string
  end.
Proof.
  revert H. unfold rest.GetHistoricalRates. cbv zeta.
  destruct (String.eqb_spec interval "minute") as [Hm|Hm].
  { unfold rest.map_outcome. cbn [rest.returned].
    destruct (rest.returned _); intros E; [ | discriminate E ].
    injection E as <-. now left. }
  destruct (String.eqb_spec interval "hour") as [Hh|Hh].
  { unfold rest.map_outcome. cbn [rest.returned].
    destruct (rest.returned _); intros E; [ | discriminate E ].
    injection E as <-. now right. }
  destruct (String.eqb_spec interval "day") as [Hd|Hd].
  { unfold rest.map_outcome. cbn [rest.returned].
    destruct (rest.returned _); intros E; [ | discriminate E ].
    injection E as <-. exact Hd. }
  cbn [rest.returned]. intros E. discriminate E.
Qed.

Lemma GetHistoricalRates_kind_of_value_witness :
  "day"%string = "day"%string.
Proof.
  apply (GetHistoricalRates_kind_of_value
           (sample_world 200 historical_body) (rest.NewRESTClient "key")
           "EURUSD" "2024-10-01" "day"
           (rest.OfHistoricalRate
              (rest.mkHistoricalRate "2024-10-01" "historical"
                 [rest.mkHistoricalQuote EmptyString EmptyString
                    (Float64 "1.1") float64_zero float64_zero (Float64 "1.2")]
                 EmptyString))).
  vm_compute. reflexivity.
Defined.

(** *** The URLs of [ConvertCurrency] and [GetLiveRates] *)

Lemma ConvertCurrency_URL (w : rest.world) (c : rest.RESTClient)
      (from to amount : string) :
  rest.ConvertCurrency w c from to amount =
  rest.request w
    (cat ["https://marketdata.tradermade.com/api/v1/convert?from="; without_spaces from;
          "&to="; without_spaces to; "&amount="; without_spaces amount;
          "&api_key="; without_spaces (rest.APIKey c)]%string)
    (rest.status_error w "API request failed with status code %d: %v")
    (rest.Unmarshal_ConvertResponse w).
Proof.
  unfold rest.ConvertCurrency. cbv zeta. f_equal.
  change (rest.Sprintf _ _)
    with (String.append "https://marketdata.tradermade.com/api/v1/convert?from="
            (String.append from
               (String.append "&to="
                  (String.append to
                     (String.append "&amount="
                        (String.append amount
                           (String.append "&api_key="
                              (String.append (rest.APIKey c) EmptyString)))))))).
  rewrite !ReplaceAll_append. reflexivity.
Qed.

(** X26.  [ConvertCurrency] drops every space of its arguments instead of
    encoding it, so two calls whose currencies differ in spaces only send
    the same request and return the same. *)
Theorem ConvertCurrency_drops_spaces
    (w : rest.world) (c : rest.RESTClient) (from to from' to' amount : string)
    (Hfrom : without_spaces from = without_spaces from')
    (Hto : without_spaces to = without_spaces to') :
  rest.ConvertCurrency w c from to amount = rest.ConvertCurrency w c from' to' amount.
Proof. rewrite !ConvertCurrency_URL. now rewrite Hfrom, Hto. Qed.

Lemma ConvertCurrency_drops_spaces_witness :
  rest.ConvertCurrency (sample_world 200 live_body) (rest.NewRESTClient "key")
                       "EUR " "GBP" "1000.000000"
  = rest.ConvertCurrency (sample_world 200 live_body) (rest.NewRESTClient "key")
                         "EUR" " G B P" "1000.000000".
Proof.
  apply (ConvertCurrency_drops_spaces
           (sample_world 200 live_body) (rest.NewRESTClient "key")
           "EUR " "GBP" "EUR" " G B P" "1000.000000").
  - reflexivity.
  - reflexivity.
Defined.

(** X27.  [GetLiveRates] sends a request for every list of currencies,
    the empty one too.  The URL names the currencies separated by commas
    and then the key, each space in them written as [%20]. *)
Theorem GetLiveRates_always_requests
    (w : rest.world) (c : rest.RESTClient) (currencies : list string) :
  exists more,
    rest.calls (rest.GetLiveRates w c currencies) =
    rest.Get
      (cat ["https://marketdata.tradermade.com/api/v1/live?currency=";
            rest.ReplaceAll (String.concat "," currencies) " " "%20";
            "&api_key="; rest.ReplaceAll (rest.APIKey c) " " "%20"]%string)
    :: more.
Proof.
  unfold rest.GetLiveRates. cbv zeta. rewrite request_calls.
  change (rest.Sprintf _ _)
    with (String.append "https://marketdata.tradermade.com/api/v1/live?currency="
            (String.append (rest.joinStrings currencies)
               (String.append "&api_key="
                  (String.append (rest.APIKey c) EmptyString)))).
  rewrite !ReplaceAll_append, joinStrings_concat.
  unfold cat. cbn [fold_right].
  destruct (rest.http w _); eexists; reflexivity.
Qed.

(** *** The decoders of [encoding/json] *)

Lemma Unmarshal_null {S : Type} (name : string) (fs : list (rest.field S)) (zero : S)
      (body : string) :
  json.parse body = Some json.Null -> rest.Unmarshal name fs zero body = (zero, None).
Proof. intros H. unfold rest.Unmarshal. now rewrite H. Qed.

Ltac null_body Hreply Hbody Hstatus Hnull :=
  rewrite request_returned; cbn [rest.http rest.go_world];
  rewrite Hreply, Hbody, Hstatus;
  change (negb (200 =? rest.StatusOK)) with false; cbv iota;
  unfold rest.decode_ok;
  cbn [rest.Unmarshal_ErrorResponseOK rest.Unmarshal_LiveRate
       rest.Unmarshal_HistoricalData rest.Unmarshal_HistoricalRate
       rest.Unmarshal_TimeSeriesRate rest.Unmarshal_ConvertResponse rest.go_world];
  rewrite !(Unmarshal_null _ _ _ _ Hnull); reflexivity.

(** X28.  With the decoders of [encoding/json], a reply with status 200
    whose body is the JSON value [null] is no error: the decoders leave
    the structs as they are, so the method returns a value, the zero
    value of its struct. *)
Theorem null_body_is_a_value
    (net : string -> rest.Response + error) (sprint : json.value -> string)
    (c : rest.RESTClient) (i : invocation)
    (url : string) (resp : rest.Response) (body : string)
    (Hcalls : rest.calls (invoke (rest.go_world net sprint) c i)
              = [rest.Get url; rest.BodyClose])
    (Hreply : net url = inl resp)
    (Hstatus : rest.StatusCode resp = 200)
    (Hbody : rest.Body resp = inl body)
    (Hnull : json.parse body = Some json.Null) :
  rest.returned (invoke (rest.go_world net sprint) c i) = inl tt.
Proof.
  destruct i as [currencies | currency dateTime interval
                 | currency startDate endDate interval period | from to amount];
    cbn [invoke] in *.
  - unfold rest.GetLiveRates in *. cbv zeta in *.
    rewrite map_outcome_request in *. rewrite request_calls in Hcalls.
    requested_url Hcalls. null_body Hreply Hbody Hstatus Hnull.
  - unfold rest.GetHistoricalRates, rest.sendHistoricalRequest in *. cbv zeta in *.
    destruct (String.eqb interval "minute");
      [ | destruct (String.eqb interval "hour");
          [ | destruct (String.eqb interval "day"); [ | discriminate Hcalls ] ] ].
    all: rewrite !map_outcome_request in *; rewrite request_calls in Hcalls;
      requested_url Hcalls; null_body Hreply Hbody Hstatus Hnull.
  - unfold rest.GetTimeSeriesData in *.
    destruct (rest.timeseries_URL c currency startDate endDate interval period)
      as [URL|e]; [ | discriminate Hcalls ].
    cbv zeta in *. rewrite map_outcome_request in *. rewrite request_calls in Hcalls.
    requested_url Hcalls. null_body Hreply Hbody Hstatus Hnull.
  - unfold rest.ConvertCurrency in *. cbv zeta in *.
    rewrite map_outcome_request in *. rewrite request_calls in Hcalls.
    requested_url Hcalls. null_body Hreply Hbody Hstatus Hnull.
Qed.

Lemma null_body_is_a_value_witness :
  rest.returned (invoke (sample_world 200 " null ") (rest.NewRESTClient "key")
                        (CallGetTimeSeriesData "EURUSD" "2019-10-01" "2019-10-10"
                                               "daily" [])) = inl tt.
Proof.
  apply (null_body_is_a_value
           (answers 200 " null ") sample_sprint (rest.NewRESTClient "key")
           (CallGetTimeSeriesData "EURUSD" "2019-10-01" "2019-10-10" "daily" [])
           "https://marketdata.tradermade.com/api/v1/timeseries?currency=EURUSD&start_date=2019-10-01&end_date=2019-10-10&format=records&api_key=key&interval=daily"
           (rest.mkResponse 200 (inl " null "%string)) " null ").
  - vm_compute. reflexivity.
  - reflexivity.
  - reflexivity.
  - reflexivity.
  - vm_compute. reflexivity.
Defined.
